(** * claude-code-skills: the command-line tools, embedded and verified

    A shallow embedding of the four stand-alone scripts of the repository

    - [build.py]                                    (archive builder),
    - [skills/agile-board/scripts/setup.py]         (setup wizard),
    - [skills/requirements-design/scripts/convert-docs-to-md.py]
                                                    (document converter),
    - [skills/requirements-design/scripts/sharepoint-access.py]
                                                    (remote file browser),

    with the properties stated about them.

    Conventions.  A Python [str] is a Coq [string], read as the UTF-8
    encoding of the text; the operations that Python defines through the
    Unicode tables ([strip], [lower], [upper], [int]) are embedded on the
    ASCII range, where the scripts' literals live.  A Python exception is
    the [Raise] outcome of a computation and [sys.exit] the [Exit]
    outcome; indexing a list is partial, as in Python. *)

From Stdlib Require Import String Ascii List ZArith Bool Lia PeanoNat.
Import ListNotations.
Open Scope string_scope.

Set Implicit Arguments.

(* ================================================================== *)
(** * Outcomes of Python computations *)
(* ================================================================== *)

Inductive exn : Type :=
| ValueError | IndexError | KeyError | TypeError | AttributeError
| EOFError | FileNotFoundError | NotADirectoryError | KeyboardInterrupt.

Inductive outcome (A : Type) : Type :=
| Ret (a : A)
| Raise (e : exn)
| Exit (code : Z).

Arguments Ret {A} a.
Arguments Raise {A} e.
Arguments Exit {A} code.

Definition bind {A B} (m : outcome A) (k : A -> outcome B) : outcome B :=
  match m with
  | Ret a => k a
  | Raise e => Raise e
  | Exit c => Exit c
  end.

Declare Scope py_scope.
Delimit Scope py_scope with py.
Notation "x <- m ;; k" := (bind m (fun x => k))
  (at level 61, m at next level, right associativity) : py_scope.

(** [l[i]] for a non-negative literal index. *)
Definition item {A} (l : list A) (i : nat) : outcome A :=
  match nth_error l i with
  | Some a => Ret a
  | None => Raise IndexError
  end.

(** Computations over a world [W]: an outcome and the world it leaves.
    An exception or an exit keeps the effects made before it. *)
Definition io (W A : Type) : Type := W -> outcome A * W.

Definition ret {W A} (a : A) : io W A := fun w => (Ret a, w).
Definition raise {W A} (e : exn) : io W A := fun w => (Raise e, w).
Definition sys_exit {W A} (code : Z) : io W A := fun w => (Exit code, w).
Definition lift {W A} (m : outcome A) : io W A := fun w => (m, w).

Definition iobind {W A B} (m : io W A) (k : A -> io W B) : io W B :=
  fun w =>
    match m w with
    | (Ret a, w') => k a w'
    | (Raise e, w') => (Raise e, w')
    | (Exit c, w') => (Exit c, w')
    end.

Declare Scope io_scope.
Delimit Scope io_scope with io.
Notation "x <- m ;; k" := (iobind m (fun x => k))
  (at level 61, m at next level, right associativity) : io_scope.
Notation "m ;; k" := (iobind m (fun _ => k))
  (at level 61, right associativity) : io_scope.

(** [for x in l: body x] *)
Fixpoint for_each {W A} (l : list A) (body : A -> io W unit) : io W unit :=
  match l with
  | [] => ret tt
  | x :: r => iobind (body x) (fun _ => for_each r body)
  end.

(** The status with which the interpreter ends a script whose top level
    produced this outcome. *)
Definition exit_status {A} (o : outcome A) : Z :=
  match o with
  | Ret _ => 0%Z
  | Raise _ => 1%Z
  | Exit c => c
  end.

(* ================================================================== *)
(** * Python string operations *)
(* ================================================================== *)

Module PyStr.

Definition startswith (s p : string) : bool := String.prefix p s.

Fixpoint drop (n : nat) (s : string) : string :=
  match n, s with
  | O, _ => s
  | S _, EmptyString => EmptyString
  | S k, String _ r => drop k r
  end.

(** [cut sep s] is [s.partition(sep)] when [sep] occurs in [s]: the
    text before the first occurrence and the text after it. *)
Fixpoint cut (sep s : string) : option (string * string) :=
  if String.prefix sep s then Some (EmptyString, drop (String.length sep) s)
  else match s with
       | EmptyString => None
       | String c r =>
           match cut sep r with
           | Some (a, b) => Some (String c a, b)
           | None => None
           end
       end.

(** [sep in s] *)
Definition contains (sep s : string) : bool :=
  match cut sep s with Some _ => true | None => false end.

(** [s.split(sep, maxsplit)] for a non-empty [sep]. *)
Fixpoint split (sep : string) (maxsplit : nat) (s : string) : list string :=
  match maxsplit with
  | O => [s]
  | S n =>
      match cut sep s with
      | Some (a, b) => a :: split sep n b
      | None => [s]
      end
  end.

(** [s.split(sep)]: no bound on the number of cuts; a string of length
    [n] has at most [n] occurrences of a non-empty separator. *)
Definition split_all (sep s : string) : list string :=
  split sep (String.length s) s.

(** [sep.join(l)] *)
Fixpoint join (sep : string) (l : list string) : string :=
  match l with
  | [] => EmptyString
  | [a] => a
  | a :: r => a ++ sep ++ join sep r
  end.

Definition is_upper (c : ascii) : bool :=
  let n := nat_of_ascii c in ((65 <=? n) && (n <=? 90))%nat.
Definition is_lower (c : ascii) : bool :=
  let n := nat_of_ascii c in ((97 <=? n) && (n <=? 122))%nat.
Definition is_digit (c : ascii) : bool :=
  let n := nat_of_ascii c in ((48 <=? n) && (n <=? 57))%nat.
Definition is_alpha (c : ascii) : bool := is_upper c || is_lower c.

Definition lower_char (c : ascii) : ascii :=
  if is_upper c then ascii_of_nat (nat_of_ascii c + 32) else c.
Definition upper_char (c : ascii) : ascii :=
  if is_lower c then ascii_of_nat (nat_of_ascii c - 32) else c.

Fixpoint map_chars (f : ascii -> ascii) (s : string) : string :=
  match s with
  | EmptyString => EmptyString
  | String c r => String (f c) (map_chars f r)
  end.

Definition lower : string -> string := map_chars lower_char.
Definition upper : string -> string := map_chars upper_char.

(** [str.isspace] on the ASCII range: TAB, LF, VT, FF, CR, the four
    separators FS, GS, RS, US, and the space. *)
Definition is_space (c : ascii) : bool :=
  let n := nat_of_ascii c in
  (((9 <=? n) && (n <=? 13)) || ((28 <=? n) && (n <=? 32)))%nat.

Fixpoint lstrip_by (p : ascii -> bool) (s : string) : string :=
  match s with
  | EmptyString => EmptyString
  | String c r => if p c then lstrip_by p r else s
  end.

Fixpoint rstrip_by (p : ascii -> bool) (s : string) : string :=
  match s with
  | EmptyString => EmptyString
  | String c r =>
      match rstrip_by p r with
      | EmptyString => if p c then EmptyString else String c EmptyString
      | r' => String c r'
      end
  end.

Definition strip (s : string) : string :=
  rstrip_by is_space (lstrip_by is_space s).

Fixpoint remove_chars (p : ascii -> bool) (s : string) : string :=
  match s with
  | EmptyString => EmptyString
  | String c r => if p c then remove_chars p r else String c (remove_chars p r)
  end.

Fixpoint all_chars (p : ascii -> bool) (s : string) : bool :=
  match s with
  | EmptyString => true
  | String c r => p c && all_chars p r
  end.

Definition is_ascii (c : ascii) : bool := (nat_of_ascii c <? 128)%nat.

(** [s.endswith(suffix)] *)
Fixpoint endswith (s suffix : string) : bool :=
  String.eqb s suffix
  || match s with
     | EmptyString => false
     | String _ r => endswith r suffix
     end.

(** The text before the last occurrence of the character and the text
    after it. *)
Fixpoint rcut_char (c : ascii) (s : string) : option (string * string) :=
  match s with
  | EmptyString => None
  | String x r =>
      match rcut_char c r with
      | Some (a, b) => Some (String x a, b)
      | None => if Ascii.eqb x c then Some (EmptyString, r) else None
      end
  end.

(** [sorted] on strings: insertion sort by the order of the characters'
    codes, stable as Python's. *)
Fixpoint insert_sorted (x : string) (l : list string) : list string :=
  match l with
  | [] => [x]
  | y :: r => if String.ltb x y then x :: l else y :: insert_sorted x r
  end.

Definition sorted (l : list string) : list string :=
  fold_right insert_sorted [] l.

Fixpoint dedup (l : list string) : list string :=
  match l with
  | [] => []
  | x :: r => if existsb (String.eqb x) r then dedup r else x :: dedup r
  end.

(** [str(n)] for an integer. *)
Definition digit_char (n : nat) : ascii := ascii_of_nat (48 + n).

Fixpoint digits (fuel : nat) (n : N) (acc : string) : string :=
  match fuel with
  | O => acc
  | S f =>
      let acc' := String (digit_char (N.to_nat (n mod 10))) acc in
      if (n <? 10)%N then acc' else digits f (n / 10) acc'
  end.

Definition str_of_N (n : N) : string := digits (S (N.size_nat n)) n EmptyString.

Definition str_of_Z (z : Z) : string :=
  match z with
  | Zneg _ => "-" ++ str_of_N (Z.abs_N z)
  | _ => str_of_N (Z.abs_N z)
  end.

End PyStr.

(* ================================================================== *)
(** * [pathlib] on a POSIX system *)
(* ================================================================== *)

(** A pure path is its root (empty, ["/"] or ["//"]) and its components;
    parsing drops empty and ["."] components, as [pathlib] does.  The
    suffix rule is the one of CPython up to 3.12. *)

Module Pathlib.

Record Path : Type := { root : string; comps : list string }.

Definition parse_root (s : string) : string :=
  match s with
  | String "/" (String "/" (String "/" _)) => "/"
  | String "/" (String "/" _) => "//"
  | String "/" _ => "/"
  | _ => EmptyString
  end.

Definition keep_comp (c : string) : bool :=
  negb (String.eqb c EmptyString) && negb (String.eqb c ".").

(** [Path(s)] *)
Definition of_string (s : string) : Path :=
  {| root := parse_root s;
     comps := filter keep_comp (PyStr.split_all "/" s) |}.

(** [str(p)] *)
Definition to_string (p : Path) : string :=
  match root p, comps p with
  | EmptyString, [] => "."
  | r, l => r ++ PyStr.join "/" l
  end.

(** [p.parts] *)
Definition parts (p : Path) : list string :=
  match root p with
  | EmptyString => comps p
  | r => r :: comps p
  end.

Definition is_absolute (p : Path) : bool := negb (String.eqb (root p) EmptyString).

(** [p / q] *)
Definition joinpath (p q : Path) : Path :=
  if is_absolute q then q
  else {| root := root p; comps := comps p ++ comps q |}.

Definition name (p : Path) : string := last (comps p) EmptyString.

Definition parent (p : Path) : Path :=
  {| root := root p; comps := removelast (comps p) |}.

(** The suffix of a file name: from its last dot, unless that dot is the
    first or the last character. *)
Definition split_suffix (nm : string) : string * string :=
  match PyStr.rcut_char "."%char nm with
  | Some (String c pre, String d post) =>
      (String c pre, "." ++ String d post)
  | _ => (nm, EmptyString)
  end.

Definition suffix (p : Path) : string := snd (split_suffix (name p)).
Definition stem (p : Path) : string := fst (split_suffix (name p)).

(** [p.with_suffix(sfx)] for a suffix that starts with a dot, as both
    call sites pass; a path without a name is refused. *)
Definition with_suffix (p : Path) (sfx : string) : outcome Path :=
  if String.eqb (name p) EmptyString then Raise ValueError
  else Ret {| root := root p;
              comps := removelast (comps p) ++ [stem p ++ sfx] |}.

Fixpoint strip_prefix (pre l : list string) : option (list string) :=
  match pre, l with
  | [], _ => Some l
  | x :: pre', y :: l' => if String.eqb x y then strip_prefix pre' l' else None
  | _ :: _, [] => None
  end.

(** [p.relative_to(other)] *)
Definition relative_to (p other : Path) : outcome Path :=
  if String.eqb (root p) (root other) then
    match strip_prefix (comps other) (comps p) with
    | Some rest => Ret {| root := EmptyString; comps := rest |}
    | None => Raise ValueError
    end
  else Raise ValueError.

Definition eqb (p q : Path) : bool :=
  String.eqb (root p) (root q)
  && (List.length (comps p) =? List.length (comps q))%nat
  && forallb (fun '(a, b) => String.eqb a b) (combine (comps p) (comps q)).

End Pathlib.

(* ================================================================== *)
(** * The parts of [urllib.parse] the file browser calls *)
(* ================================================================== *)

(** The embedding follows CPython 3.11/3.12's [Lib/urllib/parse.py].  Two
    checks of [urlsplit] consult tables that are outside this
    development: the validation of a bracketed host as an IP literal
    ([_check_bracketed_netloc]) and the NFKC normalisation of a
    non-ASCII authority ([_checknetloc]).  They are the two variables of
    the section; each answers whether the library accepts the
    authority. *)

Module Urllib.

Record ParseResult : Type := {
  scheme : string; netloc : string; path : string;
  params : string; query : string; fragment : string }.

Definition code (c : ascii) : nat := nat_of_ascii c.

Definition hexval (c : ascii) : option nat :=
  let n := code c in
  if PyStr.is_digit c then Some (n - 48)
  else if ((65 <=? n) && (n <=? 70))%nat then Some (n - 55)
  else if ((97 <=? n) && (n <=? 102))%nat then Some (n - 87)
  else None.

(** U+FFFD REPLACEMENT CHARACTER, in UTF-8. *)
Definition replacement : string :=
  String (ascii_of_nat 239) (String (ascii_of_nat 191)
    (String (ascii_of_nat 189) EmptyString)).

Definition is_cont (c : ascii) : bool :=
  ((128 <=? code c) && (code c <? 192))%nat.

(** [bytes.decode('utf-8', errors='replace')], with the result again in
    UTF-8: well-formed sequences are kept, and each maximal ill-formed
    prefix becomes one U+FFFD (the cases of CPython's [utf8_decode]). *)
Fixpoint decode_replace (s : string) : string :=
  match s with
  | EmptyString => EmptyString
  | String c0 t =>
    let n0 := code c0 in
    if (n0 <? 128)%nat then String c0 (decode_replace t)
    else if (n0 <? 194)%nat then replacement ++ decode_replace t
    else if (n0 <? 224)%nat then
      match t with
      | EmptyString => replacement
      | String c1 u =>
          if is_cont c1 then String c0 (String c1 (decode_replace u))
          else replacement ++ decode_replace t
      end
    else if (n0 <? 240)%nat then
      match t with
      | EmptyString => replacement
      | String c1 u =>
          if negb (is_cont c1)
             || (if (code c1 <? 160)%nat then (n0 =? 224)%nat else (n0 =? 237)%nat)
          then replacement ++ decode_replace t
          else match u with
               | EmptyString => replacement
               | String c2 v =>
                   if is_cont c2
                   then String c0 (String c1 (String c2 (decode_replace v)))
                   else replacement ++ decode_replace u
               end
      end
    else if (n0 <? 245)%nat then
      match t with
      | EmptyString => replacement
      | String c1 u =>
          if negb (is_cont c1)
             || (if (code c1 <? 144)%nat then (n0 =? 240)%nat else (n0 =? 244)%nat)
          then replacement ++ decode_replace t
          else match u with
               | EmptyString => replacement
               | String c2 v =>
                   if negb (is_cont c2) then replacement ++ decode_replace u
                   else match v with
                        | EmptyString => replacement
                        | String c3 w =>
                            if is_cont c3
                            then String c0 (String c1 (String c2
                                   (String c3 (decode_replace w))))
                            else replacement ++ decode_replace v
                        end
               end
      end
    else replacement ++ decode_replace t
  end.

(** [unquote]: [pending] holds the bytes of the current run of ASCII
    characters after [unquote_to_bytes] ([%xx] with two hexadecimal
    digits becomes the byte, any other [%] stays); the run is decoded
    when a non-ASCII character or the end of the string closes it. *)
Fixpoint unquote_go (pending s : string) : string :=
  match s with
  | EmptyString => decode_replace pending
  | String c r =>
    if PyStr.is_ascii c then
      if Ascii.eqb c "%"%char then
        match r with
        | String a (String b r') =>
            match hexval a, hexval b with
            | Some x, Some y =>
                unquote_go (pending ++ String (ascii_of_nat (16 * x + y)) EmptyString) r'
            | _, _ => unquote_go (pending ++ "%") r
            end
        | _ => unquote_go (pending ++ "%") r
        end
      else unquote_go (pending ++ String c EmptyString) r
    else decode_replace pending ++ String c (unquote_go EmptyString r)
  end.

Definition unquote (s : string) : string := unquote_go EmptyString s.

Definition uses_params : list string :=
  [""; "ftp"; "hdl"; "prospero"; "http"; "imap"; "https"; "shttp"; "rtsp";
   "rtspu"; "sip"; "sips"; "mms"; "sftp"; "tel"].

Definition scheme_char (c : ascii) : bool :=
  PyStr.is_alpha c || PyStr.is_digit c
  || Ascii.eqb c "+"%char || Ascii.eqb c "-"%char || Ascii.eqb c "."%char.

Definition mem_string (x : string) (l : list string) : bool :=
  existsb (String.eqb x) l.

(** The characters [urlsplit] strips from the left (C0 controls and the
    space) and those it removes everywhere (TAB, LF, CR). *)
Definition c0_or_space (c : ascii) : bool := (code c <=? 32)%nat.
Definition unsafe_byte (c : ascii) : bool :=
  ((code c =? 9) || (code c =? 10) || (code c =? 13))%nat.

Definition netloc_delim (c : ascii) : bool :=
  Ascii.eqb c "/"%char || Ascii.eqb c "?"%char || Ascii.eqb c "#"%char.

(** The longest prefix without a character of [p], and the rest. *)
Fixpoint span_until (p : ascii -> bool) (s : string) : string * string :=
  match s with
  | EmptyString => (EmptyString, EmptyString)
  | String c r =>
      if p c then (EmptyString, s)
      else let '(a, b) := span_until p r in (String c a, b)
  end.

(** [_splitnetloc(url, 2)] *)
Definition _splitnetloc (url : string) : string * string :=
  span_until netloc_delim (PyStr.drop 2 url).

(** [_splitparams], called when [';'] occurs in [url]. *)
Definition _splitparams (url : string) : string * string :=
  match PyStr.rcut_char "/"%char url with
  | Some (dir, last) =>
      match PyStr.cut ";" last with
      | Some (a, b) => (dir ++ "/" ++ a, b)
      | None => (url, EmptyString)
      end
  | None =>
      match PyStr.cut ";" url with
      | Some (a, b) => (a, b)
      | None => (url, EmptyString)
      end
  end.

Section Checks.

(** Does [_check_bracketed_netloc] accept this authority? *)
Variable bracketed_ok : string -> bool.
(** Does [_checknetloc] accept this non-ASCII authority? *)
Variable nfkc_ok : string -> bool.

Definition urlsplit (url0 : string)
  : outcome (string * string * string * string * string) :=
  let url := PyStr.lstrip_by c0_or_space url0 in
  let url := PyStr.remove_chars unsafe_byte url in
  let '(scheme, url) :=
    match PyStr.cut ":" url with
    | Some (String c0 pre, post) =>
        if PyStr.is_alpha c0 && PyStr.all_chars scheme_char (String c0 pre)
        then (PyStr.lower (String c0 pre), post)
        else (EmptyString, url)
    | _ => (EmptyString, url)
    end in
  (let '(netloc, url) :=
     if PyStr.startswith url "//" then _splitnetloc url
     else (EmptyString, url) in
   let has_open := PyStr.contains "[" netloc in
   let has_close := PyStr.contains "]" netloc in
   if (has_open && negb has_close) || (has_close && negb has_open)
   then Raise ValueError
   else if has_open && has_close && negb (bracketed_ok netloc)
   then Raise ValueError
   else
     let '(url, fragment) :=
       match PyStr.cut "#" url with
       | Some (a, b) => (a, b)
       | None => (url, EmptyString)
       end in
     let '(url, query) :=
       match PyStr.cut "?" url with
       | Some (a, b) => (a, b)
       | None => (url, EmptyString)
       end in
     if negb (String.eqb netloc EmptyString)
        && negb (PyStr.all_chars PyStr.is_ascii netloc)
        && negb (nfkc_ok netloc)
     then Raise ValueError
     else Ret (scheme, netloc, url, query, fragment))%py.

Definition urlparse (url0 : string) : outcome ParseResult :=
  (r <- urlsplit url0 ;;
   let '(scheme, netloc, url, query, fragment) := r in
   let '(url, params) :=
     if mem_string scheme uses_params && PyStr.contains ";" url
     then _splitparams url
     else (url, EmptyString) in
   Ret {| scheme := scheme; netloc := netloc; path := url;
          params := params; query := query; fragment := fragment |})%py.

End Checks.

End Urllib.

(* ================================================================== *)
(** * sharepoint-access.py: [SharePointAccess._parse_url] *)
(* ================================================================== *)

Module SharePoint.

(** The sharing URL of the specification, alone and with an [id]
    parameter; the same URL with an [id] that names a site only, and
    with one that is not under [/sites/]; a URL whose authority opens a
    bracket. *)
Definition sharing_url : string :=
  "https://co.sharepoint.com/sites/S/Shared%20Documents/a/b.docx".
Definition sharing_url_other_id : string :=
  sharing_url ++ "?id=%2Fteams%2FT%2FLib".
Definition sharing_url_open_bracket : string :=
  "https://[co.sharepoint.com/sites/S".

(** The sharing URL with a [uid] parameter before the [id] parameter. *)
Definition sharing_url_uid_then_id : string :=
  sharing_url ++ "?uid=7&id=%2Fsites%2FS%2FLib%2Fa%2Fb.docx".

Section ParseUrl.

Variable bracketed_ok : string -> bool.
Variable nfkc_ok : string -> bool.

(** Lines 56-68: the site path and the item path from the decoded path
    of the URL, cut at the ['/sites/'] marker. *)
Definition path_segments (full_path : string) : outcome (string * string) :=
  (if PyStr.contains "/sites/" full_path then
     let parts := PyStr.split "/sites/" 1 full_path in
     if (1 <? List.length parts)%nat then
       p1 <- item parts 1 ;;
       let site_parts := PyStr.split "/" 1 p1 in
       s0 <- item site_parts 0 ;;
       item_path <-
         (if (1 <? List.length site_parts)%nat
          then s1 <- item site_parts 1 ;; Ret ("/" ++ s1)
          else Ret EmptyString) ;;
       Ret ("/sites/" ++ s0, item_path)
     else Ret (EmptyString, full_path)
   else Ret (EmptyString, full_path))%py.

(** Line 73: [url.split('id=')[1].split('&')[0]] *)
Definition id_param (url : string) : outcome string :=
  (after <- item (PyStr.split_all "id=" url) 1 ;;
   item (PyStr.split_all "&" after) 0)%py.

(** Lines 72-80: the [id=] parameter, when it decodes to a path under
    ['/sites/'] with at least four parts, replaces both paths. *)
Definition id_override (url : string) (segs : string * string)
  : outcome (string * string) :=
  (if PyStr.contains "id=" url then
     p <- id_param url ;;
     let id_decoded := Urllib.unquote p in
     if PyStr.startswith id_decoded "/sites/" then
       let id_parts := PyStr.split "/" 4 id_decoded in
       if (4 <=? List.length id_parts)%nat then
         p1 <- item id_parts 1 ;;
         p2 <- item id_parts 2 ;;
         let site_path := "/" ++ p1 ++ "/" ++ p2 in
         let item_path :=
           if (3 <? List.length id_parts)%nat
           then "/" ++ PyStr.join "/" (skipn 3 id_parts)
           else EmptyString in
         Ret (site_path, item_path)
       else Ret segs
     else Ret segs
   else Ret segs)%py.

Definition _parse_url (url : string) : outcome (string * string * string) :=
  (parsed <- Urllib.urlparse bracketed_ok nfkc_ok url ;;
   let hostname := Urllib.netloc parsed in
   let full_path := Urllib.unquote (Urllib.path parsed) in
   segs <- path_segments full_path ;;
   r <- id_override url segs ;;
   Ret (hostname, fst r, snd r))%py.

End ParseUrl.

End SharePoint.

(* ================================================================== *)
(** * build.py *)
(* ================================================================== *)

Module Build.

Import Pathlib.

Record Args : Type := {
  version : option string;      (* --version *)
  output : string;              (* --output, default "dist" *)
  list_only : bool }.           (* --list *)

(** What the machine answers to the script: the [git] commands, the
    clock, the working tree and the size of a file. *)
Record Env : Type := {
  repo_dir : Path;
  git_installed : bool;
  (** stdout of [git describe] when its return code is 0 *)
  git_describe : option string;
  (** [datetime.now().strftime("%Y%m%d")] *)
  today : string;
  (** the lines of [git status --porcelain] *)
  git_status : list string;
  (** the lines of [git ls-files <path>], [None] on a non-zero return
      code; the empty path stands for no argument *)
  git_ls_files : string -> option (list string);
  git_archive_ok : bool;
  (** can [zf.write] read this tracked path from the working tree? *)
  in_worktree : string -> bool;
  st_size : Path -> Z;
  (** [f"{kb / 1024:.1f} MB"] *)
  format_mb : Z -> string }.

Inductive file : Type :=
| GitArchive
| Zip (entries : list (Path * string))
| Other.

Record World : Type := {
  stdout : list string;
  stderr : list string;
  files : list (Path * file) }.

Definition print (line : string) : io World unit :=
  fun w => (Ret tt, {| stdout := stdout w ++ [line]; stderr := stderr w;
                       files := files w |}).

Definition eprint (line : string) : io World unit :=
  fun w => (Ret tt, {| stdout := stdout w; stderr := stderr w ++ [line];
                       files := files w |}).

Definition lookup_file (p : Path) (w : World) : option file :=
  match find (fun e => Pathlib.eqb (fst e) p) (files w) with
  | Some e => Some (snd e)
  | None => None
  end.

Definition write_file (p : Path) (f : file) : io World unit :=
  fun w => (Ret tt,
            {| stdout := stdout w; stderr := stderr w;
               files := (p, f)
                        :: filter (fun e => negb (Pathlib.eqb (fst e) p)) (files w) |}).

Definition nonblank (line : string) : bool :=
  negb (String.eqb (PyStr.strip line) EmptyString).

Section Run.

Variable env : Env.

Definition get_version : io World string :=
  (if git_installed env then
     match git_describe env with
     | Some out =>
         if nonblank out then ret (PyStr.strip out) else ret (today env)
     | None => ret (today env)
     end
   else
     eprint "Warning: git not found, using date-based version" ;;
     ret (today env))%io.

Definition get_uncommitted_changes : io World (list string) :=
  if git_installed env then ret (filter nonblank (git_status env))
  else raise FileNotFoundError.

Definition ls_files (path : string) : io World (list string) :=
  (if git_installed env then
     match git_ls_files env path with
     | Some lines => ret (PyStr.sorted (filter nonblank lines))
     | None => eprint "Error: git ls-files failed" ;; sys_exit 1
     end
   else raise FileNotFoundError)%io.

Definition format_size (path : Path) : io World string :=
  fun w =>
    match lookup_file path w with
    | None => (Raise FileNotFoundError, w)
    | Some _ =>
        let kb := (st_size env path / 1024)%Z in
        (Ret (if (kb <? 1024)%Z then PyStr.str_of_Z kb ++ " KB"
              else format_mb env kb), w)
    end.

Definition build_full (version : string) (output_dir : Path) : io World Path :=
  (let archive_path :=
     joinpath output_dir (of_string ("claude-code-skills-" ++ version ++ ".zip")) in
   if git_installed env then
     if git_archive_ok env then
       write_file archive_path GitArchive ;;
       ret archive_path
     else eprint "Error: git archive failed" ;; sys_exit 1
   else raise FileNotFoundError)%io.

(** The body of [with zipfile.ZipFile(...) as zf]: the entries written
    so far stay in the archive when a source file cannot be read. *)
Fixpoint zip_entries (skill_name skill_src_prefix : string) (tracked : list string)
  : list (Path * string) * bool :=
  match tracked with
  | [] => ([], true)
  | git_path :: r =>
      if in_worktree env git_path then
        let rel := PyStr.drop (String.length skill_src_prefix) git_path in
        let arcname := skill_name ++ "/" ++ rel in
        let '(es, ok) := zip_entries skill_name skill_src_prefix r in
        ((joinpath (repo_dir env) (of_string git_path), arcname) :: es, ok)
      else ([], false)
  end.

Definition build_skill (skill_name : string) (output_dir : Path) : io World Path :=
  (let archive_path := joinpath output_dir (of_string (skill_name ++ ".zip")) in
   let skill_src_prefix := "skills/" ++ skill_name ++ "/" in
   tracked <- ls_files skill_src_prefix ;;
   match tracked with
   | [] =>
       print ("  Warning: no tracked files found for skill '" ++ skill_name
              ++ "', skipping") ;;
       ret archive_path
   | _ =>
       let '(es, ok) := zip_entries skill_name skill_src_prefix tracked in
       write_file archive_path (Zip es) ;;
       if ok then ret archive_path else raise FileNotFoundError
   end)%io.

Definition discover_skills : io World (list string) :=
  (tracked <- ls_files "skills/" ;;
   let names :=
     flat_map (fun f =>
                 let ps := parts (of_string f) in
                 match ps with
                 | _ :: n :: third :: _ =>
                     if String.eqb third "SKILL.md" then [n] else []
                 | _ => []
                 end) tracked in
   ret (PyStr.sorted (PyStr.dedup names)))%io.

Definition len_str {A} (l : list A) : string :=
  PyStr.str_of_N (N.of_nat (List.length l)).

Definition main (args : Args) : io World unit :=
  (version <- match version args with
              | Some v => if String.eqb v EmptyString then get_version else ret v
              | None => get_version
              end ;;
   let output_dir :=
     if is_absolute (of_string (output args)) then of_string (output args)
     else joinpath (repo_dir env) (of_string (output args)) in
   if list_only args then
     all_files <- ls_files EmptyString ;;
     print ("Full distribution (" ++ len_str all_files ++ " files):") ;;
     for_each all_files (fun f => print ("  " ++ f)) ;;
     print EmptyString ;;
     skills <- discover_skills ;;
     print ("Individual skills to package for Claude Desktop ("
            ++ len_str skills ++ "):") ;;
     for_each skills (fun s =>
       files <- ls_files ("skills/" ++ s ++ "/") ;;
       print ("  " ++ s ++ "  (" ++ len_str files ++ " files)"))
   else
     changes <- get_uncommitted_changes ;;
     (match changes with
      | [] => ret tt
      | _ =>
          print "Warning: uncommitted changes will NOT be included in the archives." ;;
          print "Run 'git commit' first to include them:" ;;
          print EmptyString ;;
          for_each (firstn 20 changes) (fun c => print ("  " ++ c)) ;;
          (if (20 <? List.length changes)%nat
           then print ("  ... and "
                       ++ PyStr.str_of_N (N.of_nat (List.length changes - 20))
                       ++ " more")
           else ret tt) ;;
          print EmptyString
      end) ;;
     full_zip <- build_full version output_dir ;;
     rel <- lift (relative_to full_zip (repo_dir env)) ;;
     size <- format_size full_zip ;;
     print ("Full distribution:  " ++ to_string rel ++ "  (" ++ size ++ ")") ;;
     let skills_dir := joinpath output_dir (of_string "skills") in
     skills <- discover_skills ;;
     print EmptyString ;;
     print ("Claude Desktop skills (" ++ len_str skills ++ "):") ;;
     for_each skills (fun skill_name =>
       skill_zip <- build_skill skill_name skills_dir ;;
       rel <- lift (relative_to skill_zip (repo_dir env)) ;;
       size <- format_size skill_zip ;;
       print ("  " ++ to_string rel ++ "  (" ++ size ++ ")")) ;;
     print EmptyString ;;
     print "--- Install instructions ---" ;;
     print EmptyString ;;
     print "Claude Code (Linux/Mac):" ;;
     print ("  unzip " ++ name full_zip
            ++ " -d claude-code-skills && cd claude-code-skills && bash install.sh") ;;
     print EmptyString ;;
     print "Claude Code (Windows):" ;;
     print ("  Expand-Archive " ++ name full_zip
            ++ " -DestinationPath claude-code-skills") ;;
     print "  cd claude-code-skills && .\install.ps1" ;;
     print EmptyString ;;
     print "Claude Desktop:" ;;
     print "  Settings > Capabilities > Skills > Upload ZIP" ;;
     rel <- lift (relative_to skills_dir (repo_dir env)) ;;
     print ("  Upload individual skill zips from: " ++ to_string rel ++ "/"))%io.

End Run.

(** A repository in which [skills/café/SKILL.md/notes.md] and
    [skills/ok/SKILL.md] are tracked: [git ls-files] prints the first
    path quoted, with the two bytes of the accented letter in octal, and
    answers nothing for the path that [discover_skills] reads from it. *)
Definition dq : string := String (ascii_of_nat 34) EmptyString.

Definition quoted_line : string :=
  dq ++ "skills/caf\303\251/SKILL.md/notes.md" ++ dq.

Definition quoted_env : Env :=
  {| repo_dir := of_string "/repo";
     git_installed := true;
     git_describe := Some "v1.0.0";
     today := "20260101";
     git_status := [];
     git_ls_files := fun path =>
       if String.eqb path "skills/" then Some [quoted_line; "skills/ok/SKILL.md"]
       else if String.eqb path "skills/ok/" then Some ["skills/ok/SKILL.md"]
       else if String.eqb path EmptyString
       then Some [quoted_line; "skills/ok/SKILL.md"]
       else Some [];
     git_archive_ok := true;
     in_worktree := fun _ => true;
     st_size := fun _ => 4096%Z;
     format_mb := fun _ => "0.0 MB" |}.

Definition default_args : Args :=
  {| version := None; output := "dist"; list_only := false |}.

Definition fresh_world : World := {| stdout := []; stderr := []; files := [] |}.

End Build.

(* ================================================================== *)
(** * convert-docs-to-md.py *)
(* ================================================================== *)

(** The messages of [_print] are left out of the embedding: no property
    below speaks of them.  The external programs and the two optional
    libraries are answers of the environment; every call of one of them
    is recorded in the trace of the world. *)

Module ConvertDocs.

Import Pathlib.

Definition nl : string := String (ascii_of_nat 10) EmptyString.

Definition SUPPORTED_FORMATS : list (string * string) :=
  [ (".docx", "Word Document");
    (".doc", "Word Document (old format)");
    (".pdf", "PDF Document");
    (".xlsx", "Excel Spreadsheet");
    (".xls", "Excel Spreadsheet (old format)");
    (".pptx", "PowerPoint Presentation");
    (".ppt", "PowerPoint Presentation (old format)");
    (".odt", "OpenDocument Text");
    (".rtf", "Rich Text Format");
    (".html", "HTML Document");
    (".htm", "HTML Document") ].

Definition supported (ext : string) : bool :=
  existsb (fun e => String.eqb ext (fst e)) SUPPORTED_FORMATS.

Definition mem (x : string) (l : list string) : bool := existsb (String.eqb x) l.

(** ** Workbooks and presentations, as the two libraries hand them over *)

(** The value of a cell: [None], a boolean, an integer, a text, or any
    other object (float, date, duration) given by its truth value and
    its [str]. *)
Inductive cell : Type :=
| CNone
| CBool (b : bool)
| CInt (z : Z)
| CStr (s : string)
| CObj (truthy : bool) (shown : string).

Inductive sheet : Type :=
| Worksheet (values : list (list cell))
| Chartsheet.

Definition Workbook : Type := list (string * sheet).

(** A shape is its [text] attribute, when it has one. *)
Definition Presentation : Type := list (list (option string)).

(** [bool(cell)] *)
Definition truthy_cell (c : cell) : bool :=
  match c with
  | CNone => false
  | CBool b => b
  | CInt z => negb (z =? 0)%Z
  | CStr s => negb (String.eqb s EmptyString)
  | CObj t _ => t
  end.

(** [str(cell)] *)
Definition str_cell (c : cell) : string :=
  match c with
  | CNone => "None"
  | CBool true => "True"
  | CBool false => "False"
  | CInt z => PyStr.str_of_Z z
  | CStr s => s
  | CObj _ shown => shown
  end.

(** [str(cell or "")] *)
Definition show_cell (c : cell) : string :=
  if truthy_cell c then str_cell c else EmptyString.

(** ["| " + " | ".join(str(cell or "") for cell in row) + " |\n"] *)
Definition row_line (row : list cell) : string :=
  "| " ++ PyStr.join " | " (map show_cell row) ++ " |" ++ nl.

(** ["|" + " --- |" * len(header) + "\n"] *)
Fixpoint repeat_string (s : string) (n : nat) : string :=
  match n with
  | O => EmptyString
  | S k => s ++ repeat_string s k
  end.

Definition rule_line (header : list cell) : string :=
  "|" ++ repeat_string " --- |" (List.length header) ++ nl.

(** [f"## {sheet_name}\n\n"] *)
Definition heading (sheet_name : string) : string :=
  "## " ++ sheet_name ++ nl ++ nl.

(** ** The converter, its environment and its world *)

Record Converter : Type := {
  keep_original : bool;
  overwrite : bool;
  extract_images : bool;
  verbose : bool;
  pandoc_available : bool }.

Inductive tool : Type := Pandoc | Pdftotext | Openpyxl | PythonPptx.

Record Env : Type := {
  (** [pandoc --version] runs and returns 0 *)
  pandoc_installed : bool;
  (** the Markdown [pandoc] writes for this input, [None] when the
      command fails *)
  pandoc_out : Path -> option string;
  (** [which pdftotext] succeeds *)
  which_pdftotext : bool;
  (** the text [pdftotext] extracts, [None] when the command fails *)
  pdftotext_out : Path -> option string;
  (** [import openpyxl] succeeds *)
  openpyxl_installed : bool;
  (** [openpyxl.load_workbook(input, data_only=True)], [None] when it
      raises *)
  load_workbook : Path -> option Workbook;
  (** [from pptx import Presentation] succeeds *)
  pptx_installed : bool;
  (** [Presentation(input)], [None] when it raises *)
  load_presentation : Path -> option Presentation;
  (** can the file be opened for writing? *)
  writable : Path -> bool;
  (** can the directory be created, or is it there already? *)
  mkdir_ok : Path -> bool }.

Record World : Type := {
  files : list (Path * string);
  dirs : list Path;
  trace : list (tool * Path) }.

Definition lookup (p : Path) (w : World) : option string :=
  match find (fun e => Pathlib.eqb (fst e) p) (files w) with
  | Some e => Some (snd e)
  | None => None
  end.

Definition is_file (p : Path) (w : World) : bool :=
  match lookup p w with Some _ => true | None => false end.

Definition is_dir (p : Path) (w : World) : bool :=
  existsb (Pathlib.eqb p) (dirs w).

(** [p.exists()] *)
Definition path_exists (p : Path) : io World bool :=
  fun w => (Ret (is_file p w || is_dir p w), w).

Definition put (p : Path) (text : string) (w : World) : World :=
  {| files := (p, text) :: filter (fun e => negb (Pathlib.eqb (fst e) p)) (files w);
     dirs := dirs w; trace := trace w |}.

Definition append_text (p : Path) (text : string) (w : World) : World :=
  match lookup p w with
  | Some old => put p (old ++ text) w
  | None => put p text w
  end.

Definition unlink (p : Path) : io World unit :=
  fun w => (Ret tt,
            {| files := filter (fun e => negb (Pathlib.eqb (fst e) p)) (files w);
               dirs := dirs w; trace := trace w |}).

Definition record (t : tool) (p : Path) : io World unit :=
  fun w => (Ret tt, {| files := files w; dirs := dirs w;
                       trace := trace w ++ [(t, p)] |}).

(** [f.write(text)] on the file opened at [p] *)
Definition write (p : Path) (text : string) : io World unit :=
  fun w => (Ret tt, append_text p text w).

(** A computation that records no call of a tool. *)
Definition silent {A} (m : io World A) : Prop :=
  forall w, trace (snd (m w)) = trace w.


Definition spreadsheet (ext : string) : bool := mem ext [".xlsx"; ".xls"].

(** A computation that returns [a] and appends [text] to the file at
    [p], whatever that file holds. *)
Definition emits {A} (m : io World A) (p : Path) (text : string) (a : A) : Prop :=
  forall w s,
    lookup p w = Some s ->
    fst (m w) = Ret a /\ lookup p (snd (m w)) = Some (s ++ text).

Definition flatten (l : list string) : string := fold_right append EmptyString l.

(** The Markdown of a sheet, as the specification words it: a heading;
    then, for a sheet with rows, one table made of the header row, the
    rule and the data rows that have a cell to show; for a sheet without
    rows, the mention of the empty sheet. *)
Definition table_text (header : list cell) (rows : list (list cell)) : string :=
  row_line header ++ rule_line header
  ++ flatten (map row_line (filter (existsb truthy_cell) rows)) ++ nl.

Definition sheet_text (sheet_name : string) (data : list (list cell)) : string :=
  heading sheet_name
  ++ match data with
     | [] => "*Empty sheet*" ++ nl ++ nl
     | header :: rows => table_text header rows
     end.

Fixpoint workbook_text (wb : Workbook) : string :=
  match wb with
  | [] => EmptyString
  | (sheet_name, Worksheet data) :: r => sheet_text sheet_name data ++ workbook_text r
  | (_, Chartsheet) :: r => workbook_text r
  end.

Definition all_worksheets (wb : Workbook) : bool :=
  forallb (fun e => match snd e with Worksheet _ => true | Chartsheet => false end) wb.

Section Run.

Variable env : Env.

(** [open(p, 'w')]: the file is created or emptied; [false] stands for
    the exception of a file that cannot be opened. *)
Definition open_w (p : Path) : io World bool :=
  fun w => if writable env p then (Ret true, put p EmptyString w)
           else (Ret false, w).

(** [d.mkdir(...)] *)
Definition mkdir (d : Path) : io World unit :=
  fun w => if mkdir_ok env d
           then (Ret tt, {| files := files w;
                            dirs := if is_dir d w then dirs w else dirs w ++ [d];
                            trace := trace w |})
           else (Raise FileNotFoundError, w).

Variable self : Converter.

Definition _convert_with_pandoc (input_file output_file : Path) : io World bool :=
  (if negb (pandoc_available self) then ret false
   else
     (if extract_images self
      then mkdir (joinpath (parent output_file) (of_string "images"))
      else ret tt) ;;
     record Pandoc input_file ;;
     match pandoc_out env input_file with
     | Some md => (fun w => (Ret true, put output_file md w))
     | None => ret false
     end)%io.

Definition pdf_preamble (input_file : Path) : list string :=
  [ "# " ++ stem input_file ++ nl ++ nl;
    "*Converted from PDF - formatting may be limited*" ++ nl ++ nl;
    "---" ++ nl ++ nl ].

Definition _convert_pdf (input_file output_file : Path) : io World bool :=
  (if pandoc_available self then _convert_with_pandoc input_file output_file
   else
     if negb (which_pdftotext env) then ret false
     else
       text_file <- lift (with_suffix input_file ".txt") ;;
       record Pdftotext input_file ;;
       match pdftotext_out env input_file with
       | None => ret false
       | Some text =>
           (fun w => (Ret tt, put text_file text w)) ;;
           opened <- open_w output_file ;;
           if opened then
             for_each (pdf_preamble input_file) (write output_file) ;;
             write output_file text ;;
             unlink text_file ;;
             ret true
           else ret false
       end)%io.

(** Lines 236-257, for one sheet; [false] stands for the exception that
    a sheet without [values] raises. *)
Definition write_sheet (output_file : Path) (entry : string * sheet)
  : io World bool :=
  (let '(sheet_name, sh) := entry in
   write output_file (heading sheet_name) ;;
   match sh with
   | Chartsheet => ret false
   | Worksheet data =>
       match data with
       | [] => write output_file ("*Empty sheet*" ++ nl ++ nl) ;; ret true
       | header :: rows =>
           write output_file (row_line header) ;;
           write output_file (rule_line header) ;;
           for_each rows (fun row =>
             if existsb truthy_cell row
             then write output_file (row_line row)
             else ret tt) ;;
           write output_file nl ;;
           ret true
       end
   end)%io.

Fixpoint write_sheets (output_file : Path) (wb : Workbook) : io World bool :=
  match wb with
  | [] => ret true
  | entry :: r =>
      iobind (write_sheet output_file entry)
             (fun ok => if ok then write_sheets output_file r else ret false)
  end.

Definition excel_preamble (input_file : Path) : list string :=
  [ "# " ++ stem input_file ++ nl ++ nl;
    "*Converted from Excel*" ++ nl ++ nl;
    "---" ++ nl ++ nl ].

Definition _convert_excel (input_file output_file : Path) : io World bool :=
  (if negb (openpyxl_installed env) then ret false
   else
     record Openpyxl input_file ;;
     match load_workbook env input_file with
     | None => ret false
     | Some wb =>
         opened <- open_w output_file ;;
         if opened then
           for_each (excel_preamble input_file) (write output_file) ;;
           write_sheets output_file wb
         else ret false
     end)%io.

Definition write_slide (output_file : Path) (numbered : nat * list (option string))
  : io World unit :=
  (let '(i, shapes) := numbered in
   write output_file ("## Slide " ++ PyStr.str_of_N (N.of_nat i) ++ nl ++ nl) ;;
   for_each shapes (fun shape =>
     match shape with
     | Some text =>
         if negb (String.eqb text EmptyString)
         then write output_file (text ++ nl ++ nl)
         else ret tt
     | None => ret tt
     end) ;;
   write output_file ("---" ++ nl ++ nl))%io.

Definition _convert_powerpoint (input_file output_file : Path) : io World bool :=
  (if pandoc_available self then _convert_with_pandoc input_file output_file
   else
     if negb (pptx_installed env) then ret false
     else
       record PythonPptx input_file ;;
       match load_presentation env input_file with
       | None => ret false
       | Some prs =>
           opened <- open_w output_file ;;
           if opened then
             for_each [ "# " ++ stem input_file ++ nl ++ nl;
                        "*Converted from PowerPoint*" ++ nl ++ nl;
                        "---" ++ nl ++ nl ] (write output_file) ;;
             for_each (combine (seq 1 (List.length prs)) prs)
                      (write_slide output_file) ;;
             ret true
           else ret false
       end)%io.

(** Lines 125-136: the converter for the extension. *)
Definition convert_by_type (ext : string) (input_file output_file : Path)
  : io World bool :=
  if mem ext [".docx"; ".doc"; ".odt"; ".rtf"; ".html"; ".htm"]
  then _convert_with_pandoc input_file output_file
  else if String.eqb ext ".pdf"
  then _convert_pdf input_file output_file
  else if mem ext [".xlsx"; ".xls"]
  then _convert_excel input_file output_file
  else if mem ext [".pptx"; ".ppt"]
  then _convert_powerpoint input_file output_file
  else ret false.

(** Lines 110-116: the output file, with the [.md] extension. *)
Definition resolve_output (input_file : Path) (output_file : option Path)
  : outcome Path :=
  match output_file with
  | None => with_suffix input_file ".md"
  | Some o =>
      if negb (String.eqb (suffix o) ".md") then with_suffix o ".md"
      else Ret o
  end.

Definition convert_file (input_file : Path) (output_file : option Path)
  : io World bool :=
  (present <- path_exists input_file ;;
   if negb present then ret false
   else
     let ext := PyStr.lower (suffix input_file) in
     if negb (supported ext) then ret false
     else
       output_file <- lift (resolve_output input_file output_file) ;;
       there <- path_exists output_file ;;
       if there && negb (overwrite self) then ret true
       else convert_by_type ext input_file output_file)%io.

(** The files directly in a folder, and those anywhere below it, in the
    order the system lists them. *)
Definition below (folder f : Path) : bool :=
  String.eqb (root f) (root folder)
  && match strip_prefix (comps folder) (comps f) with
     | Some (_ :: _) => true
     | _ => false
     end.

Definition iterdir_files (folder : Path) : io World (list Path) :=
  fun w =>
    if is_dir folder w
    then (Ret (filter (fun f => Pathlib.eqb (parent f) folder) (map fst (files w))), w)
    else (Raise NotADirectoryError, w).

Definition rglob_files (folder : Path) : io World (list Path) :=
  fun w =>
    if is_dir folder w
    then (Ret (filter (below folder) (map fst (files w))), w)
    else (Ret [], w).

(** Lines 346-352: the output file of a file of the folder. *)
Definition output_for (input_folder output_folder : Path) (recursive : bool)
    (file : Path) : io World Path :=
  (if recursive then
     rel_path <- lift (relative_to file input_folder) ;;
     md <- lift (with_suffix rel_path ".md") ;;
     let output_file := joinpath output_folder md in
     mkdir (parent output_file) ;;
     ret output_file
   else
     md <- lift (with_suffix file ".md") ;;
     ret (joinpath output_folder (of_string (name md))))%io.

(** Lines 345-357: the loop over the supported files, with the two
    counters. *)
Fixpoint convert_each (input_folder output_folder : Path) (recursive : bool)
    (supported_files : list Path) (counts : nat * nat) : io World (nat * nat) :=
  match supported_files with
  | [] => ret counts
  | file :: rest =>
      (output_file <- output_for input_folder output_folder recursive file ;;
       ok <- convert_file file (Some output_file) ;;
       convert_each input_folder output_folder recursive rest
         (if ok then (S (fst counts), snd counts)
          else (fst counts, S (snd counts))))%io
  end.

Definition convert_folder (input_folder output_folder : Path) (recursive : bool)
  : io World (nat * nat) :=
  (present <- path_exists input_folder ;;
   if negb present then ret (0, 0)
   else
     mkdir output_folder ;;
     files <- (if recursive then rglob_files input_folder
               else iterdir_files input_folder) ;;
     let supported_files :=
       filter (fun f => supported (PyStr.lower (suffix f))) files in
     match supported_files with
     | [] => ret (0, 0)
     | _ => convert_each input_folder output_folder recursive supported_files (0, 0)
     end)%io.

End Run.

Record Args : Type := {
  arg_supported_formats : bool;
  arg_file : option Path;
  arg_folder : option Path;
  arg_output : option Path;
  arg_recursive : bool;
  arg_overwrite : bool;
  arg_extract_images : bool;
  arg_delete_original : bool;
  arg_quiet : bool }.

Definition main (env : Env) (args : Args) : io World unit :=
  (match arg_file args, arg_folder args with
   | Some _, Some _ => sys_exit 2
   | _, _ =>
     if arg_supported_formats args then sys_exit 0
     else
       let converter :=
         {| keep_original := negb (arg_delete_original args);
            overwrite := arg_overwrite args;
            extract_images := arg_extract_images args;
            verbose := negb (arg_quiet args);
            pandoc_available := pandoc_installed env |} in
       match arg_file args, arg_folder args with
       | None, None => sys_exit 2
       | Some file, _ =>
           success <- convert_file env converter file (arg_output args) ;;
           sys_exit (if success then 0 else 1)
       | None, Some folder =>
           let output_folder :=
             match arg_output args with
             | Some o => o
             | None => joinpath folder (of_string "Markdown")
             end in
           counts <- convert_folder env converter folder output_folder
                       (arg_recursive args) ;;
           sys_exit (if (snd counts =? 0)%nat then 0 else 1)
       end
   end)%io.

(** A machine with every converter installed, a converter that found
    pandoc, and a world that holds the given files. *)
Definition office_env (wb : Workbook) : Env :=
  {| pandoc_installed := true;
     pandoc_out := fun _ => Some "converted";
     which_pdftotext := true;
     pdftotext_out := fun _ => Some "text";
     openpyxl_installed := true;
     load_workbook := fun _ => Some wb;
     pptx_installed := true;
     load_presentation := fun _ => Some [];
     writable := fun _ => true;
     mkdir_ok := fun _ => true |}.

Definition with_pandoc : Converter :=
  {| keep_original := true; overwrite := false; extract_images := false;
     verbose := true; pandoc_available := true |}.

Definition holding (ps : list Path) : World :=
  {| files := map (fun p => (p, EmptyString)) ps;
     dirs := [of_string "docs"];
     trace := [] |}.

Definition book : Path := of_string "docs/book.xlsx".
Definition book_md : Path := of_string "docs/book.md".
Definition report : Path := of_string "docs/report.docx".
Definition report_md : Path := of_string "docs/report.md".

(** A workbook with a sheet without rows, and one with a header row and
    a fully empty row. *)
Definition empty_sheet_book : Workbook := [ ("Empty", Worksheet []) ].

Definition blank_row_book : Workbook :=
  [ ("Stock", Worksheet [ [CStr "item"; CStr "qty"]; [CNone; CNone] ]) ].

End ConvertDocs.

(* ================================================================== *)
(** * JSON values, with the operations of the Python objects *)
(* ================================================================== *)

Module Json.

(** What [json.load] returns.  A number is kept as its literal text; an
    object is the list of its members in insertion order, as a Python
    [dict] keeps them. *)
#[warnings="-register-all"]
Inductive json : Type :=
| JNull
| JBool (b : bool)
| JNum (literal : string)
| JStr (s : string)
| JArr (items : list json)
| JObj (members : list (string * json)).

Definition str_eqb (k : string) (j : json) : bool :=
  match j with
  | JStr s => String.eqb k s
  | _ => false
  end.

Fixpoint lookup (k : string) (m : list (string * json)) : option json :=
  match m with
  | [] => None
  | (k', v) :: r => if String.eqb k k' then Some v else lookup k r
  end.

(** [d[k] = v] on a dict: an existing key keeps its place. *)
Fixpoint dict_set (k : string) (v : json) (m : list (string * json))
  : list (string * json) :=
  match m with
  | [] => [(k, v)]
  | (k', v') :: r =>
      if String.eqb k k' then (k, v) :: r else (k', v') :: dict_set k v r
  end.

(** [k in j], for a string [k] *)
Definition py_in (k : string) (j : json) : outcome bool :=
  match j with
  | JObj m => Ret (match lookup k m with Some _ => true | None => false end)
  | JArr l => Ret (existsb (str_eqb k) l)
  | JStr s => Ret (PyStr.contains k s)
  | _ => Raise TypeError
  end.

(** [j[k]], for a string [k] *)
Definition getitem (j : json) (k : string) : outcome json :=
  match j with
  | JObj m => match lookup k m with Some v => Ret v | None => Raise KeyError end
  | _ => Raise TypeError
  end.

(** [j[k] = v], for a string [k] *)
Definition setitem (j : json) (k : string) (v : json) : outcome json :=
  match j with
  | JObj m => Ret (JObj (dict_set k v m))
  | _ => Raise TypeError
  end.

(** [j.append(x)] *)
Definition append (j : json) (x : json) : outcome json :=
  match j with
  | JArr l => Ret (JArr (l ++ [x]))
  | _ => Raise AttributeError
  end.

(** A file: the bytes found on disk, or the value that [json.dump] wrote
    there.  Reading back what [json.dump] wrote gives the value again;
    other bytes go through the parser, [None] when it raises. *)
Inductive content : Type :=
| Raw (bytes : string)
| Dumped (j : json).

End Json.

(* ================================================================== *)
(** * setup.py *)
(* ================================================================== *)

(** The messages printed by the wizard are left out of the embedding, and
    the files it writes are taken to be writable. *)

Module Setup.

Import Json.

Inductive board : Type := zenhub | jira | linear.

Definition board_name (b : board) : string :=
  match b with
  | zenhub => "zenhub"
  | jira => "jira"
  | linear => "linear"
  end.

Record Args : Type := {
  board_type : option board;
  force : bool;
  api_token : option string;
  workspace_id : option string;
  repository_id : option string;
  organization_id : option string;
  default_pipeline_id : option string;
  default_pipeline_name : option string;
  default_labels : option string;
  jira_url : option string;
  project_key : option string;
  team_id : option string;
  linear_workspace_id : option string }.

Record Workspace : Type := {
  ws_id : string; ws_name : string; ws_repositories : list string }.

Record Pipeline : Type := { pl_id : string; pl_name : string }.

(** What the machine answers to the wizard. *)
Record Env : Type := {
  (** [json.load] on the bytes of a file, [None] when it raises *)
  json_loads : string -> option json;
  (** [str(Path.cwd())] *)
  project_dir : string;
  (** [fetch_github_repo_id()] *)
  gh_repo_id : option string;
  (** [fetch_zenhub_workspaces(api_token, workspace_name)] *)
  search_workspaces : string -> string -> option (list Workspace);
  (** [fetch_workspace_pipelines(api_token, workspace_id)] *)
  workspace_pipelines : string -> string -> option (list Pipeline) * option string }.

Record World : Type := {
  (** the lines the user will type; [input()] past the last one meets
      the end of the input *)
  stdin : list string;
  (** [<project>/.claude] and [<project>/.claude/agile-board-config.json] *)
  config_dir : bool;
  config_file : option content;
  (** [~/.claude.json] *)
  claude_json : option content;
  (** [~/.claude] and [~/.claude/settings.json] *)
  settings_dir : bool;
  settings_file : option content;
  (** [<project>/.gitignore] *)
  gitignore : option string }.

Definition input : io World string :=
  fun w =>
    match stdin w with
    | [] => (Raise EOFError, w)
    | line :: rest =>
        (Ret line,
         {| stdin := rest; config_dir := config_dir w;
            config_file := config_file w; claude_json := claude_json w;
            settings_dir := settings_dir w; settings_file := settings_file w;
            gitignore := gitignore w |})
    end.

(** The truth value of an optional command-line string. *)
Definition given (o : option string) : bool :=
  match o with
  | Some s => negb (String.eqb s EmptyString)
  | None => false
  end.

Definition value (o : option string) : string :=
  match o with Some s => s | None => EmptyString end.

(** [a or input(...).strip()] *)
Definition arg_or_input (o : option string) : io World string :=
  (if given o then ret (value o)
   else line <- input ;; ret (PyStr.strip line))%io.

(** ** [int(s)] and [l[i]] *)

Fixpoint digits_value (s : string) (acc : Z) (after_digit : bool) : option Z :=
  match s with
  | EmptyString => if after_digit then Some acc else None
  | String c r =>
      if PyStr.is_digit c
      then digits_value r (10 * acc + Z.of_nat (nat_of_ascii c - 48)) true
      else if Ascii.eqb c "_"%char
      then if after_digit then digits_value r acc false else None
      else None
  end.

(** [int(s)]: blanks around, a sign, decimal digits, single underscores
    between digits.  (Beyond 4300 digits CPython raises [ValueError]
    where this function gives the number; the two callers treat
    [ValueError] and [IndexError] alike.) *)
Definition py_int (s : string) : outcome Z :=
  let s := PyStr.strip s in
  let '(negative, body) :=
    match s with
    | String "-" r => (true, r)
    | String "+" r => (false, r)
    | _ => (false, s)
    end in
  match digits_value body 0 false with
  | Some n => Ret (if negative then (- n)%Z else n)
  | None => Raise ValueError
  end.

(** [l[i]]: a negative index counts from the end. *)
Definition py_index {A} (l : list A) (i : Z) : outcome A :=
  let n := Z.of_nat (List.length l) in
  let j := if (i <? 0)%Z then (i + n)%Z else i in
  if ((0 <=? j) && (j <? n))%Z then item l (Z.to_nat j)
  else Raise IndexError.

(** Lines 299-306 and 340-348:
    [try: selected = items[int(choice) - 1] ...
     except (ValueError, IndexError): sys.exit(1)] *)
Definition select {A} (items : list A) (choice : string) : outcome A :=
  match bind (py_int choice) (fun n => py_index items (n - 1)) with
  | Ret a => Ret a
  | Raise ValueError => Exit 1
  | Raise IndexError => Exit 1
  | Raise e => Raise e
  | Exit c => Exit c
  end.

Definition read_json (env : Env) (c : content) : option json :=
  match c with
  | Raw bytes => json_loads env bytes
  | Dumped j => Some j
  end.

Definition jstr_list (l : list string) : json := JArr (map JStr l).

Definition jopt (o : option string) : json :=
  match o with Some s => JStr s | None => JNull end.

Section Run.

Variable env : Env.
Variable args : Args.

(** Lines 64-78: the overwrite prompt. *)
Definition confirm_overwrite : io World unit :=
  fun w =>
    match config_file w with
    | None => (Ret tt, w)
    | Some _ =>
        if force args then (Ret tt, w)
        else
          match input w with
          | (Ret line, w') =>
              let overwrite := PyStr.lower (PyStr.strip line) in
              if negb (String.eqb overwrite "y") then (Exit 0, w')
              else (Ret tt, w')
          | (Raise EOFError, w') => (Exit 1, w')
          | (o, w') => (bind o (fun _ => Ret tt), w')
          end
    end.

(** Lines 80-107: the board type, from the arguments or from the menu. *)
Definition choose_board : io World board :=
  match board_type args with
  | Some b => ret b
  | None =>
      (line <- input ;;
       let board_choice := PyStr.strip line in
       if String.eqb board_choice "1" then ret zenhub
       else if String.eqb board_choice "2" then ret jira
       else if String.eqb board_choice "3" then ret linear
       else sys_exit 1)%io
  end.

Definition setup_zenhub : io World (list (string * json) * option json) :=
  ((* Step 1 *)
   api_token <- arg_or_input (api_token args) ;;
   (* Step 2 *)
   repository_id <-
     (let repository_id :=
        if given (repository_id args) then repository_id args
        else gh_repo_id env in
      arg_or_input repository_id) ;;
   (* Step 3 *)
   workspace_id <-
     (if given (workspace_id args) then ret (value (workspace_id args))
      else
        line <- input ;;
        let workspace_name := PyStr.strip line in
        if negb (String.eqb workspace_name EmptyString) then
          match search_workspaces env api_token workspace_name with
          | None | Some [] => line <- input ;; ret (PyStr.strip line)
          | Some [ws] => ret (ws_id ws)
          | Some workspaces =>
              line <- input ;;
              selected_ws <- lift (select workspaces (PyStr.strip line)) ;;
              ret (ws_id selected_ws)
          end
        else line <- input ;; ret (PyStr.strip line)) ;;
   (* Step 4 *)
   step4 <-
     (let default_pipeline_id := default_pipeline_id args in
      let default_pipeline_name := default_pipeline_name args in
      let organization_id := organization_id args in
      if negb (given default_pipeline_id) || negb (given organization_id) then
        let '(pipelines, org_id) := workspace_pipelines env api_token workspace_id in
        let organization_id :=
          if given org_id && negb (given organization_id) then org_id
          else organization_id in
        match pipelines with
        | None | Some [] =>
            if negb (given default_pipeline_id) then
              l1 <- input ;;
              l2 <- input ;;
              ret (Some (PyStr.strip l1), Some (PyStr.strip l2), organization_id)
            else ret (default_pipeline_id, default_pipeline_name, organization_id)
        | Some pipelines =>
            if negb (given default_pipeline_id) then
              line <- input ;;
              selected_pipeline <- lift (select pipelines (PyStr.strip line)) ;;
              ret (Some (pl_id selected_pipeline), Some (pl_name selected_pipeline),
                   organization_id)
            else ret (default_pipeline_id, default_pipeline_name, organization_id)
        end
      else ret (default_pipeline_id, default_pipeline_name, organization_id)) ;;
   let '(default_pipeline_id, default_pipeline_name, organization_id) := step4 in
   organization_id <-
     (if negb (given organization_id) then
        if force args && given (Setup.organization_id args)
        then ret (Setup.organization_id args)
        else if force args then sys_exit 1
        else line <- input ;; ret (Some (PyStr.strip line))
      else ret organization_id) ;;
   (* Step 5 *)
   labels_input <-
     (if given (default_labels args) then ret (value (default_labels args))
      else if force args then ret EmptyString
      else line <- input ;; ret (PyStr.strip line)) ;;
   let default_labels :=
     filter (fun l => negb (String.eqb l EmptyString))
            (map PyStr.strip (PyStr.split_all "," labels_input)) in
   let mcp_config :=
     JObj [ ("command", JStr "npx");
            ("args", jstr_list [ "-y"; "mcp-remote"; "https://api.zenhub.com/mcp";
                                 "--header"; "Authorization:${API_TOKEN}";
                                 "--header"; "X-zh-workspace:" ++ workspace_id ]);
            ("env", JObj [ ("API_TOKEN", JStr api_token) ]) ] in
   ret ([ ("workspace_id", JStr workspace_id);
          ("repository_id", JStr repository_id);
          ("organization_id", jopt organization_id);
          ("default_pipeline_id", jopt default_pipeline_id);
          ("default_pipeline_name", jopt default_pipeline_name);
          ("default_labels", jstr_list default_labels) ],
        Some mcp_config))%io.

Definition is_slash (c : ascii) : bool := Ascii.eqb c "/"%char.

Definition setup_jira : io World (list (string * json) * option json) :=
  (jira_url <- arg_or_input (jira_url args) ;;
   let jira_url := PyStr.rstrip_by is_slash jira_url in
   project_key <- arg_or_input (project_key args) ;;
   let project_key := PyStr.upper project_key in
   ret ([ ("jira_url", JStr jira_url);
          ("project_key", JStr project_key);
          ("default_labels", JArr []) ],
        None))%io.

Definition setup_linear : io World (list (string * json) * option json) :=
  (team_id <- arg_or_input (team_id args) ;;
   workspace_id <- arg_or_input (linear_workspace_id args) ;;
   ret ([ ("team_id", JStr team_id);
          ("workspace_id", JStr workspace_id);
          ("default_labels", JArr []) ],
        None))%io.

Definition new_project_entry : json :=
  JObj [ ("allowedTools", JArr []);
         ("mcpContextUris", JArr []);
         ("mcpServers", JObj []);
         ("enabledMcpjsonServers", JArr []);
         ("disabledMcpjsonServers", JArr []);
         ("hasTrustDialogAccepted", JBool true);
         ("projectOnboardingSeenCount", JNum "1") ].

(** Lines 455-478, on the value read from [~/.claude.json]. *)
Definition merge_mcp_server (board_type : string) (mcp_config data : json)
  : outcome json :=
  (has_projects <- py_in "projects" data ;;
   data <- (if negb has_projects then setitem data "projects" (JObj [])
            else Ret data) ;;
   let project_path := project_dir env in
   projects <- getitem data "projects" ;;
   has_project <- py_in project_path projects ;;
   projects <- (if negb has_project
                then setitem projects project_path new_project_entry
                else Ret projects) ;;
   project <- getitem projects project_path ;;
   has_servers <- py_in "mcpServers" project ;;
   project <- (if negb has_servers then setitem project "mcpServers" (JObj [])
               else Ret project) ;;
   servers <- getitem project "mcpServers" ;;
   servers <- setitem servers board_type mcp_config ;;
   project <- setitem project "mcpServers" servers ;;
   projects <- setitem projects project_path project ;;
   setitem data "projects" projects)%py.

Definition set_claude_json (c : option content) (w : World) : World :=
  {| stdin := stdin w; config_dir := config_dir w; config_file := config_file w;
     claude_json := c;
     settings_dir := settings_dir w; settings_file := settings_file w;
     gitignore := gitignore w |}.

Definition update_claude_json (board_type : string) (mcp_config : json)
  : io World unit :=
  fun w =>
    match claude_json w with
    | None => (Ret tt, w)
    | Some c =>
        match read_json env c with
        | None => (Ret tt, w)
        | Some data =>
            match merge_mcp_server board_type mcp_config data with
            | Ret data' => (Ret tt, set_claude_json (Some (Dumped data')) w)
            | _ => (Ret tt, w)
            end
        end
    end.

(** Lines 507-519, on the value read from [~/.claude/settings.json]. *)
Definition add_wildcard (board_type : string) (settings : json) : outcome json :=
  (has_permissions <- py_in "permissions" settings ;;
   settings <- (if negb has_permissions then setitem settings "permissions" (JObj [])
                else Ret settings) ;;
   permissions <- getitem settings "permissions" ;;
   has_allow <- py_in "allow" permissions ;;
   permissions <- (if negb has_allow then setitem permissions "allow" (JArr [])
                   else Ret permissions) ;;
   let wildcard := "mcp__" ++ board_type ++ "__*" in
   allow <- getitem permissions "allow" ;;
   present <- py_in wildcard allow ;;
   allow <- (if negb present then append allow (JStr wildcard) else Ret allow) ;;
   permissions <- setitem permissions "allow" allow ;;
   setitem settings "permissions" permissions)%py.

Definition set_settings (dir : bool) (c : option content) (w : World) : World :=
  {| stdin := stdin w; config_dir := config_dir w; config_file := config_file w;
     claude_json := claude_json w;
     settings_dir := dir; settings_file := c;
     gitignore := gitignore w |}.

Definition update_claude_settings (board_type : string) : io World unit :=
  fun w =>
    let w := set_settings true (settings_file w) w in
    let settings :=
      match settings_file w with
      | Some c => match read_json env c with Some j => j | None => JObj [] end
      | None => JObj []
      end in
    match add_wildcard board_type settings with
    | Ret settings' => (Ret tt, set_settings true (Some (Dumped settings')) w)
    | Raise e => (Raise e, w)
    | Exit c => (Exit c, w)
    end.

Definition gitignore_entry : string := ".claude/agile-board-config.json".

Definition nl : string := String (ascii_of_nat 10) EmptyString.

Definition update_gitignore : io World unit :=
  fun w =>
    match gitignore w with
    | Some gitignore_content =>
        if negb (PyStr.contains gitignore_entry gitignore_content)
        then (Ret tt,
              {| stdin := stdin w; config_dir := config_dir w;
                 config_file := config_file w; claude_json := claude_json w;
                 settings_dir := settings_dir w; settings_file := settings_file w;
                 gitignore :=
                   Some (gitignore_content ++ nl
                         ++ "# Agile board config (project-specific)" ++ nl
                         ++ gitignore_entry ++ nl) |})
        else (Ret tt, w)
    | None => (Ret tt, w)
    end.

Definition save_config (config : json) : io World unit :=
  fun w =>
    (Ret tt,
     {| stdin := stdin w; config_dir := true;
        config_file := Some (Dumped config); claude_json := claude_json w;
        settings_dir := settings_dir w; settings_file := settings_file w;
        gitignore := gitignore w |}).

(** Lines 109-141: what the wizard does once the board type is known. *)
Definition configure (board_type : board) : io World unit :=
  (r <- match board_type with
        | zenhub => setup_zenhub
        | jira => setup_jira
        | linear => setup_linear
        end ;;
   let '(config_data, mcp_config) := r in
   let config :=
     JObj (fold_left (fun m kv => dict_set (fst kv) (snd kv) m) config_data
                     [("board_type", JStr (board_name board_type))]) in
   save_config config ;;
   match mcp_config with
   | Some mcp =>
       update_claude_json (board_name board_type) mcp ;;
       update_claude_settings (board_name board_type)
   | None => ret tt
   end ;;
   update_gitignore)%io.

Definition main : io World unit :=
  (confirm_overwrite ;;
   board_type <- choose_board ;;
   configure board_type)%io.

(** The script: [main()] under the two handlers of lines 549-559, as the
    exit status of the process and the world it leaves. *)
Definition script (w : World) : Z * World :=
  let '(o, w') := main w in (exit_status o, w').

End Run.

(** A computation that leaves the registry ([~/.claude.json]) and the
    permissions ([~/.claude] and its [settings.json]) as they were. *)
Definition keeps_registry {A} (m : io World A) : Prop :=
  forall w,
    claude_json (snd (m w)) = claude_json w
    /\ settings_dir (snd (m w)) = settings_dir w
    /\ settings_file (snd (m w)) = settings_file w.

(** The number of entries of a list that are the given string. *)
Definition occurrences (k : string) (l : list json) : nat :=
  List.length (filter (str_eqb k) l).

(** ** Worked examples *)

Definition no_args : Args :=
  {| board_type := None; force := false; api_token := None;
     workspace_id := None; repository_id := None; organization_id := None;
     default_pipeline_id := None; default_pipeline_name := None;
     default_labels := None; jira_url := None; project_key := None;
     team_id := None; linear_workspace_id := None |}.

(** [--board-type zenhub --api-token zh_token --default-labels bug] *)
Definition zenhub_args : Args :=
  {| board_type := Some zenhub; force := false; api_token := Some "zh_token";
     workspace_id := None; repository_id := None; organization_id := None;
     default_pipeline_id := None; default_pipeline_name := None;
     default_labels := Some "bug"; jira_url := None; project_key := None;
     team_id := None; linear_workspace_id := None |}.

(** [--board-type jira --jira-url https://co.atlassian.net/ --project-key proj] *)
Definition jira_args : Args :=
  {| board_type := Some jira; force := false; api_token := None;
     workspace_id := None; repository_id := None; organization_id := None;
     default_pipeline_id := None; default_pipeline_name := None;
     default_labels := None; jira_url := Some "https://co.atlassian.net/";
     project_key := Some "proj";
     team_id := None; linear_workspace_id := None |}.

(** A machine on which the search finds two workspaces and the second
    one has two pipelines. *)
Definition two_workspaces : Env :=
  {| json_loads := fun _ => None;
     project_dir := "/home/dev/project";
     gh_repo_id := Some "R_1";
     search_workspaces := fun _ _ =>
       Some [ {| ws_id := "W_1"; ws_name := "Alpha"; ws_repositories := [] |};
              {| ws_id := "W_2"; ws_name := "Beta"; ws_repositories := [] |} ];
     workspace_pipelines := fun _ _ =>
       (Some [ {| pl_id := "P_1"; pl_name := "Backlog" |};
               {| pl_id := "P_2"; pl_name := "Done" |} ],
        Some "O_1") |}.

(** A project without configuration, and one configured before, with
    the lines the user will type. *)
Definition fresh_project (lines : list string) : World :=
  {| stdin := lines; config_dir := false; config_file := None;
     claude_json := None; settings_dir := false; settings_file := None;
     gitignore := None |}.

Definition configured_project (lines : list string) : World :=
  {| stdin := lines; config_dir := true;
     config_file := Some (Raw "{ }");
     claude_json := None; settings_dir := false; settings_file := None;
     gitignore := None |}.

Definition wildcard_of (board_type : string) : string :=
  "mcp__" ++ board_type ++ "__*".

Definition settings_with (allow : list json) : json :=
  JObj [ ("permissions", JObj [ ("allow", JArr allow) ]) ].

Definition home_with_settings (settings : json) : World :=
  {| stdin := []; config_dir := true; config_file := None;
     claude_json := None; settings_dir := true;
     settings_file := Some (Dumped settings);
     gitignore := None |}.

End Setup.

(* ================================================================== *)
(** * Further predicates and worked examples *)
(* ================================================================== *)

Module BuildProps.

Import Pathlib Build.

(** A computation that creates, replaces and removes no file. *)
Definition keeps_files {A} (m : io World A) : Prop :=
  forall w, files (snd (m w)) = files w.


(** The order of [sorted]: the second string does not come before the
    first. *)
Definition not_after (a b : string) : Prop := String.ltb b a = false.

Fixpoint ascending (l : list string) : Prop :=
  match l with
  | a :: (b :: _) as r => not_after a b /\ ascending r
  | _ => True
  end.

(** [build.py --list] *)
Definition list_args : Args :=
  {| version := None; output := "dist"; list_only := true |}.


End BuildProps.

Module ConvertProps.

Import Pathlib ConvertDocs.

(** A computation that leaves the file at [p], or its absence, as it
    was. *)
Definition leaves (p : Path) {A} (m : io World A) : Prop :=
  forall w, lookup p (snd (m w)) = lookup p w.

(** A computation after which, when it ends normally, there is no file
    at [p]. *)
Definition removes (p : Path) {A} (m : io World A) : Prop :=
  forall w a, fst (m w) = Ret a -> lookup p (snd (m w)) = None.

(** The six formats that only pandoc converts. *)
Definition text_like (ext : string) : bool :=
  mem ext [".docx"; ".doc"; ".odt"; ".rtf"; ".html"; ".htm"].

(** The Markdown of a slide, as lines 289-297 write it: the numbered
    heading, the texts of the shapes that have one, the rule. *)
Definition shape_text (shape : option string) : string :=
  match shape with
  | Some text => if String.eqb text EmptyString then EmptyString
                 else text ++ nl ++ nl
  | None => EmptyString
  end.

Definition slide_text (numbered : nat * list (option string)) : string :=
  ("## Slide " ++ PyStr.str_of_N (N.of_nat (fst numbered)) ++ nl ++ nl)
  ++ flatten (map shape_text (snd numbered)) ++ "---" ++ nl ++ nl.

Definition powerpoint_preamble (input_file : Path) : list string :=
  [ "# " ++ stem input_file ++ nl ++ nl;
    "*Converted from PowerPoint*" ++ nl ++ nl;
    "---" ++ nl ++ nl ].

(** A machine without pandoc, with the fallback converters. *)
Definition fallback_env (text : string) (prs : Presentation) : Env :=
  {| pandoc_installed := false;
     pandoc_out := fun _ => None;
     which_pdftotext := true;
     pdftotext_out := fun _ => Some text;
     openpyxl_installed := true;
     load_workbook := fun _ => Some [ ("Data", Worksheet [ [CStr "a"] ]);
                                      ("Chart", Chartsheet);
                                      ("More", Worksheet []) ];
     pptx_installed := true;
     load_presentation := fun _ => Some prs;
     writable := fun _ => true;
     mkdir_ok := fun _ => true |}.

Definition without_pandoc : Converter :=
  {| keep_original := true; overwrite := false; extract_images := false;
     verbose := true; pandoc_available := false |}.

Definition paper : Path := of_string "docs/paper.pdf".
Definition paper_md : Path := of_string "docs/paper.md".
Definition paper_txt : Path := of_string "docs/paper.txt".
Definition deck : Path := of_string "docs/deck.pptx".
Definition deck_md : Path := of_string "docs/deck.md".
Definition notes : Path := of_string "docs/notes.txt".
Definition missing_folder : Path := of_string "nowhere".

Definition file_args (file : Path) : Args :=
  {| arg_supported_formats := false; arg_file := Some file; arg_folder := None;
     arg_output := None; arg_recursive := false; arg_overwrite := false;
     arg_extract_images := false; arg_delete_original := true;
     arg_quiet := false |}.

Definition folder_args (folder : Path) : Args :=
  {| arg_supported_formats := false; arg_file := None; arg_folder := Some folder;
     arg_output := None; arg_recursive := false; arg_overwrite := false;
     arg_extract_images := false; arg_delete_original := false;
     arg_quiet := false |}.


(** Two slides: a title, a picture and an empty text box; then a body. *)
Definition two_slides : Presentation :=
  [ [Some "Title"; None; Some EmptyString]; [Some "Body"] ].

End ConvertProps.


Module SetupProps.

Import Json Setup.

(** [j[k1][k2]...] *)
Fixpoint path_get (j : json) (ks : list string) : outcome json :=
  match ks with
  | [] => Ret j
  | k :: r => bind (getitem j k) (fun child => path_get child r)
  end.

(** Two paths that part at some key. *)
Fixpoint diverges (ks target : list string) : bool :=
  match ks, target with
  | k :: r, t :: r' => if String.eqb k t then diverges r r' else true
  | _, _ => false
  end.

(** Where [update_claude_json] stores the server of a board. *)
Definition server_path (env : Env) (board_type : string) : list string :=
  ["projects"; project_dir env; "mcpServers"; board_type].

(** Lines 455-478 read as one recursion along that path: at each key the
    entry is created when missing, the value below it is updated, and
    the result is stored back. *)
Fixpoint set_path (path : list (string * json)) (last : string) (v j : json)
  : outcome json :=
  match path with
  | [] => setitem j last v
  | (k, default) :: rest =>
      (has <- py_in k j ;;
       j <- (if negb has then setitem j k default else Ret j) ;;
       child <- getitem j k ;;
       child <- set_path rest last v child ;;
       setitem j k child)%py
  end.

(** A registry that knows another project, and this project with
    another server. *)
Definition other_server : json := JObj [ ("command", JStr "gh-mcp") ].

Definition registry : json :=
  JObj [ ("numStartups", JNum "7");
         ("projects",
          JObj [ ("/home/dev/other", JObj [ ("allowedTools", JArr []) ]);
                 ("/home/dev/project",
                  JObj [ ("allowedTools", JArr [JStr "Bash"]);
                         ("mcpServers", JObj [ ("github", other_server) ]) ]) ]) ].

Definition zenhub_server : json := JObj [ ("command", JStr "npx") ].

Definition registry_after : json :=
  JObj [ ("numStartups", JNum "7");
         ("projects",
          JObj [ ("/home/dev/other", JObj [ ("allowedTools", JArr []) ]);
                 ("/home/dev/project",
                  JObj [ ("allowedTools", JArr [JStr "Bash"]);
                         ("mcpServers", JObj [ ("github", other_server);
                                               ("zenhub", zenhub_server) ]) ]) ]) ].

Definition home_with_registry (c : content) (settings : content) : World :=
  {| stdin := []; config_dir := true; config_file := None;
     claude_json := Some c; settings_dir := true;
     settings_file := Some settings;
     gitignore := None |}.

(** [--board-type zenhub --force] with every identifier on the command
    line. *)
Definition full_zenhub_args : Args :=
  {| board_type := Some zenhub; force := true; api_token := Some "zh_token";
     workspace_id := Some "W_9"; repository_id := Some "R_9";
     organization_id := Some "O_9";
     default_pipeline_id := Some "P_9"; default_pipeline_name := None;
     default_labels := Some "bug, ,urgent"; jira_url := None; project_key := None;
     team_id := None; linear_workspace_id := None |}.

(** The same without the organization, on a machine where the API does
    not tell it. *)
Definition no_organization_args : Args :=
  {| board_type := Some zenhub; force := true; api_token := Some "zh_token";
     workspace_id := Some "W_9"; repository_id := Some "R_9";
     organization_id := None;
     default_pipeline_id := Some "P_9"; default_pipeline_name := None;
     default_labels := None; jira_url := None; project_key := None;
     team_id := None; linear_workspace_id := None |}.

Definition offline : Env :=
  {| json_loads := fun _ => None;
     project_dir := "/home/dev/project";
     gh_repo_id := None;
     search_workspaces := fun _ _ => None;
     workspace_pipelines := fun _ _ => (None, None) |}.

(** The labels of line 374. *)
Definition labels_of (labels_input : string) : list string :=
  filter (fun l => negb (String.eqb l EmptyString))
         (map PyStr.strip (PyStr.split_all "," labels_input)).

(** A label as the board takes it: not empty, without blanks around it
    and without comma. *)
Definition comma_free (l : string) : bool :=
  PyStr.all_chars (fun c => negb (Ascii.eqb c ","%char)) l.

Definition clean_label (l : string) : Prop :=
  l <> EmptyString /\ PyStr.strip l = l /\ comma_free l = true.


End SetupProps.

Module SharePointPaths.

Import PyStr.

Definition is_slash (c : ascii) : bool := Ascii.eqb c "/"%char.

(** [path.strip('/')] *)
Definition strip_slashes (path : string) : string :=
  rstrip_by is_slash (lstrip_by is_slash path).

(** Lines 196-200 of [list_folder]: the path relative to the root of
    the drive, the empty string when the path holds the library only. *)
Definition list_relative_path (path : string) : outcome string :=
  let path_parts := split "/" 1 (strip_slashes path) in
  if (1 <? List.length path_parts)%nat then item path_parts 1
  else Ret EmptyString.

(** Lines 202-205. *)
Definition list_folder_endpoint (drive_id path : string) : outcome string :=
  (relative_path <- list_relative_path path ;;
   Ret (if negb (String.eqb relative_path EmptyString)
        then "/drives/" ++ drive_id ++ "/root:/" ++ relative_path ++ ":/children"
        else "/drives/" ++ drive_id ++ "/root/children"))%py.

(** Lines 244-248 of [download_file] and 285-289 of [get_metadata]: the
    same, but the whole path when it holds one part only. *)
Definition item_relative_path (item_path : string) : outcome string :=
  let path_parts := split "/" 1 (strip_slashes item_path) in
  if (1 <? List.length path_parts)%nat then item path_parts 1
  else Ret (strip_slashes item_path).

(** Lines 250 and 291. *)
Definition item_endpoint (drive_id item_path : string) : outcome string :=
  (relative_path <- item_relative_path item_path ;;
   Ret ("/drives/" ++ drive_id ++ "/root:/" ++ relative_path))%py.

End SharePointPaths.
(* ================================================================== *)
(** * Facts about the string operations *)
(* ================================================================== *)

Unset Implicit Arguments.

Section PyStrFacts.

Import PyStr.

Lemma prefix_drop (p s : string) :
  String.prefix p s = true -> s = p ++ drop (String.length p) s.
Proof.
  revert s; induction p as [|c p IH]; intros s H.
  - reflexivity.
  - destruct s as [|d s]; simpl in H; [discriminate|].
    destruct (Ascii.ascii_dec c d) as [->|]; [|discriminate].
    simpl. f_equal. now apply IH.
Qed.

Lemma prefix_app (p s : string) : String.prefix p (p ++ s) = true.
Proof.
  induction p as [|c p IH]; simpl; [now destruct s|].
  destruct (Ascii.ascii_dec c c); [assumption | congruence].
Qed.

Lemma cut_unfold (sep s : string) :
  cut sep s =
  if String.prefix sep s then Some (EmptyString, drop (String.length sep) s)
  else match s with
       | EmptyString => None
       | String c r =>
           match cut sep r with
           | Some (a, b) => Some (String c a, b)
           | None => None
           end
       end.
Proof. destruct s; reflexivity. Qed.

Lemma cut_spec (sep s a b : string) :
  cut sep s = Some (a, b) -> s = a ++ sep ++ b.
Proof.
  revert a b; induction s as [|c s IH]; intros a b H;
    rewrite cut_unfold in H;
    destruct (String.prefix sep _) eqn:P.
  - injection H as <- <-. now apply prefix_drop.
  - discriminate.
  - injection H as <- <-. now apply prefix_drop.
  - destruct (cut sep s) as [[a' b']|] eqn:C; [|discriminate].
    injection H as <- <-. simpl. f_equal. now apply IH.
Qed.

Lemma cut_nonempty (sep s a b : string) :
  sep <> EmptyString -> cut sep s = Some (a, b) -> s <> EmptyString.
Proof.
  intros Hsep H ->. rewrite cut_unfold in H.
  destruct sep; [now apply Hsep|]. discriminate.
Qed.

Lemma split_nonempty (sep : string) (n : nat) (s : string) :
  split sep n s <> [].
Proof.
  destruct n; simpl; [discriminate|].
  destruct (cut sep s) as [[a b]|]; discriminate.
Qed.





Lemma item_cons {A} (x : A) (l : list A) (i : nat) :
  item (x :: l) (S i) = item l i.
Proof. reflexivity. Qed.

End PyStrFacts.

(* ================================================================== *)
(** * sharepoint-access.py: the sharing URL *)
(* ================================================================== *)

Section SharePointFacts.

Import PyStr SharePoint.

Variable bracketed_ok : string -> bool.
Variable nfkc_ok : string -> bool.

(** The path-segment strategy never fails. *)
Lemma path_segments_total (full_path : string) :
  exists segs, path_segments full_path = Ret segs.
Proof.
  unfold path_segments, contains.
  destruct (cut "/sites/" full_path) as [[a b]|] eqn:C; [|eauto].
  cbn [split]. rewrite C. cbn [List.length Nat.ltb Nat.leb item nth_error bind].
  destruct (cut "/" b) as [[x y]|] eqn:D;
    cbn [List.length Nat.ltb Nat.leb item nth_error bind]; eauto.
Qed.

(** When ['id='] occurs in the URL, line 73 finds a value. *)
Lemma id_param_total (url : string) :
  contains "id=" url = true -> exists p, id_param url = Ret p.
Proof.
  unfold contains, id_param, split_all. intros H.
  destruct (cut "id=" url) as [[a b]|] eqn:C; [|discriminate].
  destruct url as [|c url]; [simpl in C; discriminate|].
  cbn [String.length split]. rewrite C.
  destruct (split "id=" (String.length url) b) as [|after r] eqn:S1;
    [now apply split_nonempty in S1|].
  cbn [item nth_error bind].
  destruct (split "&" (String.length after) after) as [|p r'] eqn:S2;
    [now apply split_nonempty in S2|].
  cbn [item nth_error]. eauto.
Qed.

(** The [id=] block never fails. *)
Lemma id_override_total (url : string) (segs : string * string) :
  exists r, id_override url segs = Ret r.
Proof.
  unfold id_override.
  destruct (contains "id=" url) eqn:H; [|eauto].
  destruct (id_param_total url H) as [p ->]. cbn [bind].
  destruct (startswith (Urllib.unquote p) "/sites/"); [|eauto].
  destruct (split "/" 4 (Urllib.unquote p)) as [|p0 [|p1 [|p2 [|p3 r]]]];
    cbn [List.length Nat.leb item nth_error bind]; eauto.
Qed.

(** An [id=] value that does not decode to a path under ['/sites/']
    changes nothing. *)
Lemma id_override_other (url p : string) (segs : string * string) :
  id_param url = Ret p ->
  startswith (Urllib.unquote p) "/sites/" = false ->
  id_override url segs = Ret segs.
Proof.
  intros Hp Hs. unfold id_override.
  destruct (contains "id=" url); [|reflexivity].
  rewrite Hp. cbn [bind]. now rewrite Hs.
Qed.




(** C10, as amended.  On every string that [urlparse] accepts,
    [_parse_url] returns a triple: the host of the URL and two paths.
    The two paths are those of the path-segment strategy when the URL has
    no [id=], and also when the value after [id=] does not decode to a
    path that starts with [/sites/]. *)
Theorem parse_url_total_on_accepted_urls (url : string) (parsed : Urllib.ParseResult) :
  Urllib.urlparse bracketed_ok nfkc_ok url = Ret parsed ->
  exists segs site item_path,
    path_segments (Urllib.unquote (Urllib.path parsed)) = Ret segs
    /\ _parse_url bracketed_ok nfkc_ok url
       = Ret (Urllib.netloc parsed, site, item_path)
    /\ (contains "id=" url = false -> (site, item_path) = segs)
    /\ (forall p, id_param url = Ret p ->
                  startswith (Urllib.unquote p) "/sites/" = false ->
                  (site, item_path) = segs).
Proof.
  intros Hparse.
  destruct (path_segments_total (Urllib.unquote (Urllib.path parsed))) as [segs Hsegs].
  destruct (id_override_total url segs) as [[site item_path] Hid].
  exists segs, site, item_path.
  split; [assumption|]. split.
  - unfold _parse_url. rewrite Hparse. cbn [bind]. rewrite Hsegs. cbn [bind].
    rewrite Hid. reflexivity.
  - split.
    + intros Hno. unfold id_override in Hid. rewrite Hno in Hid. congruence.
    + intros p Hp Hs. rewrite (id_override_other url p segs Hp Hs) in Hid.
      congruence.
Qed.

End SharePointFacts.



(** Line 73 looks for the three characters [id=] anywhere in the URL:
    behind a [uid] parameter the value read is that of [uid], and the
    [id] parameter is not seen. *)
Lemma parse_url_reads_first_id_substring :
  SharePoint.id_param SharePoint.sharing_url_uid_then_id = Ret "7"
  /\ SharePoint._parse_url (fun _ => true) (fun _ => true)
       SharePoint.sharing_url_uid_then_id
     = Ret ("co.sharepoint.com", "/sites/S", "/Shared Documents/a/b.docx").
Proof. split; vm_compute; reflexivity. Qed.

Lemma parse_url_total_on_accepted_urls_witness :
  Urllib.urlparse (fun _ => true) (fun _ => true) SharePoint.sharing_url_other_id
  = Ret {| Urllib.scheme := "https"; Urllib.netloc := "co.sharepoint.com";
           Urllib.path := "/sites/S/Shared%20Documents/a/b.docx";
           Urllib.params := ""; Urllib.query := "id=%2Fteams%2FT%2FLib";
           Urllib.fragment := "" |}
  /\ exists segs site item_path,
       SharePoint.path_segments
         (Urllib.unquote "/sites/S/Shared%20Documents/a/b.docx") = Ret segs
       /\ SharePoint._parse_url (fun _ => true) (fun _ => true)
            SharePoint.sharing_url_other_id
          = Ret ("co.sharepoint.com", site, item_path)
       /\ (PyStr.contains "id=" SharePoint.sharing_url_other_id = false ->
           (site, item_path) = segs)
       /\ (forall p, SharePoint.id_param SharePoint.sharing_url_other_id = Ret p ->
                     PyStr.startswith (Urllib.unquote p) "/sites/" = false ->
                     (site, item_path) = segs).
Proof.
  assert (H1 : Urllib.urlparse (fun _ => true) (fun _ => true)
                 SharePoint.sharing_url_other_id
               = Ret {| Urllib.scheme := "https"; Urllib.netloc := "co.sharepoint.com";
                        Urllib.path := "/sites/S/Shared%20Documents/a/b.docx";
                        Urllib.params := ""; Urllib.query := "id=%2Fteams%2FT%2FLib";
                        Urllib.fragment := "" |}) by (vm_compute; reflexivity).
  split; [exact H1|].
  exact (parse_url_total_on_accepted_urls (fun _ => true) (fun _ => true)
           SharePoint.sharing_url_other_id _ H1).
Defined.

(** C10 as stated fails: an authority with an opening bracket and no
    closing one is refused by [urlparse], and [_parse_url] raises. *)
Lemma parse_url_raises_on_open_bracket :
  SharePoint._parse_url (fun _ => true) (fun _ => true)
    SharePoint.sharing_url_open_bracket
  = Raise ValueError.
Proof. vm_compute. reflexivity. Qed.

(* ================================================================== *)
(** * build.py: a unit without tracked files *)
(* ================================================================== *)

(** C2.  In the repository [quoted_env] the unit [caf\303\251] is
    discovered and has no tracked file.  [build_skill] prints the warning
    and writes no archive; [main] then asks for the size of that archive
    and the run ends with [FileNotFoundError] instead of completing. *)
Theorem build_main_raises_on_empty_unit :
  Build.discover_skills Build.quoted_env Build.fresh_world
  = (Ret ["caf\303\251"; "ok"], Build.fresh_world)
  /\ fst (Build.main Build.quoted_env Build.default_args Build.fresh_world)
     = Raise FileNotFoundError
  /\ In "  Warning: no tracked files found for skill 'caf\303\251', skipping"
        (Build.stdout
           (snd (Build.main Build.quoted_env Build.default_args Build.fresh_world)))
  /\ Build.lookup_file (Pathlib.of_string "/repo/dist/skills/caf\303\251.zip")
       (snd (Build.main Build.quoted_env Build.default_args Build.fresh_world))
     = None
  /\ exit_status
       (fst (Build.main Build.quoted_env Build.default_args Build.fresh_world))
     = 1%Z.
Proof. repeat split; vm_compute; auto. Qed.

(* ================================================================== *)
(** * convert-docs-to-md.py: which converter runs *)
(* ================================================================== *)

Section ConvertFacts.

Import Pathlib ConvertDocs.

Variable env : Env.
Variable self : Converter.

Lemma silent_ret {A} (a : A) : silent (ret a).
Proof. intros w. reflexivity. Qed.


Lemma silent_bind {A B} (m : io World A) (k : A -> io World B) :
  silent m -> (forall a, silent (k a)) -> silent (iobind m k).
Proof.
  intros Hm Hk w. unfold iobind. specialize (Hm w).
  destruct (m w) as [[a|e|c] w1]; simpl in *; try assumption.
  now rewrite Hk.
Qed.

Lemma silent_for_each {A} (l : list A) (body : A -> io World unit) :
  (forall x, silent (body x)) -> silent (for_each l body).
Proof.
  intros H. induction l as [|x l IH]; simpl.
  - apply silent_ret.
  - apply silent_bind; auto.
Qed.

Lemma trace_put (p : Path) (text : string) (w : World) :
  trace (put p text w) = trace w.
Proof. reflexivity. Qed.

Lemma silent_write (p : Path) (text : string) : silent (write p text).
Proof.
  intros w. unfold write, append_text. simpl.
  destruct (lookup p w); apply trace_put.
Qed.







Lemma silent_write_slide (o : Path) (s : nat * list (option string)) :
  silent (write_slide o s).
Proof.
  destruct s as [i shapes]. unfold write_slide.
  repeat (apply silent_bind; [|intros]); try apply silent_write.
  apply silent_for_each. intros [text|]; [|apply silent_ret].
  destruct (negb _); [apply silent_write | apply silent_ret].
Qed.















End ConvertFacts.



(* ================================================================== *)
(** * convert-docs-to-md.py: the Markdown of a workbook *)
(* ================================================================== *)

Section ExcelFacts.

Import Pathlib ConvertDocs.

Lemma append_nil_r (s : string) : s ++ "" = s.
Proof. induction s as [|c s IH]; simpl; congruence. Qed.

Lemma append_assoc (a b c : string) : (a ++ b) ++ c = a ++ b ++ c.
Proof. induction a as [|x a IH]; simpl; congruence. Qed.

Lemma forallb_combine_refl (l : list string) :
  forallb (fun '(a, b) => String.eqb a b) (combine l l) = true.
Proof.
  induction l as [|x l IH]; simpl; [reflexivity|].
  now rewrite String.eqb_refl.
Qed.

Lemma path_eqb_refl (p : Path) : Pathlib.eqb p p = true.
Proof.
  unfold Pathlib.eqb.
  now rewrite String.eqb_refl, Nat.eqb_refl, forallb_combine_refl.
Qed.

Lemma lookup_put (p : Path) (text : string) (w : World) :
  lookup p (put p text w) = Some text.
Proof. unfold lookup, put. simpl. now rewrite path_eqb_refl. Qed.

Lemma emits_ret {A} (a : A) (p : Path) : emits (ret a) p "" a.
Proof. intros w s H. simpl. now rewrite append_nil_r. Qed.

Lemma emits_write (p : Path) (text : string) : emits (write p text) p text tt.
Proof.
  intros w s H. unfold write, append_text. simpl. rewrite H.
  split; [reflexivity | apply lookup_put].
Qed.

Lemma emits_bind {A B} (m : io World A) (k : A -> io World B)
      (p : Path) (t1 t2 : string) (a : A) (b : B) :
  emits m p t1 a -> emits (k a) p t2 b -> emits (iobind m k) p (t1 ++ t2) b.
Proof.
  intros Hm Hk w s H. unfold iobind.
  destruct (Hm w s H) as [Hr Hl].
  destruct (m w) as [r w1]. simpl in Hr, Hl. subst r.
  destruct (Hk w1 _ Hl) as [Hr2 Hl2].
  now rewrite <- append_assoc.
Qed.

Lemma emits_for_each_write (p : Path) (l : list string) :
  emits (for_each l (write p)) p (flatten l) tt.
Proof.
  induction l as [|x l IH]; cbn [for_each].
  - apply emits_ret.
  - change (flatten (x :: l)) with (x ++ flatten l).
    eapply emits_bind; [apply emits_write | exact IH].
Qed.

(** Lines 253-255: the data rows that have a cell to show are written,
    in order; the others are not. *)
Lemma emits_rows (p : Path) (rows : list (list cell)) :
  emits (for_each rows (fun row =>
           if existsb truthy_cell row then write p (row_line row) else ret tt))
        p (flatten (map row_line (filter (existsb truthy_cell) rows))) tt.
Proof.
  induction rows as [|row rows IH]; cbn [for_each filter].
  - apply emits_ret.
  - destruct (existsb truthy_cell row).
    + change (flatten (map row_line (row :: filter (existsb truthy_cell) rows)))
        with (row_line row
              ++ flatten (map row_line (filter (existsb truthy_cell) rows))).
      eapply emits_bind; [apply emits_write | exact IH].
    + change (flatten (map row_line (filter (existsb truthy_cell) rows)))
        with ("" ++ flatten (map row_line (filter (existsb truthy_cell) rows))).
      eapply emits_bind; [apply emits_ret | exact IH].
Qed.

Lemma emits_write_then_ret {A} (p : Path) (text : string) (a : A) :
  emits (iobind (write p text) (fun _ => ret a)) p text a.
Proof.
  rewrite <- (append_nil_r text) at 2.
  eapply emits_bind; [apply emits_write | apply emits_ret].
Qed.

Lemma emits_write_sheet (p : Path) (sheet_name : string) (data : list (list cell)) :
  emits (write_sheet p (sheet_name, Worksheet data)) p
        (sheet_text sheet_name data) true.
Proof.
  unfold write_sheet, sheet_text.
  eapply emits_bind; [apply emits_write|].
  destruct data as [|header rows].
  - apply emits_write_then_ret.
  - unfold table_text.
    eapply emits_bind; [apply emits_write|].
    eapply emits_bind; [apply emits_write|].
    eapply emits_bind; [apply emits_rows|].
    apply emits_write_then_ret.
Qed.

Lemma emits_write_sheets (p : Path) (wb : Workbook) :
  all_worksheets wb = true ->
  emits (write_sheets p wb) p (workbook_text wb) true.
Proof.
  induction wb as [|[sheet_name [data|]] wb IH];
    cbn [write_sheets workbook_text all_worksheets forallb snd andb]; intros H.
  - apply emits_ret.
  - eapply emits_bind; [apply emits_write_sheet|]. now apply IH.
  - discriminate.
Qed.

(** A row of empty cells has nothing to show; a row with a cell that
    counts as true has. *)
Lemma blank_row_skipped (row : list cell) :
  (forall c, In c row -> c = CNone) -> existsb truthy_cell row = false.
Proof.
  induction row as [|c row IH]; simpl; intros H; [reflexivity|].
  rewrite (H c) by auto. simpl. apply IH. auto.
Qed.

Lemma row_with_value_written (row : list cell) (c : cell) :
  In c row -> truthy_cell c = true -> existsb truthy_cell row = true.
Proof. intros Hin Ht. apply existsb_exists. eauto. Qed.

(** C4, as amended.  When the workbook loads, holds worksheets only and
    the output file can be opened, [_convert_excel] succeeds and the
    file holds the preamble followed, for every sheet in order, by a
    heading and then either one Markdown table or, for a sheet without
    rows, the mention of the empty sheet.  The table is the header row,
    the rule and the data rows that have a cell to show: a data row
    whose cells are all empty is left out, a data row with a cell that
    counts as true ([bool(cell)]) is written, an empty cell is rendered
    as the empty string; a header row followed by one fully empty row
    gives a table without data rows. *)
Theorem excel_sheets_become_tables (env : Env) (input output : Path)
        (wb : Workbook) (w : World) :
  openpyxl_installed env = true ->
  load_workbook env input = Some wb ->
  writable env output = true ->
  all_worksheets wb = true ->
  fst (_convert_excel env input output w) = Ret true
  /\ lookup output (snd (_convert_excel env input output w))
     = Some (flatten (excel_preamble input) ++ workbook_text wb)
  /\ (forall sheet_name header rows row,
        sheet_text sheet_name (header :: rows ++ [row])
        = heading sheet_name
          ++ row_line header ++ rule_line header
          ++ flatten (map row_line
                        (filter (existsb truthy_cell) rows
                         ++ (if existsb truthy_cell row then [row] else [])))
          ++ nl)
  /\ (forall row, (forall c, In c row -> c = CNone) ->
                  existsb truthy_cell row = false)
  /\ (forall row c, In c row -> truthy_cell c = true ->
                    existsb truthy_cell row = true)
  /\ show_cell CNone = EmptyString
  /\ (forall sheet_name header row,
        (forall c, In c row -> c = CNone) ->
        sheet_text sheet_name [header; row]
        = heading sheet_name ++ row_line header ++ rule_line header ++ nl).
Proof.
  intros Hinst Hload Hwrite Hsheets.
  assert (Hrun : fst (_convert_excel env input output w) = Ret true
                 /\ lookup output (snd (_convert_excel env input output w))
                    = Some (flatten (excel_preamble input) ++ workbook_text wb)).
  { unfold _convert_excel. rewrite Hinst. cbn [negb].
    unfold iobind at 1, record. rewrite Hload.
    unfold iobind at 1, open_w. cbn [files dirs trace]. rewrite Hwrite.
    assert (E : emits (iobind (for_each (excel_preamble input) (write output))
                              (fun _ => write_sheets output wb))
                      output (flatten (excel_preamble input) ++ workbook_text wb)
                      true).
    { eapply emits_bind; [apply emits_for_each_write|].
      now apply emits_write_sheets. }
    apply (E _ EmptyString). apply lookup_put. }
  destruct Hrun as [Hr Hl].
  split; [exact Hr|]. split; [exact Hl|].
  split.
  { intros sheet_name header rows row. unfold sheet_text, table_text.
    rewrite filter_app. simpl.
    destruct (existsb truthy_cell row); reflexivity. }
  split; [exact blank_row_skipped|].
  split; [exact row_with_value_written|].
  split; [reflexivity|].
  intros sheet_name header row Hblank. unfold sheet_text, table_text.
  simpl. now rewrite (blank_row_skipped row Hblank).
Qed.


Lemma excel_sheets_become_tables_witness :
  openpyxl_installed (office_env blank_row_book) = true
  /\ load_workbook (office_env blank_row_book) book = Some blank_row_book
  /\ writable (office_env blank_row_book) book_md = true
  /\ all_worksheets blank_row_book = true
  /\ fst (_convert_excel (office_env blank_row_book) book book_md (holding [book]))
     = Ret true
  /\ lookup book_md
       (snd (_convert_excel (office_env blank_row_book) book book_md (holding [book])))
     = Some (flatten (excel_preamble book) ++ workbook_text blank_row_book).
Proof.
  assert (H1 : openpyxl_installed (office_env blank_row_book) = true)
    by reflexivity.
  assert (H2 : load_workbook (office_env blank_row_book) book = Some blank_row_book)
    by reflexivity.
  assert (H3 : writable (office_env blank_row_book) book_md = true) by reflexivity.
  assert (H4 : all_worksheets blank_row_book = true) by reflexivity.
  split; [exact H1|]. split; [exact H2|]. split; [exact H3|]. split; [exact H4|].
  pose proof (excel_sheets_become_tables (office_env blank_row_book) book book_md
                blank_row_book (holding [book]) H1 H2 H3 H4) as T.
  split; [exact (proj1 T) | exact (proj1 (proj2 T))].
Defined.

(** C4 as stated fails: a sheet without rows gets its heading and the
    mention of the empty sheet, and no table. *)
Lemma excel_empty_sheet_has_no_table :
  fst (_convert_excel (office_env empty_sheet_book) book book_md (holding [book]))
  = Ret true
  /\ lookup book_md
       (snd (_convert_excel (office_env empty_sheet_book) book book_md
               (holding [book])))
     = Some ("# book" ++ nl ++ nl ++ "*Converted from Excel*" ++ nl ++ nl
             ++ "---" ++ nl ++ nl
             ++ "## Empty" ++ nl ++ nl ++ "*Empty sheet*" ++ nl ++ nl)
  /\ PyStr.contains "|"
       ("# book" ++ nl ++ nl ++ "*Converted from Excel*" ++ nl ++ nl
        ++ "---" ++ nl ++ nl
        ++ "## Empty" ++ nl ++ nl ++ "*Empty sheet*" ++ nl ++ nl)
     = false.
Proof. repeat split; vm_compute; reflexivity. Qed.

(** The test of line 254 is the truth value of the cells: a data row
    whose only values are zeros has nothing to show and is left out. *)
Lemma zero_row_not_written :
  existsb truthy_cell [CInt 0; CNone] = false
  /\ sheet_text "Stock" [ [CStr "item"; CStr "qty"]; [CInt 0; CNone] ]
     = sheet_text "Stock" [ [CStr "item"; CStr "qty"] ].
Proof. split; reflexivity. Qed.

End ExcelFacts.

(* ================================================================== *)
(** * convert-docs-to-md.py: a target that is already there *)
(* ================================================================== *)

Section SkipFacts.

Import Pathlib ConvertDocs.

Lemma convert_file_skips (env : Env) (self : Converter) (input : Path)
      (output : option Path) (target : Path) (w : World) :
  is_file input w || is_dir input w = true ->
  supported (PyStr.lower (suffix input)) = true ->
  resolve_output input output = Ret target ->
  is_file target w || is_dir target w = true ->
  overwrite self = false ->
  convert_file env self input output w = (Ret true, w).
Proof.
  intros Hin Hsup Hres Hout Hover.
  unfold convert_file, iobind, path_exists, lift.
  rewrite Hin. cbn [negb]. rewrite Hsup. cbn [negb]. rewrite Hres.
  cbn beta iota. rewrite Hout, Hover. reflexivity.
Qed.

(** C9.  Let the input file exist with a supported extension, let the
    [.md] target that [convert_file] derives for it exist too, and let
    the overwrite flag be off.  Then [convert_file] returns [True] and
    leaves the world as it was: no file is written and no converter is
    called.  In single-file mode the process exits with status 0.  In
    folder mode the loop goes on to the remaining files with the success
    count one higher and the failure count as it was. *)
Theorem existing_target_is_skipped (env : Env) (self : Converter) (input : Path)
        (output : option Path) (target : Path) (w : World) :
  is_file input w || is_dir input w = true ->
  supported (PyStr.lower (suffix input)) = true ->
  resolve_output input output = Ret target ->
  is_file target w || is_dir target w = true ->
  overwrite self = false ->
  convert_file env self input output w = (Ret true, w)
  /\ (forall args,
        arg_supported_formats args = false ->
        arg_file args = Some input ->
        arg_folder args = None ->
        arg_output args = output ->
        arg_overwrite args = false ->
        main env args w = (Exit 0, w))
  /\ (forall input_folder output_folder recursive rest counts w0 out,
        output_for env input_folder output_folder recursive input w0 = (Ret out, w) ->
        output = Some out ->
        convert_each env self input_folder output_folder recursive
          (input :: rest) counts w0
        = convert_each env self input_folder output_folder recursive
            rest (S (fst counts), snd counts) w).
Proof.
  intros Hin Hsup Hres Hout Hover.
  split; [now apply (convert_file_skips env self input output target w)|].
  split.
  - intros args Hfmt Hfile Hfolder Houtput Hoverwrite.
    unfold main. rewrite Hfile, Hfolder, Hfmt. unfold iobind.
    rewrite Houtput.
    rewrite (convert_file_skips env _ input output target w); auto.
  - intros input_folder output_folder recursive rest counts w0 out Hfor ->.
    cbn [convert_each]. unfold iobind at 1. rewrite Hfor.
    unfold iobind at 1.
    now rewrite (convert_file_skips env self input (Some out) target w).
Qed.

Lemma existing_target_is_skipped_witness :
  is_file report (holding [report; report_md])
  || is_dir report (holding [report; report_md]) = true
  /\ supported (PyStr.lower (suffix report)) = true
  /\ resolve_output report None = Ret report_md
  /\ is_file report_md (holding [report; report_md])
     || is_dir report_md (holding [report; report_md]) = true
  /\ overwrite with_pandoc = false
  /\ convert_file (office_env []) with_pandoc report None
       (holding [report; report_md])
     = (Ret true, holding [report; report_md]).
Proof.
  assert (H1 : is_file report (holding [report; report_md])
               || is_dir report (holding [report; report_md]) = true)
    by reflexivity.
  assert (H2 : supported (PyStr.lower (suffix report)) = true) by reflexivity.
  assert (H3 : resolve_output report None = Ret report_md) by reflexivity.
  assert (H4 : is_file report_md (holding [report; report_md])
               || is_dir report_md (holding [report; report_md]) = true)
    by reflexivity.
  assert (H5 : overwrite with_pandoc = false) by reflexivity.
  split; [exact H1|]. split; [exact H2|]. split; [exact H3|].
  split; [exact H4|]. split; [exact H5|].
  exact (proj1 (existing_target_is_skipped (office_env []) with_pandoc report None
                  report_md (holding [report; report_md]) H1 H2 H3 H4 H5)).
Defined.

End SkipFacts.

(* ================================================================== *)
(** * setup.py: the numbered choices *)
(* ================================================================== *)

Section ChoiceFacts.

Import Json Setup.

Lemma py_index_last {A} (l : list A) (x : A) :
  py_index (l ++ [x]) (-1) = Ret x.
Proof.
  unfold py_index. rewrite length_app. cbn [List.length].
  replace (-1 <? 0)%Z with true by reflexivity.
  replace ((0 <=? -1 + Z.of_nat (List.length l + 1))
           && (-1 + Z.of_nat (List.length l + 1) <? Z.of_nat (List.length l + 1)))%Z
    with true
    by (symmetry; apply andb_true_iff; split;
        [apply Z.leb_le | apply Z.ltb_lt]; lia).
  replace (Z.to_nat (-1 + Z.of_nat (List.length l + 1))) with (List.length l) by lia.
  unfold item. rewrite nth_error_app2 by lia. now rewrite Nat.sub_diag.
Qed.

(** An answer that is not a number ends the wizard with status 1, and so
    does a number above the length of the list. *)
Lemma select_rejects {A} (items : list A) (choice : string) :
  (py_int choice = Raise ValueError -> select items choice = Exit 1)
  /\ (forall n, py_int choice = Ret n -> (Z.of_nat (List.length items) < n)%Z ->
                select items choice = Exit 1).
Proof.
  unfold select. split.
  - intros ->. reflexivity.
  - intros n -> Hn. cbn [bind]. unfold py_index.
    replace (n - 1 <? 0)%Z with false by (symmetry; apply Z.ltb_ge; lia).
    replace (n - 1 <? Z.of_nat (List.length items))%Z with false
      by (symmetry; apply Z.ltb_ge; lia).
    now rewrite andb_false_r.
Qed.

(** C5.  The answer [0] to a numbered prompt is out of the range
    [1..n] that the prompt presents, and the wizard takes it: index
    [-1] is the last entry of the list.  With two workspaces and two
    pipelines found, answering [0] twice runs the wizard to its end with
    status 0 and writes the second workspace and the second pipeline to
    the configuration. *)
Theorem choice_zero_selects_last :
  (forall (A : Type) (l : list A) (x : A), select (l ++ [x]) "0" = Ret x)
  /\ fst (script two_workspaces zenhub_args (fresh_project ["eng"; "0"; "0"])) = 0%Z
  /\ config_file
       (snd (script two_workspaces zenhub_args (fresh_project ["eng"; "0"; "0"])))
     = Some (Dumped
               (JObj [ ("board_type", JStr "zenhub");
                       ("workspace_id", JStr "W_2");
                       ("repository_id", JStr "R_1");
                       ("organization_id", JStr "O_1");
                       ("default_pipeline_id", JStr "P_2");
                       ("default_pipeline_name", JStr "Done");
                       ("default_labels", JArr [JStr "bug"]) ])).
Proof.
  split.
  - intros A l x. unfold select.
    replace (py_int "0") with (Ret 0%Z) by reflexivity.
    cbn [bind]. change (0 - 1)%Z with (-1)%Z. now rewrite py_index_last.
  - split; vm_compute; reflexivity.
Qed.

End ChoiceFacts.

(* ================================================================== *)
(** * setup.py: the overwrite prompt *)
(* ================================================================== *)

Section OverwriteFacts.

Import Json Setup.




End OverwriteFacts.

(* ================================================================== *)
(** * setup.py: the permission wildcard *)
(* ================================================================== *)

Section WildcardFacts.

Import Json Setup.

Lemma lookup_dict_set (k : string) (v : json) (m : list (string * json)) :
  lookup k (dict_set k v m) = Some v.
Proof.
  induction m as [|[k' v'] m IH]; simpl.
  - now rewrite String.eqb_refl.
  - destruct (String.eqb k k') eqn:E; simpl.
    + now rewrite String.eqb_refl.
    + now rewrite E.
Qed.

(** Storing again the value a key already has leaves the dict as it is. *)
Lemma dict_set_same (k : string) (v : json) (m : list (string * json)) :
  lookup k m = Some v -> dict_set k v m = m.
Proof.
  induction m as [|[k' v'] m IH]; simpl; [discriminate|].
  destruct (String.eqb k k') eqn:E.
  - intros [= ->]. apply String.eqb_eq in E. now subst.
  - intros H. now rewrite IH.
Qed.

Lemma occurrences_present (k : string) (l : list json) :
  existsb (str_eqb k) l = true -> Nat.max 1 (occurrences k l) = occurrences k l.
Proof.
  unfold occurrences. induction l as [|x l IH]; simpl; [discriminate|].
  destruct (str_eqb k x); simpl; [lia|]. exact IH.
Qed.

Lemma occurrences_absent (k : string) (l : list json) :
  existsb (str_eqb k) l = false -> occurrences k (l ++ [JStr k])%list = 1.
Proof.
  unfold occurrences. induction l as [|x l IH]; simpl.
  - now rewrite String.eqb_refl.
  - destruct (str_eqb k x); simpl; [discriminate|]. exact IH.
Qed.

Lemma bind_ret_inv {A B} (m : outcome A) (k : A -> outcome B) (b : B) :
  bind m k = Ret b -> exists a, m = Ret a /\ k a = Ret b.
Proof. destruct m as [a| |]; simpl; intros H; [eauto | discriminate..]. Qed.

Lemma setitem_inv (j : json) (k : string) (v j' : json) :
  setitem j k v = Ret j' ->
  exists m, j = JObj m /\ j' = JObj (dict_set k v m).
Proof. destruct j; simpl; intros [= <-]. eauto. Qed.

(** After lines 515-516 the wildcard is in the allow entry. *)
Lemma wildcard_present_after (wildcard : string) (allow allow' : json)
      (present : bool) :
  py_in wildcard allow = Ret present ->
  (if negb present then append allow (JStr wildcard) else Ret allow) = Ret allow' ->
  py_in wildcard allow' = Ret true.
Proof.
  intros Hin Happ. destruct present; cbn [negb] in Happ.
  - now injection Happ as <-.
  - destruct allow as [|b|lit|s|l|am]; try discriminate Happ.
    cbn [append] in Happ. injection Happ as <-.
    cbn [py_in]. rewrite existsb_app. cbn [existsb str_eqb].
    now rewrite String.eqb_refl, orb_true_r.
Qed.

(** What a successful [add_wildcard] returns. *)
Lemma add_wildcard_inv (board_type : string) (settings settings' : json) :
  add_wildcard board_type settings = Ret settings' ->
  exists m1 pm1 allow',
    settings' = JObj (dict_set "permissions" (JObj (dict_set "allow" allow' pm1)) m1)
    /\ py_in (wildcard_of board_type) allow' = Ret true.
Proof.
  unfold add_wildcard. fold (wildcard_of board_type). intros H.
  apply bind_ret_inv in H. destruct H as (has_permissions & _ & H).
  apply bind_ret_inv in H. destruct H as (s1 & _ & H).
  apply bind_ret_inv in H. destruct H as (permissions & _ & H).
  apply bind_ret_inv in H. destruct H as (has_allow & _ & H).
  apply bind_ret_inv in H. destruct H as (p1 & _ & H).
  apply bind_ret_inv in H. destruct H as (allow & _ & H).
  apply bind_ret_inv in H. destruct H as (present & Hin & H).
  apply bind_ret_inv in H. destruct H as (allow' & Happ & H).
  apply bind_ret_inv in H. destruct H as (p2 & Hp2 & H).
  apply setitem_inv in Hp2. destruct Hp2 as (pm1 & -> & ->).
  apply setitem_inv in H. destruct H as (m1 & -> & ->).
  exists m1, pm1, allow'. split; [reflexivity|].
  exact (wildcard_present_after _ allow allow' present Hin Happ).
Qed.

(** What [add_wildcard] returns, it leaves as it is. *)
Lemma add_wildcard_fixed (board_type : string) (settings settings' : json) :
  add_wildcard board_type settings = Ret settings' ->
  add_wildcard board_type settings' = Ret settings'.
Proof.
  intros H. apply add_wildcard_inv in H.
  destruct H as (m1 & pm1 & allow' & -> & Hin).
  unfold add_wildcard. fold (wildcard_of board_type).
  repeat progress (cbn [py_in negb bind getitem setitem];
                   rewrite ?lookup_dict_set, ?Hin).
  rewrite (dict_set_same "allow" allow' (dict_set "allow" allow' pm1))
    by apply lookup_dict_set.
  rewrite (dict_set_same "permissions" (JObj (dict_set "allow" allow' pm1))
             (dict_set "permissions" (JObj (dict_set "allow" allow' pm1)) m1))
    by apply lookup_dict_set.
  reflexivity.
Qed.

(** The allow list after [add_wildcard], when there is one before. *)
Lemma add_wildcard_list (board_type : string) (settings permissions : json)
      (allow : list json) :
  getitem settings "permissions" = Ret permissions ->
  getitem permissions "allow" = Ret (JArr allow) ->
  exists settings' permissions',
    add_wildcard board_type settings = Ret settings'
    /\ getitem settings' "permissions" = Ret permissions'
    /\ getitem permissions' "allow"
       = Ret (JArr (if existsb (str_eqb (wildcard_of board_type)) allow
                    then allow
                    else allow ++ [JStr (wildcard_of board_type)]))
    /\ (existsb (str_eqb (wildcard_of board_type)) allow = true ->
        settings' = settings).
Proof.
  intros Hp Ha. unfold add_wildcard. fold (wildcard_of board_type).
  destruct settings as [|b|lit|s|items|m]; try discriminate.
  cbn [getitem] in Hp. destruct (lookup "permissions" m) eqn:L1; [|discriminate].
  injection Hp as ->.
  destruct permissions as [|b|lit|s|items|pm]; try discriminate.
  cbn [getitem] in Ha. destruct (lookup "allow" pm) eqn:L2; [|discriminate].
  injection Ha as ->.
  repeat progress (cbn [py_in negb bind getitem]; rewrite ?L1, ?L2).
  destruct (existsb (str_eqb (wildcard_of board_type)) allow) eqn:E;
    cbn [negb append bind setitem].
  - eexists _, _. split; [reflexivity|].
    cbn [getitem]. rewrite lookup_dict_set. split; [reflexivity|].
    cbn [getitem]. rewrite lookup_dict_set. split; [reflexivity|].
    intros _. now rewrite (dict_set_same "allow" _ pm L2),
                          (dict_set_same "permissions" _ m L1).
  - eexists _, _. split; [reflexivity|].
    cbn [getitem]. rewrite lookup_dict_set. split; [reflexivity|].
    cbn [getitem]. rewrite lookup_dict_set. split; [reflexivity|].
    discriminate.
Qed.

(** C7, as amended.  Whatever the permissions file holds, a run of
    [update_claude_settings] that ends normally leaves a file on which a
    second run with the same board type changes nothing.  When the file
    holds an allow list, the run appends the wildcard if the list does
    not contain it and otherwise writes the settings back as they were
    read: the wildcard then occurs as many times as before, once if it
    occurred once, and in all cases [max 1 n] times for [n] occurrences
    before. *)
Theorem wildcard_append_idempotent (env : Env) (board_type : string) :
  (forall w w1,
      update_claude_settings env board_type w = (Ret tt, w1) ->
      update_claude_settings env board_type w1 = (Ret tt, w1))
  /\ (forall w c settings permissions allow,
        settings_file w = Some c ->
        read_json env c = Some settings ->
        getitem settings "permissions" = Ret permissions ->
        getitem permissions "allow" = Ret (JArr allow) ->
        exists settings' permissions' allow',
          update_claude_settings env board_type w
          = (Ret tt, set_settings true (Some (Dumped settings')) w)
          /\ getitem settings' "permissions" = Ret permissions'
          /\ getitem permissions' "allow" = Ret (JArr allow')
          /\ allow' = (if existsb (str_eqb (wildcard_of board_type)) allow
                       then allow
                       else allow ++ [JStr (wildcard_of board_type)])%list
          /\ occurrences (wildcard_of board_type) allow'
             = Nat.max 1 (occurrences (wildcard_of board_type) allow)
          /\ (existsb (str_eqb (wildcard_of board_type)) allow = true ->
              settings' = settings)).
Proof.
  split.
  - intros w w1. unfold update_claude_settings.
    cbn [set_settings settings_file].
    set (settings := match settings_file w with
                     | Some c => match read_json env c with
                                 | Some j => j
                                 | None => JObj []
                                 end
                     | None => JObj []
                     end).
    destruct (add_wildcard board_type settings) as [settings'| |] eqn:H;
      try discriminate.
    intros [= <-]. cbn [set_settings settings_file read_json].
    rewrite (add_wildcard_fixed board_type settings settings' H). reflexivity.
  - intros w c settings permissions allow Hfile Hread Hp Ha.
    destruct (add_wildcard_list board_type settings permissions allow Hp Ha)
      as (settings' & permissions' & Hrun & Hp' & Ha' & Hsame).
    eexists settings', permissions', _.
    split.
    { unfold update_claude_settings. cbn [set_settings settings_file].
      rewrite Hfile, Hread, Hrun. reflexivity. }
    split; [exact Hp'|]. split; [exact Ha'|]. split; [reflexivity|].
    split; [|exact Hsame].
    destruct (existsb (str_eqb (wildcard_of board_type)) allow) eqn:E.
    + symmetry. now apply occurrences_present.
    + rewrite (occurrences_absent _ _ E).
      unfold occurrences. clear - E.
      induction allow as [|x l IH]; simpl in *; [reflexivity|].
      destruct (str_eqb (wildcard_of board_type) x); [discriminate|].
      now apply IH.
Qed.

End WildcardFacts.

Lemma wildcard_append_idempotent_witness :
  Setup.settings_file
    (Setup.home_with_settings (Setup.settings_with [Json.JStr "mcp__zenhub__*"]))
  = Some (Json.Dumped (Setup.settings_with [Json.JStr "mcp__zenhub__*"]))
  /\ Setup.read_json Setup.two_workspaces
       (Json.Dumped (Setup.settings_with [Json.JStr "mcp__zenhub__*"]))
     = Some (Setup.settings_with [Json.JStr "mcp__zenhub__*"])
  /\ Json.getitem (Setup.settings_with [Json.JStr "mcp__zenhub__*"]) "permissions"
     = Ret (Json.JObj [("allow", Json.JArr [Json.JStr "mcp__zenhub__*"])])
  /\ Json.getitem (Json.JObj [("allow", Json.JArr [Json.JStr "mcp__zenhub__*"])])
       "allow"
     = Ret (Json.JArr [Json.JStr "mcp__zenhub__*"])
  /\ exists settings' permissions' allow',
       Setup.update_claude_settings Setup.two_workspaces "zenhub"
         (Setup.home_with_settings (Setup.settings_with [Json.JStr "mcp__zenhub__*"]))
       = (Ret tt,
          Setup.set_settings true (Some (Json.Dumped settings'))
            (Setup.home_with_settings
               (Setup.settings_with [Json.JStr "mcp__zenhub__*"])))
       /\ Json.getitem settings' "permissions" = Ret permissions'
       /\ Json.getitem permissions' "allow" = Ret (Json.JArr allow')
       /\ allow'
          = (if existsb (Json.str_eqb (Setup.wildcard_of "zenhub"))
                  [Json.JStr "mcp__zenhub__*"]
             then [Json.JStr "mcp__zenhub__*"]
             else [Json.JStr "mcp__zenhub__*"]
                  ++ [Json.JStr (Setup.wildcard_of "zenhub")])%list
       /\ Setup.occurrences (Setup.wildcard_of "zenhub") allow'
          = Nat.max 1 (Setup.occurrences (Setup.wildcard_of "zenhub")
                         [Json.JStr "mcp__zenhub__*"])
       /\ (existsb (Json.str_eqb (Setup.wildcard_of "zenhub"))
             [Json.JStr "mcp__zenhub__*"] = true ->
           settings' = Setup.settings_with [Json.JStr "mcp__zenhub__*"]).
Proof.
  split; [reflexivity|]. split; [reflexivity|]. split; [reflexivity|].
  split; [reflexivity|].
  exact (proj2 (wildcard_append_idempotent Setup.two_workspaces "zenhub")
           (Setup.home_with_settings
              (Setup.settings_with [Json.JStr "mcp__zenhub__*"]))
           _ _ _ _ eq_refl eq_refl eq_refl eq_refl).
Defined.

(** C7 as stated fails: in a permissions file whose allow list holds the
    wildcard twice, the wildcard is present, and after the run it still
    occurs twice. *)
Lemma duplicated_wildcard_stays :
  existsb (Json.str_eqb "mcp__zenhub__*")
    [Json.JStr "mcp__zenhub__*"; Json.JStr "mcp__zenhub__*"] = true
  /\ Setup.update_claude_settings Setup.two_workspaces "zenhub"
       (Setup.home_with_settings
          (Setup.settings_with
             [Json.JStr "mcp__zenhub__*"; Json.JStr "mcp__zenhub__*"]))
     = (Ret tt,
        Setup.home_with_settings
          (Setup.settings_with
             [Json.JStr "mcp__zenhub__*"; Json.JStr "mcp__zenhub__*"]))
  /\ Setup.occurrences "mcp__zenhub__*"
       [Json.JStr "mcp__zenhub__*"; Json.JStr "mcp__zenhub__*"] = 2.
Proof. repeat split; vm_compute; reflexivity. Qed.

(* ================================================================== *)
(** * setup.py: the boards that are not implemented yet *)
(* ================================================================== *)

Section PlaceholderFacts.

Import Json Setup.

Variable env : Env.
Variable args : Args.






Lemma keeps_save_config (config : json) : keeps_registry (save_config config).
Proof. intros w. repeat split. Qed.












End PlaceholderFacts.


(* ================================================================== *)
(** * build.py: further properties *)
(* ================================================================== *)

Section BuildFacts.

Import Pathlib Build BuildProps.

Variable env : Env.

Lemma drop_app (p s : string) : PyStr.drop (String.length p) (p ++ s) = s.
Proof. induction p as [|c p IH]; simpl; [reflexivity | exact IH]. Qed.

Lemma lookup_file_written (p : Path) (f : file) (w : World) :
  lookup_file p (snd (write_file p f w)) = Some f.
Proof. unfold lookup_file, write_file. simpl. now rewrite path_eqb_refl. Qed.

Lemma zip_entries_all (skill_name pre : string) (rels : list string) :
  (forall rel, In rel rels -> in_worktree env (pre ++ rel) = true) ->
  zip_entries env skill_name pre (map (fun rel => pre ++ rel) rels)
  = (map (fun rel => (joinpath (repo_dir env) (of_string (pre ++ rel)),
                      skill_name ++ "/" ++ rel)) rels, true).
Proof.
  induction rels as [|rel rels IH]; intros H; cbn [map zip_entries].
  - reflexivity.
  - rewrite (H rel) by (left; reflexivity).
    rewrite IH by (intros r Hr; apply H; right; exact Hr).
    now rewrite drop_app.
Qed.


(** X2.  A unit whose tracked files are [skills/<name>/<rel>], all
    readable: [build_skill] writes one archive, at
    [<output_dir>/<name>.zip], whose entries are these files, in the
    order git sorted them, under the names [<name>/<rel>]; it prints
    nothing. *)
Theorem build_skill_rewrites_paths (skill_name : string) (output_dir : Path)
        (lines rels : list string) (w : World) :
  git_installed env = true ->
  git_ls_files env ("skills/" ++ skill_name ++ "/") = Some lines ->
  PyStr.sorted (filter nonblank lines)
  = map (fun rel => ("skills/" ++ skill_name ++ "/") ++ rel) rels ->
  rels <> [] ->
  (forall rel, In rel rels ->
               in_worktree env (("skills/" ++ skill_name ++ "/") ++ rel) = true) ->
  fst (build_skill env skill_name output_dir w)
  = Ret (joinpath output_dir (of_string (skill_name ++ ".zip")))
  /\ lookup_file (joinpath output_dir (of_string (skill_name ++ ".zip")))
       (snd (build_skill env skill_name output_dir w))
     = Some (Zip (map (fun rel =>
                         (joinpath (repo_dir env)
                            (of_string (("skills/" ++ skill_name ++ "/") ++ rel)),
                          skill_name ++ "/" ++ rel)) rels))
  /\ stdout (snd (build_skill env skill_name output_dir w)) = stdout w.
Proof.
  intros Hgit Hls Hsorted Hne Hread.
  assert (E : build_skill env skill_name output_dir w
              = (Ret (joinpath output_dir (of_string (skill_name ++ ".zip"))),
                 snd (write_file
                        (joinpath output_dir (of_string (skill_name ++ ".zip")))
                        (Zip (map (fun rel =>
                                     (joinpath (repo_dir env)
                                        (of_string (("skills/" ++ skill_name ++ "/")
                                                    ++ rel)),
                                      skill_name ++ "/" ++ rel)) rels)) w))).
  { unfold build_skill, iobind, ls_files. rewrite Hgit, Hls. cbn [ret].
    rewrite Hsorted.
    pose proof (zip_entries_all skill_name ("skills/" ++ skill_name ++ "/")
                  rels Hread) as Z.
    destruct rels as [|rel rels]; [congruence|].
    cbn [map] in Z |- *. rewrite Z. reflexivity. }
  rewrite E. cbn [fst snd].
  split; [reflexivity|]. split; [apply lookup_file_written | reflexivity].
Qed.

Lemma ltb_asym (x y : string) : String.ltb x y = true -> String.ltb y x = false.
Proof.
  unfold String.ltb. rewrite (String.compare_antisym x y).
  destruct (String.compare y x); simpl; congruence.
Qed.

Lemma in_insert_sorted (x a : string) (l : list string) :
  In x (PyStr.insert_sorted a l) <-> x = a \/ In x l.
Proof.
  induction l as [|y l IH]; simpl.
  - intuition.
  - destruct (String.ltb a y); simpl; rewrite ?IH; intuition.
Qed.

Lemma in_sorted (x : string) (l : list string) :
  In x (PyStr.sorted l) <-> In x l.
Proof.
  unfold PyStr.sorted. induction l as [|a l IH]; simpl; [reflexivity|].
  rewrite in_insert_sorted, IH. intuition.
Qed.

Lemma in_dedup (x : string) (l : list string) :
  In x (PyStr.dedup l) <-> In x l.
Proof.
  induction l as [|a l IH]; simpl; [reflexivity|].
  destruct (existsb (String.eqb a) l) eqn:E.
  - rewrite IH. split; [auto|]. intros [->|H]; [|exact H].
    apply existsb_exists in E. destruct E as (y & Hy & Heq).
    apply String.eqb_eq in Heq. now subst.
  - simpl. rewrite IH. reflexivity.
Qed.

Lemma nodup_dedup (l : list string) : NoDup (PyStr.dedup l).
Proof.
  induction l as [|a l IH]; simpl; [constructor|].
  destruct (existsb (String.eqb a) l) eqn:E; [exact IH|].
  constructor; [|exact IH].
  rewrite in_dedup. intros Hin.
  assert (existsb (String.eqb a) l = true)
    by (apply existsb_exists; exists a; split; [exact Hin | apply String.eqb_refl]).
  congruence.
Qed.

Lemma nodup_insert_sorted (a : string) (l : list string) :
  ~ In a l -> NoDup l -> NoDup (PyStr.insert_sorted a l).
Proof.
  induction l as [|y l IH]; simpl; intros Hnot Hnd.
  - constructor; [auto | constructor].
  - destruct (String.ltb a y).
    + constructor; [exact Hnot | exact Hnd].
    + inversion Hnd as [|? ? Hy Hl]; subst.
      constructor.
      * rewrite in_insert_sorted. intros [->|H]; [apply Hnot; now left | contradiction].
      * apply IH; [intros H; apply Hnot; now right | exact Hl].
Qed.

Lemma nodup_sorted (l : list string) : NoDup l -> NoDup (PyStr.sorted l).
Proof.
  unfold PyStr.sorted. induction l as [|a l IH]; simpl; intros H; [constructor|].
  inversion H as [|? ? Ha Hl]; subst.
  apply nodup_insert_sorted; [|now apply IH].
  change (~ In a (PyStr.sorted l)). now rewrite in_sorted.
Qed.

Lemma ascending_insert_sorted (a : string) (l : list string) :
  ascending l -> ascending (PyStr.insert_sorted a l).
Proof.
  induction l as [|y l IH]; intros H; cbn [PyStr.insert_sorted]; [exact I|].
  destruct (String.ltb a y) eqn:E.
  - split; [now apply ltb_asym | exact H].
  - destruct l as [|z l].
    + cbn. split; [exact E | exact I].
    + destruct H as [Hyz Hrest]. specialize (IH Hrest).
      cbn [PyStr.insert_sorted] in IH |- *.
      destruct (String.ltb a z); split; assumption.
Qed.

Lemma ascending_sorted (l : list string) : ascending (PyStr.sorted l).
Proof.
  unfold PyStr.sorted. induction l as [|a l IH]; simpl; [exact I|].
  now apply ascending_insert_sorted.
Qed.

(** X3.  [discover_skills] returns, in ascending order and each once,
    exactly the names that stand second in a listed path whose third
    part is [SKILL.md]; it changes nothing. *)
Theorem discover_skills_sorted_units (lines : list string) (w : World) :
  git_installed env = true ->
  git_ls_files env "skills/" = Some lines ->
  exists names,
    discover_skills env w = (Ret names, w)
    /\ NoDup names
    /\ ascending names
    /\ forall n,
         In n names <->
         exists f first rest,
           In f lines /\ nonblank f = true
           /\ parts (of_string f) = first :: n :: "SKILL.md" :: rest.
Proof.
  intros Hgit Hls.
  eexists. split.
  { unfold discover_skills, iobind, ls_files. rewrite Hgit, Hls. reflexivity. }
  split; [apply nodup_sorted, nodup_dedup|].
  split; [apply ascending_sorted|].
  intros n. rewrite in_sorted, in_dedup, in_flat_map.
  split.
  - intros (f & Hf & Hn). rewrite in_sorted in Hf. apply filter_In in Hf.
    destruct Hf as [Hin Hnb].
    destruct (parts (of_string f)) as [|first [|second [|third rest]]] eqn:P;
      try contradiction.
    destruct (String.eqb third "SKILL.md") eqn:E; [|contradiction].
    apply String.eqb_eq in E. subst third.
    destruct Hn as [->|[]]. exists f, first, rest. auto.
  - intros (f & first & rest & Hin & Hnb & P).
    exists f. split.
    + rewrite in_sorted. apply filter_In. auto.
    + rewrite P. rewrite String.eqb_refl. now left.
Qed.

Lemma keeps_files_ret {A} (a : A) : keeps_files (ret a).
Proof. intros w. reflexivity. Qed.

Lemma keeps_files_bind {A B} (m : io World A) (k : A -> io World B) :
  keeps_files m -> (forall a, keeps_files (k a)) -> keeps_files (iobind m k).
Proof.
  intros Hm Hk w. unfold iobind. specialize (Hm w).
  destruct (m w) as [[a|e|c] w1]; simpl in *; try assumption.
  now rewrite Hk.
Qed.

Lemma keeps_files_for_each {A} (l : list A) (body : A -> io World unit) :
  (forall x, keeps_files (body x)) -> keeps_files (for_each l body).
Proof.
  intros H. induction l as [|x l IH]; cbn [for_each].
  - apply keeps_files_ret.
  - apply keeps_files_bind; auto.
Qed.

Lemma keeps_files_print (line : string) : keeps_files (print line).
Proof. intros w. reflexivity. Qed.

Lemma keeps_files_ls_files (path : string) : keeps_files (ls_files env path).
Proof.
  intros w. unfold ls_files.
  destruct (git_installed env); [|reflexivity].
  destruct (git_ls_files env path); reflexivity.
Qed.

Lemma keeps_files_get_version : keeps_files (get_version env).
Proof.
  intros w. unfold get_version.
  destruct (git_installed env); [|reflexivity].
  destruct (git_describe env) as [out|]; [|reflexivity].
  destruct (nonblank out); reflexivity.
Qed.

Lemma keeps_files_discover_skills : keeps_files (discover_skills env).
Proof.
  unfold discover_skills. apply keeps_files_bind.
  - apply keeps_files_ls_files.
  - intros; apply keeps_files_ret.
Qed.

(** X4.  With [--list] no archive is written: whatever git answers and
    however the preview ends, the files are those of before. *)
Theorem list_mode_writes_nothing (args : Args) (w : World) :
  list_only args = true ->
  files (snd (main env args w)) = files w.
Proof.
  intros Hlist.
  assert (K : keeps_files (main env args)).
  { unfold main. rewrite Hlist.
    apply keeps_files_bind.
    - destruct (version args) as [v|]; [|apply keeps_files_get_version].
      destruct (String.eqb v ""); [apply keeps_files_get_version
                                  | apply keeps_files_ret].
    - intros v.
      repeat first
        [ apply keeps_files_print | apply keeps_files_ls_files
        | apply keeps_files_discover_skills | apply keeps_files_ret
        | apply keeps_files_for_each; intros
        | apply keeps_files_bind; [|intros] ]. }
  apply K.
Qed.






End BuildFacts.


Lemma build_skill_rewrites_paths_witness :
  Build.git_installed Build.quoted_env = true
  /\ Build.git_ls_files Build.quoted_env ("skills/" ++ "ok" ++ "/")
     = Some ["skills/ok/SKILL.md"]
  /\ PyStr.sorted (filter Build.nonblank ["skills/ok/SKILL.md"])
     = map (fun rel => ("skills/" ++ "ok" ++ "/") ++ rel) ["SKILL.md"]
  /\ ["SKILL.md"] <> []
  /\ (forall rel, In rel ["SKILL.md"] ->
                  Build.in_worktree Build.quoted_env
                    (("skills/" ++ "ok" ++ "/") ++ rel) = true)
  /\ Build.lookup_file
       (Pathlib.joinpath (Pathlib.of_string "/repo/dist/skills")
          (Pathlib.of_string ("ok" ++ ".zip")))
       (snd (Build.build_skill Build.quoted_env "ok"
               (Pathlib.of_string "/repo/dist/skills") Build.fresh_world))
     = Some (Build.Zip
               (map (fun rel =>
                       (Pathlib.joinpath (Build.repo_dir Build.quoted_env)
                          (Pathlib.of_string (("skills/" ++ "ok" ++ "/") ++ rel)),
                        "ok" ++ "/" ++ rel)) ["SKILL.md"])).
Proof.
  assert (H1 : Build.git_installed Build.quoted_env = true) by reflexivity.
  assert (H2 : Build.git_ls_files Build.quoted_env ("skills/" ++ "ok" ++ "/")
               = Some ["skills/ok/SKILL.md"]) by reflexivity.
  assert (H3 : PyStr.sorted (filter Build.nonblank ["skills/ok/SKILL.md"])
               = map (fun rel => ("skills/" ++ "ok" ++ "/") ++ rel) ["SKILL.md"])
    by (vm_compute; reflexivity).
  assert (H4 : ["SKILL.md"] <> []) by discriminate.
  assert (H5 : forall rel, In rel ["SKILL.md"] ->
                 Build.in_worktree Build.quoted_env
                   (("skills/" ++ "ok" ++ "/") ++ rel) = true)
    by (intros; reflexivity).
  split; [exact H1|]. split; [exact H2|]. split; [exact H3|].
  split; [exact H4|]. split; [exact H5|].
  exact (proj1 (proj2 (build_skill_rewrites_paths Build.quoted_env "ok"
                         (Pathlib.of_string "/repo/dist/skills")
                         ["skills/ok/SKILL.md"] ["SKILL.md"] Build.fresh_world
                         H1 H2 H3 H4 H5))).
Defined.

Lemma discover_skills_sorted_units_witness :
  Build.git_installed Build.quoted_env = true
  /\ Build.git_ls_files Build.quoted_env "skills/"
     = Some [Build.quoted_line; "skills/ok/SKILL.md"]
  /\ exists names,
       Build.discover_skills Build.quoted_env Build.fresh_world
       = (Ret names, Build.fresh_world)
       /\ NoDup names
       /\ BuildProps.ascending names
       /\ forall n,
            In n names <->
            exists f first rest,
              In f [Build.quoted_line; "skills/ok/SKILL.md"]
              /\ Build.nonblank f = true
              /\ Pathlib.parts (Pathlib.of_string f)
                 = first :: n :: "SKILL.md" :: rest.
Proof.
  assert (H1 : Build.git_installed Build.quoted_env = true) by reflexivity.
  assert (H2 : Build.git_ls_files Build.quoted_env "skills/"
               = Some [Build.quoted_line; "skills/ok/SKILL.md"]) by reflexivity.
  split; [exact H1|]. split; [exact H2|].
  exact (discover_skills_sorted_units Build.quoted_env
           [Build.quoted_line; "skills/ok/SKILL.md"] Build.fresh_world H1 H2).
Defined.

Lemma list_mode_writes_nothing_witness :
  Build.list_only BuildProps.list_args = true
  /\ Build.files (snd (Build.main Build.quoted_env BuildProps.list_args
                         Build.fresh_world))
     = Build.files Build.fresh_world.
Proof.
  assert (H1 : Build.list_only BuildProps.list_args = true) by reflexivity.
  split; [exact H1|].
  exact (list_mode_writes_nothing Build.quoted_env BuildProps.list_args
           Build.fresh_world H1).
Defined.


(* ================================================================== *)
(** * convert-docs-to-md.py: further properties *)
(* ================================================================== *)

Section ConvertMoreFacts.

Import Pathlib ConvertDocs ConvertProps.

Lemma combine_eqb_eq (a b : list string) :
  List.length a = List.length b ->
  forallb (fun '(x, y) => String.eqb x y) (combine a b) = true -> a = b.
Proof.
  revert b. induction a as [|x a IH]; intros [|y b]; simpl; try discriminate; auto.
  intros [= L]. rewrite andb_true_iff. intros [E R].
  apply String.eqb_eq in E. subst. f_equal. now apply IH.
Qed.

Lemma path_eqb_eq (p q : Path) : Pathlib.eqb p q = true <-> p = q.
Proof.
  split; [|intros ->; apply path_eqb_refl].
  unfold Pathlib.eqb. rewrite !andb_true_iff. intros [[R L] C].
  apply String.eqb_eq in R. apply Nat.eqb_eq in L.
  destruct p as [rp cp], q as [rq cq]. simpl in *. subst.
  f_equal. now apply combine_eqb_eq.
Qed.

Lemma path_eqb_neq (p q : Path) : p <> q -> Pathlib.eqb p q = false.
Proof.
  intros H. destruct (Pathlib.eqb p q) eqn:E; [|reflexivity].
  apply path_eqb_eq in E. contradiction.
Qed.

Lemma lookup_put_other (p q : Path) (text : string) (w : World) :
  p <> q -> lookup q (put p text w) = lookup q w.
Proof.
  intros H. unfold lookup, put. cbn [files find fst].
  rewrite (path_eqb_neq p q H).
  induction (files w) as [|e l IH]; simpl; [reflexivity|].
  destruct (Pathlib.eqb (fst e) p) eqn:E; simpl.
  - apply path_eqb_eq in E. rewrite E, (path_eqb_neq p q H). exact IH.
  - destruct (Pathlib.eqb (fst e) q); [reflexivity | exact IH].
Qed.

Lemma lookup_unlink (p : Path) (w : World) : lookup p (snd (unlink p w)) = None.
Proof.
  unfold lookup, unlink. cbn [snd files].
  induction (files w) as [|e l IH]; simpl; [reflexivity|].
  destruct (Pathlib.eqb (fst e) p) eqn:E; simpl; [exact IH|].
  now rewrite E.
Qed.

Lemma lookup_unlink_other (p q : Path) (w : World) :
  p <> q -> lookup q (snd (unlink p w)) = lookup q w.
Proof.
  intros H. unfold lookup, unlink. cbn [snd files].
  induction (files w) as [|e l IH]; simpl; [reflexivity|].
  destruct (Pathlib.eqb (fst e) p) eqn:E; simpl.
  - apply path_eqb_eq in E. rewrite E, (path_eqb_neq p q H). exact IH.
  - destruct (Pathlib.eqb (fst e) q); [reflexivity | exact IH].
Qed.

Variable env : Env.
Variable self : Converter.

(** X6.  A file that does not exist, or whose extension is not in the
    table, is refused without touching anything: [convert_file] returns
    [False], and in single-file mode the process exits with status 1. *)
Theorem unconvertible_file_is_refused (input : Path) (output : option Path)
        (w : World) :
  is_file input w || is_dir input w = false
  \/ supported (PyStr.lower (suffix input)) = false ->
  convert_file env self input output w = (Ret false, w)
  /\ forall args,
       arg_supported_formats args = false ->
       arg_file args = Some input ->
       arg_folder args = None ->
       arg_output args = output ->
       main env args w = (Exit 1, w).
Proof.
  intros H.
  assert (E : forall c, convert_file env c input output w = (Ret false, w)).
  { intros c. unfold convert_file, iobind, path_exists.
    destruct (is_file input w || is_dir input w); [|reflexivity].
    destruct H as [H|H]; [discriminate|]. now rewrite H. }
  split; [apply E|].
  intros args Hfmt Hfile Hfolder Hout.
  unfold main. rewrite Hfile, Hfolder, Hfmt. unfold iobind.
  now rewrite Hout, E.
Qed.

(** X7.  The two counters of the folder loop account for every file:
    when the loop ends normally, successes and failures have grown,
    together, by the number of files handed to it. *)
Theorem folder_counters_account_for_every_file
        (input_folder output_folder : Path) (recursive : bool)
        (files : list Path) (counts : nat * nat) (w w' : World) (s f : nat) :
  convert_each env self input_folder output_folder recursive files counts w
  = (Ret (s, f), w') ->
  s + f = fst counts + snd counts + List.length files
  /\ fst counts <= s /\ snd counts <= f.
Proof.
  revert counts w. induction files as [|file rest IH]; intros counts w;
    cbn [convert_each].
  - intros [= -> <-]. simpl. lia.
  - unfold iobind at 1.
    destruct (output_for env input_folder output_folder recursive file w)
      as [[out|e|c] w1]; try discriminate.
    unfold iobind at 1.
    destruct (convert_file env self file (Some out) w1) as [[ok|e|c] w2];
      try discriminate.
    intros H. apply IH in H. destruct ok; simpl in H; cbn [List.length]; lia.
Qed.

(** X8.  A folder that does not exist is no failure: [convert_folder]
    returns two zero counters and the process exits with status 0,
    having changed nothing. *)
Theorem missing_folder_exits_zero (folder : Path) (w : World) (args : Args) :
  is_file folder w || is_dir folder w = false ->
  arg_supported_formats args = false ->
  arg_file args = None ->
  arg_folder args = Some folder ->
  main env args w = (Exit 0, w).
Proof.
  intros Hmiss Hfmt Hfile Hfolder.
  unfold main. rewrite Hfile, Hfolder, Hfmt.
  unfold iobind at 1, convert_folder, iobind at 1, path_exists.
  now rewrite Hmiss.
Qed.

End ConvertMoreFacts.

Section ConvertMoreExamples.

Import Pathlib ConvertDocs ConvertProps.

Lemma unconvertible_file_is_refused_witness :
  convert_file (office_env []) with_pandoc notes None (holding [notes])
  = (Ret false, holding [notes])
  /\ main (office_env []) (file_args notes) (holding [notes])
     = (Exit 1, holding [notes]).
Proof.
  destruct (unconvertible_file_is_refused (office_env []) with_pandoc notes None
              (holding [notes])) as [H1 H2].
  - right. vm_compute. reflexivity.
  - split; [exact H1 | apply H2; reflexivity].
Defined.

Lemma folder_counters_account_for_every_file_witness :
  convert_each (office_env []) with_pandoc (of_string "docs")
    (of_string "docs/Markdown") false [report; notes; book] (0, 0)
    (holding [report; notes; book])
  = (Ret (2, 1), snd (convert_each (office_env []) with_pandoc (of_string "docs")
                        (of_string "docs/Markdown") false [report; notes; book]
                        (0, 0) (holding [report; notes; book])))
  /\ 2 + 1 = 0 + 0 + 3.
Proof.
  assert (E : convert_each (office_env []) with_pandoc (of_string "docs")
                (of_string "docs/Markdown") false [report; notes; book] (0, 0)
                (holding [report; notes; book])
              = (Ret (2, 1),
                 snd (convert_each (office_env []) with_pandoc (of_string "docs")
                        (of_string "docs/Markdown") false [report; notes; book]
                        (0, 0) (holding [report; notes; book]))))
    by (vm_compute; reflexivity).
  split; [exact E|].
  exact (proj1 (folder_counters_account_for_every_file (office_env []) with_pandoc
                  (of_string "docs") (of_string "docs/Markdown") false
                  [report; notes; book] (0, 0) _ _ 2 1 E)).
Defined.

Lemma missing_folder_exits_zero_witness :
  main (office_env []) (folder_args missing_folder) (holding [report])
  = (Exit 0, holding [report]).
Proof.
  apply (missing_folder_exits_zero (office_env []) missing_folder); reflexivity.
Defined.

End ConvertMoreExamples.

(* ================================================================== *)
(** * The converters that work without pandoc *)
(* ================================================================== *)

Section FallbackFacts.

Import Pathlib ConvertDocs ConvertProps.

Variable env : Env.
Variable self : Converter.

Lemma emits_unlink_other (p q : Path) : q <> p -> emits (unlink q) p "" tt.
Proof.
  intros H w s L. split; [reflexivity|].
  now rewrite (lookup_unlink_other q p w H), append_nil_r.
Qed.

Lemma emits_for_each {A} (p : Path) (l : list A) (body : A -> io World unit)
      (text : A -> string) :
  (forall x, emits (body x) p (text x) tt) ->
  emits (for_each l body) p (flatten (map text l)) tt.
Proof.
  intros H. induction l as [|x l IH]; cbn [for_each map].
  - apply emits_ret.
  - change (flatten (text x :: map text l)) with (text x ++ flatten (map text l)).
    eapply emits_bind; [apply H | exact IH].
Qed.

Lemma removes_bind {A B} (p : Path) (m : io World A) (k : A -> io World B) :
  (forall a, removes p (k a)) -> removes p (iobind m k).
Proof.
  intros H w b. unfold iobind.
  destruct (m w) as [[a|e|c] w1]; cbn [fst snd]; try discriminate.
  apply H.
Qed.

Lemma removes_unlink {A} (p : Path) (a : A) :
  removes p (iobind (unlink p) (fun _ => ret a)).
Proof. intros w b _. unfold iobind. cbn. apply lookup_unlink. Qed.

(** X9.  Without pandoc the six text formats are not converted:
    [convert_file] writes nothing and calls no tool, and it reports
    success only for a target that was there already. *)
Theorem text_formats_need_pandoc (input : Path) (output : option Path)
        (w : World) :
  pandoc_available self = false ->
  text_like (PyStr.lower (suffix input)) = true ->
  snd (convert_file env self input output w) = w
  /\ (fst (convert_file env self input output w) = Ret true ->
      exists target,
        resolve_output input output = Ret target
        /\ is_file target w || is_dir target w = true
        /\ overwrite self = false).
Proof.
  intros Hp Ht.
  unfold convert_file, iobind, path_exists, lift.
  destruct (is_file input w || is_dir input w); cbn [negb];
    [|split; [reflexivity | discriminate]].
  destruct (supported (PyStr.lower (suffix input))); cbn [negb];
    [|split; [reflexivity | discriminate]].
  destruct (resolve_output input output) as [target|e|c];
    [|split; [reflexivity | discriminate]..].
  destruct (is_file target w || is_dir target w) eqn:There; cbn [andb].
  - destruct (overwrite self) eqn:Over; cbn [negb].
    + unfold convert_by_type. unfold text_like in Ht. rewrite Ht.
      unfold _convert_with_pandoc. rewrite Hp.
      split; [reflexivity | discriminate].
    + split; [reflexivity|]. intros _. now exists target.
  - unfold convert_by_type. unfold text_like in Ht. rewrite Ht.
    unfold _convert_with_pandoc. rewrite Hp.
    split; [reflexivity | discriminate].
Qed.

(** X10.  The PDF fallback: with pdftotext and without pandoc, the
    target receives the three lines of the preamble and then the
    extracted text, and the text file [pdftotext] wrote beside the input
    is gone afterwards, also when a file of that name was there before
    the run. *)
Theorem pdf_fallback_removes_text_file (input output text_file : Path)
        (text : string) (w : World) :
  pandoc_available self = false ->
  which_pdftotext env = true ->
  pdftotext_out env input = Some text ->
  with_suffix input ".txt" = Ret text_file ->
  writable env output = true ->
  text_file <> output ->
  fst (_convert_pdf env self input output w) = Ret true
  /\ lookup output (snd (_convert_pdf env self input output w))
     = Some (flatten (pdf_preamble input) ++ text)
  /\ lookup text_file (snd (_convert_pdf env self input output w)) = None.
Proof.
  intros Hp Hw Ht Hs Ho Hne.
  unfold _convert_pdf. rewrite Hp, Hw, Hs. cbn [negb].
  unfold iobind at 1, lift. unfold iobind at 1, record. rewrite Ht.
  unfold iobind at 1. unfold iobind at 1, open_w. cbn [files dirs trace].
  rewrite Ho.
  match goal with
  | |- fst (?m ?w3) = _ /\ _ =>
      assert (E : emits m output ((flatten (pdf_preamble input) ++ text) ++ "") true);
      [| assert (R : removes text_file m);
         [| destruct (E w3 EmptyString (lookup_put _ _ _)) as [Hr Hl];
            split; [exact Hr|]; split;
            [ exact (eq_trans Hl (f_equal Some (append_nil_r _)))
            | exact (R w3 true Hr) ] ] ]
  end.
  - rewrite append_assoc.
    eapply emits_bind; [apply emits_for_each_write|].
    eapply emits_bind; [apply emits_write|].
    rewrite <- (append_nil_r EmptyString) at 1.
    eapply emits_bind; [now apply emits_unlink_other | apply emits_ret].
  - apply removes_bind; intros _. apply removes_bind; intros _.
    apply removes_unlink.
Qed.

Lemma map_fst_combine {A B} (a : list A) (b : list B) :
  List.length a = List.length b -> map fst (combine a b) = a.
Proof.
  revert b. induction a as [|x a IH]; intros [|y b]; simpl; try discriminate;
    [reflexivity|].
  intros [= L]. f_equal. now apply IH.
Qed.

Lemma emits_write_slide (p : Path) (numbered : nat * list (option string)) :
  emits (write_slide p numbered) p (slide_text numbered) tt.
Proof.
  destruct numbered as [i shapes]. unfold write_slide, slide_text.
  cbn [fst snd].
  eapply emits_bind; [apply emits_write|].
  eapply emits_bind; [|apply emits_write].
  apply emits_for_each. intros [shape_text0|]; cbn [shape_text].
  - destruct (String.eqb shape_text0 ""); cbn [negb];
      [apply emits_ret | apply emits_write].
  - apply emits_ret.
Qed.

(** X11.  The PowerPoint fallback: with python-pptx and without pandoc,
    the target receives the preamble and then, for every slide in
    order, a heading with the slide's number, counted from 1, the text
    of each shape that has one, and a rule; one call of python-pptx is
    recorded. *)
Theorem powerpoint_fallback_writes_slides (input output : Path)
        (prs : Presentation) (w : World) :
  pandoc_available self = false ->
  pptx_installed env = true ->
  load_presentation env input = Some prs ->
  writable env output = true ->
  fst (_convert_powerpoint env self input output w) = Ret true
  /\ lookup output (snd (_convert_powerpoint env self input output w))
     = Some (flatten (powerpoint_preamble input)
             ++ flatten (map slide_text (combine (seq 1 (List.length prs)) prs)))
  /\ map fst (combine (seq 1 (List.length prs)) prs) = seq 1 (List.length prs)
  /\ trace (snd (_convert_powerpoint env self input output w))
     = (trace w ++ [(PythonPptx, input)])%list.
Proof.
  intros Hp Hi Hl Ho.
  unfold _convert_powerpoint. rewrite Hp, Hi, Hl. cbn [negb].
  unfold iobind at 1, record. unfold iobind at 1, open_w.
  cbn [files dirs trace]. rewrite Ho.
  match goal with
  | |- fst (?m ?w3) = _ /\ _ =>
      assert (E : emits m output
                    (flatten (powerpoint_preamble input)
                     ++ flatten (map slide_text
                                   (combine (seq 1 (List.length prs)) prs)) ++ "")
                    true);
      [| assert (S : silent m);
         [| destruct (E w3 EmptyString (lookup_put _ _ _)) as [Hr Hl'];
            split; [exact Hr|]; split;
            [ exact (eq_trans Hl' (f_equal Some
                       (eq_trans (eq_sym (append_assoc _ _ _)) (append_nil_r _)))) |] ] ]
  end.
  - eapply emits_bind; [apply emits_for_each_write|].
    eapply emits_bind; [|apply emits_ret].
    apply emits_for_each. apply emits_write_slide.
  - apply silent_bind; [apply silent_for_each; intros; apply silent_write|].
    intros _. apply silent_bind; [|intros; apply silent_ret].
    apply silent_for_each. intros x. apply silent_write_slide.
  - split.
    + apply map_fst_combine. now rewrite length_seq.
    + exact (S _).
Qed.

End FallbackFacts.

(* ================================================================== *)
(** * What a conversion leaves in place *)
(* ================================================================== *)

Section SuffixFacts.

Import PyStr Pathlib.

Lemma rcut_char_app (c : ascii) (a b : string) :
  rcut_char c b = None -> rcut_char c (a ++ String c b) = Some (a, b).
Proof.
  intros H. induction a as [|x a IH]; cbn [append rcut_char].
  - now rewrite H, Ascii.eqb_refl.
  - now rewrite IH.
Qed.

Lemma split_suffix_app (c d : ascii) (pre post : string) :
  rcut_char "."%char (String d post) = None ->
  split_suffix (String c pre ++ "." ++ String d post)
  = (String c pre, "." ++ String d post).
Proof.
  intros H. unfold split_suffix.
  change ("." ++ String d post) with (String "."%char (String d post)).
  now rewrite (rcut_char_app "."%char (String c pre) (String d post) H).
Qed.

Lemma stem_nonempty (p : Path) :
  name p <> EmptyString -> exists c pre, stem p = String c pre.
Proof.
  unfold stem, split_suffix. intros H.
  destruct (rcut_char "."%char (name p)) as [[[|c pre] [|d post]]|];
    cbn [fst]; eauto.
  all: destruct (name p) as [|c' n]; [contradiction | eauto ..].
Qed.

(** [p.with_suffix(sfx).suffix == sfx], for a suffix made of a dot and
    characters other than the dot. *)
Lemma suffix_with_suffix (p q : Path) (d : ascii) (post : string) :
  rcut_char "."%char (String d post) = None ->
  with_suffix p ("." ++ String d post) = Ret q ->
  suffix q = "." ++ String d post.
Proof.
  intros H. unfold with_suffix.
  destruct (String.eqb (name p) "") eqn:E; [discriminate|].
  intros [= <-]. apply String.eqb_neq in E.
  destruct (stem_nonempty p E) as (c & pre & S). rewrite S.
  unfold suffix, name. cbn [comps]. rewrite last_last.
  exact (f_equal snd (split_suffix_app c d pre post H)).
Qed.

End SuffixFacts.

Section LeavesFacts.

Import Pathlib ConvertDocs ConvertProps.

Variable env : Env.

Lemma leaves_ret {A} (p : Path) (a : A) : leaves p (ret a).
Proof. intros w. reflexivity. Qed.

Lemma leaves_lift {A} (p : Path) (o : outcome A) : leaves p (lift o).
Proof. intros w. reflexivity. Qed.

Lemma leaves_bind {A B} (p : Path) (m : io World A) (k : A -> io World B) :
  leaves p m -> (forall a, leaves p (k a)) -> leaves p (iobind m k).
Proof.
  intros Hm Hk w. unfold iobind. specialize (Hm w).
  destruct (m w) as [[a|e|c] w1]; cbn [snd] in *; try exact Hm.
  now rewrite Hk.
Qed.

Lemma leaves_bind_lift {A B} (p : Path) (o : outcome A) (k : A -> io World B) :
  (forall a, o = Ret a -> leaves p (k a)) -> leaves p (iobind (lift o) k).
Proof.
  intros H w. unfold iobind, lift.
  destruct o as [a|e|c]; [now apply H | reflexivity ..].
Qed.

Lemma leaves_for_each {A} (p : Path) (l : list A) (body : A -> io World unit) :
  (forall x, leaves p (body x)) -> leaves p (for_each l body).
Proof.
  intros H. induction l as [|x l IH]; cbn [for_each].
  - apply leaves_ret.
  - apply leaves_bind; auto.
Qed.

Lemma leaves_put {A} (p q : Path) (text : string) (a : A) :
  q <> p -> leaves p (fun w => (Ret a, put q text w)).
Proof. intros H w. cbn [snd]. now apply lookup_put_other. Qed.

Lemma leaves_write (p q : Path) (text : string) :
  q <> p -> leaves p (write q text).
Proof.
  intros H w. unfold write, append_text. cbn [snd].
  destruct (lookup q w); now apply lookup_put_other.
Qed.

Lemma leaves_open_w (p q : Path) : q <> p -> leaves p (open_w env q).
Proof.
  intros H w. unfold open_w.
  destruct (writable env q); cbn [snd]; [now apply lookup_put_other | reflexivity].
Qed.

Lemma leaves_mkdir (p d : Path) : leaves p (mkdir env d).
Proof. intros w. unfold mkdir. now destruct (mkdir_ok env d). Qed.

Lemma leaves_record (p : Path) (t : tool) (i : Path) : leaves p (record t i).
Proof. intros w. reflexivity. Qed.

Lemma leaves_unlink (p q : Path) : q <> p -> leaves p (unlink q).
Proof. intros H w. now apply lookup_unlink_other. Qed.

Lemma leaves_path_exists (p q : Path) : leaves p (path_exists q).
Proof. intros w. reflexivity. Qed.

Ltac frame :=
  repeat first
    [ apply leaves_ret | apply leaves_lift | apply leaves_record
    | apply leaves_mkdir | apply leaves_path_exists
    | apply leaves_write; assumption
    | apply leaves_open_w; assumption
    | apply leaves_put; assumption
    | apply leaves_unlink; assumption
    | apply leaves_for_each; intros
    | apply leaves_bind; [|intros] ].

Lemma leaves_write_sheet (p o : Path) (entry : string * sheet) :
  o <> p -> leaves p (write_sheet o entry).
Proof.
  intros H. destruct entry as [sheet_name [[|header rows]|]]; unfold write_sheet;
    frame.
  destruct (existsb truthy_cell x); frame.
Qed.

Lemma leaves_write_sheets (p o : Path) (wb : Workbook) :
  o <> p -> leaves p (write_sheets o wb).
Proof.
  intros H. induction wb as [|entry wb IH]; cbn [write_sheets]; frame.
  - now apply leaves_write_sheet.
  - destruct a; [exact IH | frame].
Qed.

Lemma leaves_write_slide (p o : Path) (numbered : nat * list (option string)) :
  o <> p -> leaves p (write_slide o numbered).
Proof.
  intros H. destruct numbered as [i shapes]. unfold write_slide. frame.
  destruct x as [text|]; [|frame].
  destruct (String.eqb text ""); cbn [negb]; frame.
Qed.

Section WithConverter.

Variable self : Converter.

Lemma leaves_with_pandoc (p i o : Path) :
  o <> p -> leaves p (_convert_with_pandoc env self i o).
Proof.
  intros H. unfold _convert_with_pandoc.
  destruct (pandoc_available self); cbn [negb]; frame.
  - destruct (extract_images self); frame.
  - destruct (pandoc_out env i); frame.
Qed.

Lemma leaves_pdf (p i o : Path) :
  o <> p -> (forall t, with_suffix i ".txt" = Ret t -> t <> p) ->
  leaves p (_convert_pdf env self i o).
Proof.
  intros H Ht. unfold _convert_pdf.
  destruct (pandoc_available self); [now apply leaves_with_pandoc|].
  destruct (which_pdftotext env); cbn [negb]; [|apply leaves_ret].
  apply leaves_bind_lift. intros t Et. specialize (Ht t Et).
  apply leaves_bind; [apply leaves_record|]. intros _.
  destruct (pdftotext_out env i) as [text|]; [|apply leaves_ret].
  apply leaves_bind; [now apply leaves_put|]. intros _.
  apply leaves_bind; [now apply leaves_open_w|]. intros [|]; frame.
Qed.

Lemma leaves_excel (p i o : Path) :
  o <> p -> leaves p (_convert_excel env i o).
Proof.
  intros H. unfold _convert_excel.
  destruct (openpyxl_installed env); cbn [negb]; frame.
  destruct (load_workbook env i); frame.
  match goal with |- leaves _ (if ?b then _ else _) => destruct b end; frame.
  now apply leaves_write_sheets.
Qed.

Lemma leaves_powerpoint (p i o : Path) :
  o <> p -> leaves p (_convert_powerpoint env self i o).
Proof.
  intros H. unfold _convert_powerpoint.
  destruct (pandoc_available self); [now apply leaves_with_pandoc|].
  destruct (pptx_installed env); cbn [negb]; frame.
  destruct (load_presentation env i); frame.
  match goal with |- leaves _ (if ?b then _ else _) => destruct b end; frame.
  now apply leaves_write_slide.
Qed.

Lemma resolve_output_suffix (input : Path) (output : option Path) (target : Path) :
  resolve_output input output = Ret target -> suffix target = ".md".
Proof.
  unfold resolve_output. destruct output as [o|].
  - destruct (String.eqb (suffix o) ".md") eqn:E; cbn [negb].
    + intros [= <-]. now apply String.eqb_eq.
    + now apply (suffix_with_suffix o target "m" "d").
  - now apply (suffix_with_suffix input target "m" "d").
Qed.

Lemma leaves_convert_file (input : Path) (output : option Path) :
  leaves input (convert_file env self input output).
Proof.
  unfold convert_file.
  apply leaves_bind; [apply leaves_path_exists|]. intros present.
  destruct present; cbn [negb]; [|apply leaves_ret].
  destruct (supported (PyStr.lower (suffix input))) eqn:Sup; cbn [negb];
    [|apply leaves_ret].
  apply leaves_bind_lift. intros target Res.
  assert (Hne : target <> input).
  { intros ->. apply resolve_output_suffix in Res. rewrite Res in Sup.
    discriminate. }
  apply leaves_bind; [apply leaves_path_exists|]. intros there.
  destruct (there && negb (overwrite self)); [apply leaves_ret|].
  unfold convert_by_type.
  destruct (mem _ _); [now apply leaves_with_pandoc|].
  destruct (String.eqb _ ".pdf") eqn:Pdf.
  - apply leaves_pdf; [exact Hne|]. intros t Ht ->.
    apply (suffix_with_suffix input input "t" "xt" eq_refl) in Ht.
    rewrite Ht in Pdf. discriminate.
  - destruct (mem _ _); [now apply leaves_excel|].
    destruct (mem _ _); [now apply leaves_powerpoint | apply leaves_ret].
Qed.

End WithConverter.

(** X12.  [convert_file] never removes and never rewrites the file it
    converts, whatever the converter's flags and whichever tool runs:
    what is stored at the input path is the same after the call.  So
    in single-file mode the original outlives the run, also with
    [--delete-original]: the flag is stored in the converter and no
    code reads it.  (The files of the world are those the script and
    the converters write; the media that pandoc extracts on request
    are not among them.) *)
Theorem conversion_keeps_the_original (input : Path) (w : World) :
  (forall self output,
     lookup input (snd (convert_file env self input output w)) = lookup input w)
  /\ (forall args,
        arg_file args = Some input ->
        lookup input (snd (main env args w)) = lookup input w).
Proof.
  split; [intros self output; apply leaves_convert_file|].
  intros args Hfile. unfold main. rewrite Hfile.
  destruct (arg_folder args); [reflexivity|].
  destruct (arg_supported_formats args); [reflexivity|].
  apply leaves_bind; [apply leaves_convert_file | intros a w1; reflexivity].
Qed.

Section WithFlags.

Variable self : Converter.

Lemma spreadsheet_cases (ext : string) :
  spreadsheet ext = true -> ext = ".xlsx" \/ ext = ".xls".
Proof.
  unfold spreadsheet, mem. cbn [existsb]. rewrite orb_false_r, orb_true_iff.
  intros [E|E]; apply String.eqb_eq in E; auto.
Qed.

Lemma convert_file_excel (input target : Path) (w : World) :
  is_file input w = true ->
  spreadsheet (PyStr.lower (suffix input)) = true ->
  suffix target = ".md" ->
  is_file target w || is_dir target w = false ->
  convert_file env self input (Some target) w = _convert_excel env input target w.
Proof.
  intros Hin Hs Hmd Hout.
  unfold convert_file, iobind, path_exists, lift, resolve_output.
  rewrite Hin, Hmd. cbn [orb negb String.eqb Ascii.eqb Bool.eqb].
  destruct (spreadsheet_cases _ Hs) as [E|E]; rewrite E;
    cbn [supported SUPPORTED_FORMATS existsb fst String.eqb Ascii.eqb Bool.eqb
         orb negb];
    rewrite Hout; reflexivity.
Qed.

Lemma fails_write_sheets (p : Path) (wb : Workbook) :
  all_worksheets wb = false -> exists text, emits (write_sheets p wb) p text false.
Proof.
  induction wb as [|[sheet_name [data|]] wb IH];
    cbn [write_sheets all_worksheets forallb snd andb]; intros H.
  - discriminate.
  - destruct (IH H) as [text E].
    exists (sheet_text sheet_name data ++ text).
    eapply emits_bind; [apply emits_write_sheet | exact E].
  - exists (heading sheet_name ++ "").
    eapply emits_bind;
      [unfold write_sheet; apply emits_write_then_ret | apply emits_ret].
Qed.

(** X13.  A workbook that holds a chart sheet is not converted, but the
    attempt leaves the target behind: [convert_file] returns [False]
    after the file was opened and written in part, so that a second
    run, without [--overwrite], finds the target, skips the workbook
    and returns [True]. *)
Theorem chart_sheet_leaves_partial_target (input target : Path) (wb : Workbook)
        (w : World) :
  is_file input w = true ->
  spreadsheet (PyStr.lower (suffix input)) = true ->
  suffix target = ".md" ->
  is_file target w || is_dir target w = false ->
  overwrite self = false ->
  openpyxl_installed env = true ->
  load_workbook env input = Some wb ->
  writable env target = true ->
  all_worksheets wb = false ->
  exists w1,
    convert_file env self input (Some target) w = (Ret false, w1)
    /\ is_file target w1 = true
    /\ convert_file env self input (Some target) w1 = (Ret true, w1).
Proof.
  intros Hin Hs Hmd Hout Hover Hinst Hload Hwrite Hchart.
  assert (Hne : target <> input).
  { intros ->. rewrite Hmd in Hs. discriminate. }
  assert (Hkeep : lookup input (snd (_convert_excel env input target w))
                  = lookup input w) by now apply leaves_excel.
  rewrite (convert_file_excel input target w Hin Hs Hmd Hout).
  assert (Hrun : fst (_convert_excel env input target w) = Ret false
                 /\ is_file target (snd (_convert_excel env input target w)) = true).
  { unfold _convert_excel. rewrite Hinst. cbn [negb].
    unfold iobind at 1, record. rewrite Hload.
    unfold iobind at 1, open_w. cbn [files dirs trace]. rewrite Hwrite.
    destruct (fails_write_sheets target wb Hchart) as [text E].
    assert (E' : emits (iobind (for_each (excel_preamble input) (write target))
                               (fun _ => write_sheets target wb))
                       target (flatten (excel_preamble input) ++ text) false).
    { eapply emits_bind; [apply emits_for_each_write | exact E]. }
    match goal with
    | |- fst (_ ?w3) = _ /\ _ =>
        destruct (E' w3 EmptyString (lookup_put _ _ _)) as [Hr Hl]
    end.
    split; [exact Hr|]. unfold is_file.
    exact (f_equal (fun o : option string =>
                      match o with Some _ => true | None => false end) Hl). }
  destruct Hrun as [Hr Hf].
  destruct (_convert_excel env input target w) as [r w1]. cbn [fst snd] in *.
  subst r. exists w1. split; [reflexivity|]. split; [exact Hf|].
  apply (convert_file_skips env self input (Some target) target w1).
  - unfold is_file in *. rewrite Hkeep.
    destruct (lookup input w); [reflexivity | discriminate].
  - destruct (spreadsheet_cases _ Hs) as [E|E]; rewrite E; reflexivity.
  - unfold resolve_output. now rewrite Hmd.
  - now rewrite Hf.
  - exact Hover.
Qed.


End WithFlags.

End LeavesFacts.

Section FallbackExamples.

Import Pathlib ConvertDocs ConvertProps.

Lemma text_formats_need_pandoc_witness :
  snd (convert_file (fallback_env "text" []) without_pandoc report None
         (holding [report]))
  = holding [report]
  /\ fst (convert_file (fallback_env "text" []) without_pandoc report None
            (holding [report]))
     = Ret false.
Proof.
  split; [|reflexivity].
  apply (text_formats_need_pandoc (fallback_env "text" []) without_pandoc report
           None (holding [report])); reflexivity.
Defined.

Lemma pdf_fallback_removes_text_file_witness :
  lookup paper_txt (holding [paper; paper_txt]) = Some EmptyString
  /\ lookup paper_md
       (snd (_convert_pdf (fallback_env "extracted" []) without_pandoc paper
               paper_md (holding [paper; paper_txt])))
     = Some (flatten (pdf_preamble paper) ++ "extracted")
  /\ lookup paper_txt
       (snd (_convert_pdf (fallback_env "extracted" []) without_pandoc paper
               paper_md (holding [paper; paper_txt])))
     = None.
Proof.
  split; [reflexivity|].
  apply (pdf_fallback_removes_text_file (fallback_env "extracted" [])
           without_pandoc paper paper_md paper_txt "extracted"
           (holding [paper; paper_txt]));
    try reflexivity.
  intros H. vm_compute in H. discriminate H.
Defined.

Lemma powerpoint_fallback_writes_slides_witness :
  lookup deck_md
    (snd (_convert_powerpoint (fallback_env "" two_slides) without_pandoc deck
            deck_md (holding [deck])))
  = Some (flatten (powerpoint_preamble deck)
          ++ ("## Slide 1" ++ nl ++ nl ++ "Title" ++ nl ++ nl ++ "---" ++ nl ++ nl)
          ++ ("## Slide 2" ++ nl ++ nl ++ "Body" ++ nl ++ nl ++ "---" ++ nl ++ nl)).
Proof.
  apply (powerpoint_fallback_writes_slides (fallback_env "" two_slides)
           without_pandoc deck deck_md two_slides (holding [deck]));
    reflexivity.
Defined.

Lemma chart_sheet_leaves_partial_target_witness :
  exists w1,
    convert_file (fallback_env "" []) without_pandoc book (Some book_md)
      (holding [book]) = (Ret false, w1)
    /\ is_file book_md w1 = true
    /\ convert_file (fallback_env "" []) without_pandoc book (Some book_md) w1
       = (Ret true, w1).
Proof.
  apply (chart_sheet_leaves_partial_target (fallback_env "" []) without_pandoc
           book book_md
           [ ("Data", Worksheet [ [CStr "a"] ]); ("Chart", Chartsheet);
             ("More", Worksheet []) ]
           (holding [book]));
    reflexivity.
Defined.


End FallbackExamples.

(* ================================================================== *)
(** * setup.py: the registry, the permissions and the ignore file *)
(* ================================================================== *)

Section RegistryFacts.

Import Json Setup SetupProps.

Lemma lookup_dict_set_other (k k0 : string) (v : json) (m : list (string * json)) :
  k <> k0 -> lookup k (dict_set k0 v m) = lookup k m.
Proof.
  intros H. apply String.eqb_neq in H.
  induction m as [|[k' v'] m IH]; cbn [dict_set lookup].
  - now rewrite H.
  - destruct (String.eqb k0 k') eqn:E; cbn [lookup].
    + apply String.eqb_eq in E. subst k'. now rewrite H.
    + now rewrite IH.
Qed.

Lemma getitem_inv (j : json) (k : string) (v : json) :
  getitem j k = Ret v -> exists m, j = JObj m /\ lookup k m = Some v.
Proof.
  destruct j; cbn [getitem]; try discriminate.
  destruct (lookup k members) eqn:E; intros [= <-]. eauto.
Qed.

Lemma getitem_set (k : string) (v : json) (m : list (string * json)) :
  getitem (JObj (dict_set k v m)) k = Ret v.
Proof. cbn [getitem]. now rewrite lookup_dict_set. Qed.

Lemma setitem_set (k : string) (v : json) (m : list (string * json)) :
  setitem (JObj (dict_set k v m)) k v = Ret (JObj (dict_set k v m)).
Proof.
  cbn [setitem]. now rewrite (dict_set_same k v _ (lookup_dict_set k v m)).
Qed.

(** What lines 456-457, 463-472 and 475-476 do to an entry: nothing
    when the key is there, and otherwise they add it to an object. *)
Lemma ensure_inv (k : string) (default j j1 : json) (has : bool) :
  py_in k j = Ret has ->
  (if negb has then setitem j k default else Ret j) = Ret j1 ->
  forall k' v, getitem j k' = Ret v -> getitem j1 k' = Ret v.
Proof.
  intros Hin Hset k' v Hget.
  destruct (getitem_inv j k' v Hget) as (m & -> & L).
  cbn [py_in] in Hin. destruct has; cbn [negb] in Hset.
  - now injection Hset as <-.
  - cbn [setitem] in Hset. injection Hset as <-.
    cbn [getitem]. rewrite lookup_dict_set_other, L; [reflexivity|].
    intros ->. rewrite L in Hin. discriminate.
Qed.

Lemma ensure_present (k : string) (default j j1 : json) (has : bool) (v : json) :
  py_in k j = Ret has ->
  (if negb has then setitem j k default else Ret j) = Ret j1 ->
  getitem j k = Ret v -> j1 = j.
Proof.
  intros Hin Hset Hget.
  destruct (getitem_inv j k v Hget) as (m & -> & L).
  cbn [py_in] in Hin. rewrite L in Hin. injection Hin as <-.
  cbn [negb] in Hset. now injection Hset as <-.
Qed.

Ltac steps H :=
  repeat match type of H with
         | bind ?m _ = Ret _ =>
             let a := fresh "a" in
             let E := fresh "E" in
             destruct (bind_ret_inv _ _ H) as (a & E & H')
         end.

Lemma set_path_inv (k : string) (default : json) (rest : list (string * json))
      (last : string) (v j j' : json) :
  set_path ((k, default) :: rest) last v j = Ret j' ->
  exists has j1 child child' m1,
    py_in k j = Ret has
    /\ (if negb has then setitem j k default else Ret j) = Ret j1
    /\ getitem j1 k = Ret child
    /\ set_path rest last v child = Ret child'
    /\ j1 = JObj m1
    /\ j' = JObj (dict_set k child' m1).
Proof.
  cbn [set_path]. intros H.
  apply bind_ret_inv in H. destruct H as (has & E1 & H).
  apply bind_ret_inv in H. destruct H as (j1 & E2 & H).
  apply bind_ret_inv in H. destruct H as (child & E3 & H).
  apply bind_ret_inv in H. destruct H as (child' & E4 & H).
  apply setitem_inv in H. destruct H as (m1 & -> & ->).
  exists has, (JObj m1), child, child', m1. auto 10.
Qed.

Lemma set_path_get (path : list (string * json)) (last : string) (v : json) :
  forall j j',
    set_path path last v j = Ret j' ->
    path_get j' (map fst path ++ [last])%list = Ret v.
Proof.
  induction path as [|[k default] rest IH]; intros j j' H.
  - cbn [set_path] in H. apply setitem_inv in H. destruct H as (m & -> & ->).
    cbn [map app path_get]. now rewrite getitem_set.
  - apply set_path_inv in H.
    destruct H as (has & j1 & child & child' & m1 & _ & _ & _ & H & _ & ->).
    cbn [map app path_get fst]. rewrite getitem_set. cbn [bind].
    exact (IH _ _ H).
Qed.

Lemma set_path_idem (path : list (string * json)) (last : string) (v : json) :
  forall j j',
    set_path path last v j = Ret j' -> set_path path last v j' = Ret j'.
Proof.
  induction path as [|[k default] rest IH]; intros j j' H.
  - cbn [set_path] in *. apply setitem_inv in H. destruct H as (m & -> & ->).
    apply setitem_set.
  - apply set_path_inv in H.
    destruct H as (has & j1 & child & child' & m1 & _ & _ & _ & H & _ & ->).
    cbn [set_path py_in]. rewrite lookup_dict_set. cbn [bind negb].
    rewrite getitem_set. cbn [bind]. rewrite (IH _ _ H). cbn [bind].
    apply setitem_set.
Qed.

Lemma set_path_frame (path : list (string * json)) (last : string) (v : json) :
  forall j j' ks x,
    set_path path last v j = Ret j' ->
    diverges ks (map fst path ++ [last])%list = true ->
    path_get j ks = Ret x ->
    path_get j' ks = Ret x.
Proof.
  induction path as [|[k0 default] rest IH]; intros j j' ks x H D G.
  - cbn [set_path] in H. apply setitem_inv in H. destruct H as (m & -> & ->).
    destruct ks as [|k r]; [discriminate|].
    cbn [map app diverges] in D.
    destruct (String.eqb k last) eqn:E; [now destruct r|].
    apply String.eqb_neq in E.
    cbn [path_get getitem] in *. now rewrite lookup_dict_set_other.
  - apply set_path_inv in H.
    destruct H as (has & j1 & child & child' & m1 & Hin & Hens & Hget & H & -> & ->).
    destruct ks as [|k r]; [discriminate|].
    cbn [map app diverges fst] in D. cbn [path_get] in G.
    apply bind_ret_inv in G. destruct G as (c & Gk & G).
    destruct (String.eqb k k0) eqn:E.
    + apply String.eqb_eq in E. subst k0.
      assert (JObj m1 = j) by exact (ensure_present _ _ _ _ _ _ Hin Hens Gk).
      subst j. rewrite Gk in Hget. injection Hget as <-.
      cbn [path_get]. rewrite getitem_set. cbn [bind].
      exact (IH _ _ _ _ H D G).
    + apply String.eqb_neq in E.
      pose proof (ensure_inv _ _ _ _ _ Hin Hens _ _ Gk) as Gk1.
      cbn [path_get getitem] in *. rewrite lookup_dict_set_other by exact E.
      destruct (lookup k m1); [|discriminate]. injection Gk1 as ->. exact G.
Qed.

Variable env : Env.

Lemma bind_assoc {A B C} (m : outcome A) (f : A -> outcome B) (g : B -> outcome C) :
  bind (bind m f) g = bind m (fun a => bind (f a) g).
Proof. now destruct m. Qed.

Lemma bind_ext {A B} (m : outcome A) (f g : A -> outcome B) :
  (forall a, f a = g a) -> bind m f = bind m g.
Proof. intros H. destruct m; cbn [bind]; auto. Qed.

Lemma merge_as_set_path (board_type : string) (mcp_config data : json) :
  merge_mcp_server env board_type mcp_config data
  = set_path [ ("projects", JObj []); (project_dir env, new_project_entry);
               ("mcpServers", JObj []) ] board_type mcp_config data.
Proof.
  unfold merge_mcp_server. cbn [set_path].
  repeat first [apply bind_ext; intros ? | rewrite bind_assoc].
  reflexivity.
Qed.

(** X15.  When the update of the registry goes through, the server of
    the board is stored at [projects / <project> / mcpServers / <board>],
    and updating again with the same configuration gives the same
    registry; this is the value [update_claude_json] writes to
    [~/.claude.json], and a second call rewrites the same value. *)
Theorem registry_update_registers_server (board_type : string)
        (mcp_config data data' : json) :
  merge_mcp_server env board_type mcp_config data = Ret data' ->
  path_get data' (server_path env board_type) = Ret mcp_config
  /\ merge_mcp_server env board_type mcp_config data' = Ret data'
  /\ forall w c,
       claude_json w = Some c ->
       read_json env c = Some data ->
       update_claude_json env board_type mcp_config w
       = (Ret tt, set_claude_json (Some (Dumped data')) w)
       /\ update_claude_json env board_type mcp_config
            (set_claude_json (Some (Dumped data')) w)
          = (Ret tt, set_claude_json (Some (Dumped data')) w).
Proof.
  intros H. pose proof H as H0. rewrite merge_as_set_path in H.
  assert (Hidem : merge_mcp_server env board_type mcp_config data' = Ret data').
  { rewrite merge_as_set_path. exact (set_path_idem _ _ _ _ _ H). }
  split; [exact (set_path_get _ _ _ _ _ H)|].
  split; [exact Hidem|].
  intros w c Hc Hr. unfold update_claude_json.
  rewrite Hc, Hr, H0. split; [reflexivity|].
  cbn [claude_json set_claude_json read_json]. rewrite Hidem.
  reflexivity.
Qed.

(** X16.  The update of the registry keeps what it does not address:
    an entry on a path that parts from
    [projects / <project> / mcpServers / <board>], such as a top-level
    setting, another project, another key of this project or another
    server of it, reads the same after the update as before. *)
Theorem registry_update_keeps_other_entries (board_type : string)
        (mcp_config data data' : json) (ks : list string) (x : json) :
  merge_mcp_server env board_type mcp_config data = Ret data' ->
  diverges ks (server_path env board_type) = true ->
  path_get data ks = Ret x ->
  path_get data' ks = Ret x.
Proof.
  intros H. rewrite merge_as_set_path in H.
  exact (set_path_frame _ _ _ _ _ ks x H).
Qed.

Lemma settings_type_error (board_type : string) (c : content) (j : json)
      (w : World) :
  read_json env c = Some j ->
  (forall m, j <> JObj m) ->
  settings_file w = Some c ->
  update_claude_settings env board_type w
  = (Raise TypeError, set_settings true (Some c) w).
Proof.
  intros Hr Hno Hs. unfold update_claude_settings.
  cbn [settings_file set_settings]. rewrite Hs, Hr.
  destruct j as [|b|lit|s|items|m]; try reflexivity.
  - unfold add_wildcard. cbn [py_in bind].
    destruct (PyStr.contains "permissions" s); reflexivity.
  - unfold add_wildcard. cbn [py_in bind].
    destruct (existsb (str_eqb "permissions") items); reflexivity.
  - now destruct (Hno m).
Qed.

Lemma registry_type_error_swallowed (board_type : string) (c : content) (j : json)
      (w : World) (mcp_config : json) :
  read_json env c = Some j ->
  (forall m, j <> JObj m) ->
  claude_json w = Some c ->
  update_claude_json env board_type mcp_config w = (Ret tt, w).
Proof.
  intros Hr Hno Hc. unfold update_claude_json. rewrite Hc, Hr.
  destruct j as [|b|lit|s|items|m]; try reflexivity.
  - unfold merge_mcp_server. cbn [py_in bind].
    destruct (PyStr.contains "projects" s); reflexivity.
  - unfold merge_mcp_server. cbn [py_in bind].
    destruct (existsb (str_eqb "projects") items); reflexivity.
  - now destruct (Hno m).
Qed.

(** X17.  A settings file that holds JSON other than an object makes
    [update_claude_settings] raise [TypeError], which nothing catches
    before the top level, and leaves the file as it was; the same
    content in the registry makes [update_claude_json] return normally
    without writing. *)
Theorem non_object_settings_raise (board_type : string) (c : content) (j : json)
        (w : World) :
  read_json env c = Some j ->
  (forall m, j <> JObj m) ->
  (settings_file w = Some c ->
   update_claude_settings env board_type w
   = (Raise TypeError, set_settings true (Some c) w))
  /\ (claude_json w = Some c ->
      forall mcp_config, update_claude_json env board_type mcp_config w = (Ret tt, w)).
Proof.
  intros Hr Hno. split.
  - intros Hs. exact (settings_type_error board_type c j w Hr Hno Hs).
  - intros Hc mcp_config.
    exact (registry_type_error_swallowed board_type c j w mcp_config Hr Hno Hc).
Qed.

Lemma contains_app (sep a b : string) : PyStr.contains sep (a ++ sep ++ b) = true.
Proof.
  unfold PyStr.contains.
  induction a as [|c a IH]; cbn [String.append].
  - rewrite cut_unfold, prefix_app. reflexivity.
  - rewrite cut_unfold.
    destruct (String.prefix sep (String c (a ++ sep ++ b))); [reflexivity|].
    destruct (PyStr.cut sep (a ++ sep ++ b)) as [[x y]|]; [reflexivity | discriminate].
Qed.

(** X18.  The ignore file receives the entry at most once: a second
    call of [update_gitignore] changes nothing.  The call never creates
    the file, and what it finds there stays, in front of what it
    adds. *)
Theorem gitignore_entry_added_once (w : World) :
  update_gitignore (snd (update_gitignore w)) = (Ret tt, snd (update_gitignore w))
  /\ (gitignore w = None -> update_gitignore w = (Ret tt, w))
  /\ (forall text, gitignore w = Some text ->
        exists added, gitignore (snd (update_gitignore w)) = Some (text ++ added)
                      /\ (added = EmptyString
                          \/ PyStr.contains gitignore_entry text = false)).
Proof.
  unfold update_gitignore at 2 3 4 5.
  destruct (gitignore w) as [text|] eqn:G.
  - destruct (PyStr.contains gitignore_entry text) eqn:C; cbn [negb snd].
    + split; [|split; [discriminate|]].
      * unfold update_gitignore. now rewrite G, C.
      * intros ? [= <-]. exists EmptyString. rewrite append_nil_r. auto.
    + split; [|split; [discriminate|]].
      * unfold update_gitignore. cbn [gitignore].
        replace (text ++ nl ++ "# Agile board config (project-specific)" ++ nl
                 ++ gitignore_entry ++ nl)
          with ((text ++ nl ++ "# Agile board config (project-specific)" ++ nl)
                ++ gitignore_entry ++ nl)
          by (now rewrite !append_assoc).
        now rewrite contains_app.
      * intros ? [= <-]. eexists. split; [reflexivity | now right].
  - cbn [snd]. split; [|split; [reflexivity | discriminate]].
    unfold update_gitignore. now rewrite G.
Qed.

End RegistryFacts.

Section RegistryExamples.

Import Json Setup SetupProps.

Lemma registry_update_registers_server_witness :
  merge_mcp_server two_workspaces "zenhub" zenhub_server registry
  = Ret registry_after
  /\ path_get registry_after (server_path two_workspaces "zenhub")
     = Ret zenhub_server
  /\ merge_mcp_server two_workspaces "zenhub" zenhub_server registry_after
     = Ret registry_after.
Proof.
  assert (E : merge_mcp_server two_workspaces "zenhub" zenhub_server registry
              = Ret registry_after) by reflexivity.
  split; [exact E|].
  destruct (registry_update_registers_server two_workspaces "zenhub"
              zenhub_server registry registry_after E) as (H1 & H2 & _).
  split; assumption.
Defined.

Lemma registry_update_keeps_other_entries_witness :
  path_get registry ["projects"; "/home/dev/project"; "mcpServers"; "github"]
  = Ret other_server
  /\ path_get registry_after
       ["projects"; "/home/dev/project"; "mcpServers"; "github"]
     = Ret other_server.
Proof.
  split; [reflexivity|].
  apply (registry_update_keeps_other_entries two_workspaces "zenhub"
           zenhub_server registry registry_after
           ["projects"; "/home/dev/project"; "mcpServers"; "github"]
           other_server);
    reflexivity.
Defined.

Lemma non_object_settings_raise_witness :
  update_claude_settings two_workspaces "zenhub"
    (home_with_registry (Dumped (JArr [])) (Dumped (JArr [])))
  = (Raise TypeError, home_with_registry (Dumped (JArr [])) (Dumped (JArr [])))
  /\ update_claude_json two_workspaces "zenhub" zenhub_server
       (home_with_registry (Dumped (JArr [])) (Dumped (JArr [])))
     = (Ret tt, home_with_registry (Dumped (JArr [])) (Dumped (JArr []))).
Proof.
  destruct (non_object_settings_raise two_workspaces "zenhub" (Dumped (JArr []))
              (JArr []) (home_with_registry (Dumped (JArr [])) (Dumped (JArr [])))
              eq_refl) as [H1 H2].
  - intros m. discriminate.
  - split; [exact (H1 eq_refl) | exact (H2 eq_refl zenhub_server)].
Defined.

End RegistryExamples.

(* ================================================================== *)
(** * setup.py: prompts and answers *)
(* ================================================================== *)

Section PromptFacts.

Import Json Setup SetupProps.

Variable env : Env.
Variable args : Args.

(** X19.  Without a board type on the command line, a wizard that
    finds its input closed exits with status 1 before writing anything,
    whether the configuration exists or not and whether [--force] is
    given or not. *)
Theorem closed_input_exits_one (w : World) :
  board_type args = None ->
  stdin w = [] ->
  script env args w = (1%Z, w).
Proof.
  intros Hb Hin.
  unfold script, main, iobind, confirm_overwrite, choose_board, input.
  rewrite Hb, Hin.
  destruct (config_file w); [destruct (force args)|]; unfold iobind;
    now rewrite ?Hin.
Qed.



Lemma rstrip_no_slash (s : string) :
  PyStr.endswith (PyStr.rstrip_by is_slash s) "/" = false.
Proof.
  induction s as [|c s IH]; [reflexivity|].
  cbn [PyStr.rstrip_by].
  destruct (PyStr.rstrip_by is_slash s) as [|d r] eqn:E.
  - destruct (is_slash c) eqn:S; [reflexivity|].
    unfold is_slash in S. cbn [PyStr.endswith String.eqb]. rewrite S.
    reflexivity.
  - cbn [PyStr.endswith String.eqb] in *.
    destruct (Ascii.eqb c "/"); exact IH.
Qed.

Lemma upper_char_not_lower (c : ascii) :
  PyStr.is_lower (PyStr.upper_char c) = false.
Proof. destruct c as [[] [] [] [] [] [] [] []]; reflexivity. Qed.

Lemma upper_no_lower (s : string) :
  PyStr.all_chars (fun c => negb (PyStr.is_lower c)) (PyStr.upper s) = true.
Proof.
  induction s as [|c s IH]; [reflexivity|].
  cbn [PyStr.upper PyStr.map_chars PyStr.all_chars].
  rewrite upper_char_not_lower. exact IH.
Qed.

(** X22.  What [setup_jira] hands over is normalised: the URL does not
    end with a slash, the project key has no lower-case letter, the
    labels are empty and there is no MCP configuration, whether the
    values come from the command line or from the prompts. *)
Theorem jira_config_is_normalised (w w' : World)
        (r : list (string * json) * option json) :
  setup_jira args w = (Ret r, w') ->
  exists url key,
    r = ([ ("jira_url", JStr url); ("project_key", JStr key);
           ("default_labels", JArr []) ], None)
    /\ PyStr.endswith url "/" = false
    /\ PyStr.all_chars (fun c => negb (PyStr.is_lower c)) key = true.
Proof.
  unfold setup_jira, iobind.
  destruct (arg_or_input (jira_url args) w) as [[u|e|c] w1]; try discriminate.
  destruct (arg_or_input (project_key args) w1) as [[k|e|c] w2]; try discriminate.
  intros [= <- <-]. do 2 eexists. split; [reflexivity|].
  split; [apply rstrip_no_slash | apply upper_no_lower].
Qed.

Lemma setup_zenhub_from_arguments (w : World) :
  given (api_token args) = true ->
  given (repository_id args) = true ->
  given (workspace_id args) = true ->
  given (default_pipeline_id args) = true ->
  given (organization_id args) = true ->
  given (default_labels args) = true \/ force args = true ->
  setup_zenhub env args w
  = (Ret ([ ("workspace_id", JStr (value (workspace_id args)));
            ("repository_id", JStr (value (repository_id args)));
            ("organization_id", jopt (organization_id args));
            ("default_pipeline_id", jopt (default_pipeline_id args));
            ("default_pipeline_name", jopt (default_pipeline_name args));
            ("default_labels",
             jstr_list (labels_of (if given (default_labels args)
                                   then value (default_labels args)
                                   else EmptyString))) ],
          Some (JObj [ ("command", JStr "npx");
                       ("args",
                        jstr_list [ "-y"; "mcp-remote"; "https://api.zenhub.com/mcp";
                                    "--header"; "Authorization:${API_TOKEN}";
                                    "--header";
                                    "X-zh-workspace:" ++ value (workspace_id args) ]);
                       ("env", JObj [ ("API_TOKEN",
                                       JStr (value (api_token args))) ]) ])),
     w).
Proof.
  intros Ht Hr Hw Hp Ho Hl.
  unfold setup_zenhub, arg_or_input, iobind, ret.
  rewrite Ht, Hr, Hr, Hw, Hp, Ho. cbn [negb orb].
  rewrite Ho. cbn [negb].
  destruct (given (default_labels args)); [reflexivity|].
  destruct Hl as [Hl|Hl]; [discriminate|]. now rewrite Hl.
Qed.


(** X24.  With [--force] and no organization, neither on the command
    line nor from the API, [setup_zenhub] ends the wizard with status 1
    instead of asking; nothing was read and nothing is written. *)
Theorem forced_setup_needs_organization (w : World) :
  force args = true ->
  given (api_token args) = true ->
  given (repository_id args) = true ->
  given (workspace_id args) = true ->
  given (default_pipeline_id args) = true ->
  given (organization_id args) = false ->
  given (snd (workspace_pipelines env (value (api_token args))
                (value (workspace_id args)))) = false ->
  setup_zenhub env args w = (Exit 1, w).
Proof.
  intros Hf Ht Hr Hw Hp Ho Hapi.
  unfold setup_zenhub, arg_or_input, iobind, ret, sys_exit.
  rewrite Ht, Hr, Hr, Hw, Hp, Ho. cbn [negb orb].
  destruct (workspace_pipelines env (value (api_token args))
              (value (workspace_id args))) as [pipelines org_id].
  cbn [snd] in Hapi. rewrite Hapi. cbn [andb].
  destruct pipelines as [[|p ps]|]; rewrite Ho, Hf; reflexivity.
Qed.

End PromptFacts.

Section PromptExamples.

Import Json Setup SetupProps.

Lemma closed_input_exits_one_witness :
  script two_workspaces no_args (configured_project []) = (1%Z, configured_project [])
  /\ script two_workspaces no_args (fresh_project []) = (1%Z, fresh_project []).
Proof.
  split; apply closed_input_exits_one; reflexivity.
Defined.



Lemma jira_config_is_normalised_witness :
  exists url key,
    fst (setup_jira jira_args (fresh_project []))
    = Ret ([ ("jira_url", JStr url); ("project_key", JStr key);
             ("default_labels", JArr []) ], None)
    /\ PyStr.endswith url "/" = false
    /\ PyStr.all_chars (fun c => negb (PyStr.is_lower c)) key = true.
Proof.
  destruct (jira_config_is_normalised jira_args (fresh_project [])
              (fresh_project [])
              ([ ("jira_url", JStr "https://co.atlassian.net");
                 ("project_key", JStr "PROJ"); ("default_labels", JArr []) ], None)
              eq_refl) as (url & key & E & H).
  exists url, key. split; [|exact H]. rewrite <- E. reflexivity.
Defined.


Lemma forced_setup_needs_organization_witness :
  setup_zenhub offline no_organization_args (fresh_project ["unused"])
  = (Exit 1, fresh_project ["unused"]).
Proof.
  apply forced_setup_needs_organization; reflexivity.
Defined.

End PromptExamples.

(* ================================================================== *)
(** * build.py without git *)
(* ================================================================== *)

Section GitFacts.

Import Pathlib Build BuildProps.

Variable env : Env.

(** X25.  On a machine without git the build always dies with
    [FileNotFoundError], in every mode and for every argument: the
    date-based version that [get_version] falls back to never names an
    archive, because the next git command is not guarded.  Nothing is
    written and nothing is printed on the standard output. *)
Theorem build_without_git_raises (args : Args) (w : World) :
  git_installed env = false ->
  fst (main env args w) = Raise FileNotFoundError
  /\ files (snd (main env args w)) = files w
  /\ stdout (snd (main env args w)) = stdout w.
Proof.
  intros Hg.
  assert (V : forall w0, exists v w1,
             match version args with
             | Some v => if String.eqb v "" then get_version env else ret v
             | None => get_version env
             end w0 = (Ret v, w1)
             /\ files w1 = files w0 /\ stdout w1 = stdout w0).
  { intros w0. unfold get_version. rewrite Hg.
    destruct (version args) as [v|]; [destruct (String.eqb v "")|];
      unfold iobind, eprint, ret; eauto 6. }
  destruct (V w) as (v & w1 & E & F & O).
  remember (main env args w) as run eqn:R.
  unfold main in R. unfold iobind at 1 in R. rewrite E in R.
  destruct (list_only args); unfold iobind at 1 in R;
    unfold ls_files, get_uncommitted_changes in R; rewrite Hg in R;
    unfold raise in R; subst run; cbn [fst snd]; auto.
Qed.

End GitFacts.

Lemma build_without_git_raises_witness :
  fst (Build.main
         {| Build.repo_dir := Pathlib.of_string "/repo";
            Build.git_installed := false;
            Build.git_describe := None;
            Build.today := "20260101";
            Build.git_status := [];
            Build.git_ls_files := fun _ => None;
            Build.git_archive_ok := false;
            Build.in_worktree := fun _ => false;
            Build.st_size := fun _ => 0%Z;
            Build.format_mb := fun _ => "0.0 MB" |}
         Build.default_args Build.fresh_world)
  = Raise FileNotFoundError.
Proof.
  apply build_without_git_raises. reflexivity.
Defined.

(* ================================================================== *)
(** * sharepoint-access.py: sites, libraries and drive paths *)
(* ================================================================== *)

Section DrivePathFacts.

Import PyStr SharePoint SharePointPaths.

Lemma prefix_app_r (p s t : string) :
  String.prefix p s = true -> String.prefix p (s ++ t) = true.
Proof.
  revert s. induction p as [|c p IH]; intros s H; [now destruct (s ++ t)|].
  destruct s as [|d s]; cbn [String.prefix String.append] in *; [discriminate|].
  destruct (Ascii.ascii_dec c d); [now apply IH | discriminate].
Qed.

(** The text before the first occurrence of a separator does not hold
    the separator. *)
Lemma cut_first (sep s a b : string) :
  sep <> EmptyString -> cut sep s = Some (a, b) -> cut sep a = None.
Proof.
  intros Hsep. revert a b. induction s as [|c s IH]; intros a b H;
    rewrite cut_unfold in H; destruct (String.prefix sep _) eqn:P.
  - injection H as <- <-. now destruct sep.
  - discriminate.
  - injection H as <- <-. now destruct sep.
  - destruct (cut sep s) as [[a' b']|] eqn:C; [|discriminate].
    injection H as <- <-.
    rewrite cut_unfold. rewrite (IH a' b' eq_refl).
    destruct (String.prefix sep (String c a')) eqn:Q; [|reflexivity].
    apply cut_spec in C. subst s.
    change (String c (a' ++ sep ++ b')) with (String c a' ++ sep ++ b') in P.
    now rewrite (prefix_app_r _ _ _ Q) in P.
Qed.

(** X26.  The site and the item that lines 56-68 read from a decoded
    path: without the marker [/sites/] the site is empty and the item
    is the whole path; with it, the path is what stands before the first
    marker, then the site, then the item, where the site is the marker
    and a name without slash and the item is empty or starts with a
    slash. *)
Theorem path_segments_reassemble (full_path : string) :
  exists site item_path,
    path_segments full_path = Ret (site, item_path)
    /\ ((contains "/sites/" full_path = false
         /\ site = EmptyString /\ item_path = full_path)
        \/ exists before site_name,
             full_path = before ++ site ++ item_path
             /\ contains "/sites/" before = false
             /\ site = "/sites/" ++ site_name
             /\ contains "/" site_name = false
             /\ (item_path = EmptyString \/ startswith item_path "/" = true)).
Proof.
  unfold path_segments, contains.
  destruct (cut "/sites/" full_path) as [[a b]|] eqn:C.
  - cbn [split]. rewrite C. cbn [List.length Nat.ltb Nat.leb item nth_error bind].
    pose proof (cut_first "/sites/" full_path a b ltac:(discriminate) C) as Ha.
    apply cut_spec in C.
    destruct (cut "/" b) as [[x y]|] eqn:D;
      cbn [List.length Nat.ltb Nat.leb item nth_error bind].
    + pose proof (cut_first "/" b x y ltac:(discriminate) D) as Hx.
      apply cut_spec in D. do 2 eexists. split; [reflexivity|].
      right. exists a, x. rewrite Ha, Hx.
      split; [|split; [reflexivity|split; [reflexivity|split;
                [reflexivity | right; apply (prefix_app "/" y)]]]].
      rewrite C, D. now rewrite !append_assoc.
    + do 2 eexists. split; [reflexivity|].
      right. exists a, b. rewrite Ha, D.
      split; [|split; [reflexivity|split; [reflexivity|split;
                [reflexivity | left; reflexivity]]]].
      rewrite C at 1. now rewrite !append_assoc, append_nil_r.
  - do 2 eexists. split; [reflexivity|]. left. auto.
Qed.

(** X27.  The three actions drop the first part of the item path, the
    library, and address the rest from the root of the drive; they
    differ on a path of one part: the listing then asks for the
    children of the root, while the download and the metadata ask for
    an item of the root that has the name of the library. *)
Theorem drive_paths_drop_the_library (drive_id path : string) :
  exists relative_path,
    item_relative_path path = Ret relative_path
    /\ item_endpoint drive_id path
       = Ret ("/drives/" ++ drive_id ++ "/root:/" ++ relative_path)
    /\ ((exists library,
           strip_slashes path = library ++ "/" ++ relative_path
           /\ contains "/" library = false
           /\ list_relative_path path = Ret relative_path)
        \/ (contains "/" (strip_slashes path) = false
            /\ relative_path = strip_slashes path
            /\ list_folder_endpoint drive_id path
               = Ret ("/drives/" ++ drive_id ++ "/root/children"))).
Proof.
  unfold item_endpoint, list_folder_endpoint, item_relative_path,
    list_relative_path, contains.
  cbn [split].
  destruct (cut "/" (strip_slashes path)) as [[x y]|] eqn:D;
    cbn [List.length Nat.ltb Nat.leb item nth_error bind].
  - exists y. split; [reflexivity|]. split; [reflexivity|].
    left. exists x.
    rewrite (cut_first "/" _ x y ltac:(discriminate) D).
    apply cut_spec in D. auto.
  - exists (strip_slashes path). split; [reflexivity|]. split; [reflexivity|].
    right. auto.
Qed.

End DrivePathFacts.

(* ================================================================== *)
(** * setup.py: the default labels *)
(* ================================================================== *)

Section LabelFacts.

Import PyStr Json Setup SetupProps.

Lemma lstrip_head (p : ascii -> bool) (s : string) :
  match lstrip_by p s with
  | EmptyString => True
  | String c _ => p c = false
  end.
Proof.
  induction s as [|c s IH]; cbn [lstrip_by]; [exact I|].
  destruct (p c) eqn:E; [exact IH | exact E].
Qed.

Lemma rstrip_idem (p : ascii -> bool) (s : string) :
  rstrip_by p (rstrip_by p s) = rstrip_by p s.
Proof.
  induction s as [|c s IH]; [reflexivity|].
  cbn [rstrip_by]. destruct (rstrip_by p s) as [|d r] eqn:E.
  - destruct (p c) eqn:P; [reflexivity|]. cbn [rstrip_by]. now rewrite P.
  - change (rstrip_by p (String c (String d r)))
      with (match rstrip_by p (String d r) with
            | EmptyString => if p c then EmptyString else String c EmptyString
            | String x y => String c (String x y)
            end).
    now rewrite IH.
Qed.

Lemma rstrip_head (p : ascii -> bool) (c : ascii) (r : string) :
  p c = false -> exists r', rstrip_by p (String c r) = String c r'.
Proof.
  intros P. cbn [rstrip_by]. destruct (rstrip_by p r); [rewrite P|]; eauto.
Qed.

Lemma strip_idem (s : string) : strip (strip s) = strip s.
Proof.
  unfold strip. pose proof (lstrip_head is_space s) as H.
  destruct (lstrip_by is_space s) as [|c r]; [reflexivity|].
  destruct (rstrip_head is_space c r H) as [r' E]. rewrite E.
  cbn [lstrip_by]. rewrite H, <- E. apply rstrip_idem.
Qed.

Lemma all_chars_lstrip (q p : ascii -> bool) (s : string) :
  all_chars q s = true -> all_chars q (lstrip_by p s) = true.
Proof.
  induction s as [|c s IH]; cbn [lstrip_by all_chars]; [reflexivity|].
  intros H. apply andb_true_iff in H. destruct H as [Hc Hs].
  destruct (p c); [now apply IH|]. cbn [all_chars]. now rewrite Hc, Hs.
Qed.

Lemma all_chars_rstrip (q p : ascii -> bool) (s : string) :
  all_chars q s = true -> all_chars q (rstrip_by p s) = true.
Proof.
  induction s as [|c s IH]; cbn [rstrip_by all_chars]; [reflexivity|].
  intros H. apply andb_true_iff in H. destruct H as [Hc Hs].
  specialize (IH Hs). destruct (rstrip_by p s) as [|d r].
  - destruct (p c); [reflexivity|]. cbn [all_chars]. now rewrite Hc.
  - cbn [all_chars] in *. now rewrite Hc, IH.
Qed.

Lemma uncut_free (c : ascii) (s : string) :
  cut (String c EmptyString) s = None ->
  all_chars (fun x => negb (Ascii.eqb x c)) s = true.
Proof.
  induction s as [|x s IH]; [reflexivity|].
  rewrite cut_unfold. cbn [String.prefix].
  destruct (Ascii.ascii_dec c x) as [->|N].
  - now destruct s.
  - destruct (cut (String c EmptyString) s) as [[a b]|]; [discriminate|].
    intros _. cbn [all_chars]. rewrite IH by reflexivity.
    assert (E : Ascii.eqb x c = false) by (apply Ascii.eqb_neq; congruence).
    now rewrite E.
Qed.

Lemma length_app_string (a b : string) :
  String.length (a ++ b) = String.length a + String.length b.
Proof. induction a as [|c a IH]; cbn [String.append String.length]; lia. Qed.

Lemma split_pieces_free (c : ascii) (n : nat) :
  forall s piece,
    String.length s <= n ->
    In piece (split (String c EmptyString) n s) ->
    all_chars (fun x => negb (Ascii.eqb x c)) piece = true.
Proof.
  induction n as [|n IH]; intros s piece L; cbn [split].
  - destruct s; [|cbn [String.length] in L; lia].
    intros [<-|[]]. reflexivity.
  - destruct (cut (String c EmptyString) s) as [[a b]|] eqn:C.
    + intros [<-|Hin].
      * apply uncut_free.
        exact (cut_first (String c EmptyString) s a b ltac:(discriminate) C).
      * apply (IH b); [|exact Hin].
        apply cut_spec in C. subst s.
        rewrite !length_app_string in L. cbn [String.length] in L. lia.
    + intros [<-|[]]. now apply uncut_free.
Qed.

Lemma labels_of_clean (labels_input l : string) :
  In l (labels_of labels_input) -> clean_label l.
Proof.
  unfold labels_of. rewrite filter_In, in_map_iff.
  intros [(piece & <- & Hin) Hne].
  split; [|split].
  - intros E. rewrite E in Hne. discriminate.
  - apply strip_idem.
  - unfold comma_free, strip.
    apply all_chars_rstrip, all_chars_lstrip.
    exact (split_pieces_free ","%char _ labels_input piece (le_n _) Hin).
Qed.

Lemma iobind_ret_inv {W A B} (m : io W A) (k : A -> io W B) (w w' : W) (b : B) :
  iobind m k w = (Ret b, w') ->
  exists a w1, m w = (Ret a, w1) /\ k a w1 = (Ret b, w').
Proof.
  unfold iobind. destruct (m w) as [[a|e|c] w1]; [eauto | discriminate..].
Qed.

Variable env : Env.
Variable args : Args.

(** X28.  Whatever way [setup_zenhub] obtains the labels, from the
    command line, from the prompt or from [--force], the list it stores
    holds clean labels only: none is empty, none has blanks around it
    and none holds a comma. *)
Theorem zenhub_labels_are_clean (w w' : World) (config : list (string * json))
        (mcp_config : option json) :
  setup_zenhub env args w = (Ret (config, mcp_config), w') ->
  exists labels,
    Json.lookup "default_labels" config = Some (jstr_list labels)
    /\ forall l, In l labels -> clean_label l.
Proof.
  unfold setup_zenhub. intros H.
  apply iobind_ret_inv in H. destruct H as (token & w1 & _ & H).
  apply iobind_ret_inv in H. destruct H as (repo & w2 & _ & H).
  apply iobind_ret_inv in H. destruct H as (ws & w3 & _ & H).
  apply iobind_ret_inv in H. destruct H as ([[pid pname] org] & w4 & _ & H).
  apply iobind_ret_inv in H. destruct H as (org' & w5 & _ & H).
  apply iobind_ret_inv in H. destruct H as (labels_input & w6 & _ & H).
  injection H as <- _ _.
  exists (labels_of labels_input). split; [reflexivity|].
  intros l. apply labels_of_clean.
Qed.

End LabelFacts.

Lemma zenhub_labels_are_clean_witness :
  exists labels,
    Json.lookup "default_labels"
      (fst (match fst (Setup.setup_zenhub SetupProps.offline
                         SetupProps.full_zenhub_args
                         (Setup.fresh_project []))
            with Ret r => r | _ => ([], None) end))
    = Some (Setup.jstr_list labels)
    /\ forall l, In l labels -> SetupProps.clean_label l.
Proof.
  exact (zenhub_labels_are_clean SetupProps.offline SetupProps.full_zenhub_args
           (Setup.fresh_project []) (Setup.fresh_project []) _ _ eq_refl).
Defined.

(* ================================================================== *)
(** * convert-docs-to-md.py: the output tree of a recursive run *)
(* ================================================================== *)

Section MirrorFacts.

Import Pathlib ConvertDocs ConvertProps.

Lemma strip_prefix_app (pre rest : list string) :
  strip_prefix pre (pre ++ rest)%list = Some rest.
Proof.
  induction pre as [|x pre IH]; cbn [strip_prefix app]; [reflexivity|].
  now rewrite String.eqb_refl.
Qed.

Lemma relative_to_joinpath (folder rel : Path) :
  root rel = EmptyString -> relative_to (joinpath folder rel) folder = Ret rel.
Proof.
  intros R. unfold joinpath, is_absolute. rewrite R. cbn [String.eqb negb].
  unfold relative_to. cbn [root comps].
  rewrite String.eqb_refl, strip_prefix_app.
  destruct rel as [r c]. cbn [root comps] in *. now subst r.
Qed.

Variable env : Env.

(** X29.  A recursive run mirrors the input tree: the output file of a
    file is, relative to the output folder, what the file is relative
    to the input folder, with the extension [.md]; its folder is there
    when [output_for] returns, and no file was touched. *)
Theorem recursive_output_mirrors_input (input_folder output_folder file out : Path)
        (w w' : World) :
  output_for env input_folder output_folder true file w = (Ret out, w') ->
  exists rel_path md,
    relative_to file input_folder = Ret rel_path
    /\ with_suffix rel_path ".md" = Ret md
    /\ out = joinpath output_folder md
    /\ relative_to out output_folder = Ret md
    /\ is_dir (parent out) w' = true
    /\ files w' = files w.
Proof.
  unfold output_for. intros H.
  apply iobind_ret_inv in H. destruct H as (rel_path & w1 & E1 & H).
  apply iobind_ret_inv in H. destruct H as (md & w2 & E2 & H).
  apply iobind_ret_inv in H. destruct H as ([] & w3 & E3 & H).
  unfold lift in E1, E2. injection E1 as E1 <-. injection E2 as E2 <-.
  unfold ret in H. injection H as <- <-.
  exists rel_path, md. split; [exact E1|]. split; [exact E2|].
  split; [reflexivity|].
  assert (R : root md = EmptyString).
  { unfold relative_to in E1.
    destruct (String.eqb (root file) (root input_folder)); [|discriminate].
    destruct (strip_prefix _ _); [|discriminate]. injection E1 as <-.
    unfold with_suffix in E2.
    destruct (String.eqb _ _); [discriminate|]. now injection E2 as <-. }
  split; [now apply relative_to_joinpath|].
  unfold mkdir in E3.
  destruct (mkdir_ok env _); [|discriminate]. injection E3 as <-.
  split; [|reflexivity].
  unfold is_dir at 1. cbn [dirs].
  destruct (is_dir (parent (joinpath output_folder md)) w) eqn:D; [exact D|].
  rewrite existsb_app. cbn [existsb]. rewrite path_eqb_refl.
  now rewrite orb_true_r.
Qed.

End MirrorFacts.

Lemma recursive_output_mirrors_input_witness :
  exists rel_path md,
    Pathlib.relative_to (Pathlib.of_string "docs/sub/report.docx")
      (Pathlib.of_string "docs") = Ret rel_path
    /\ Pathlib.with_suffix rel_path ".md" = Ret md
    /\ Pathlib.of_string "out/sub/report.md"
       = Pathlib.joinpath (Pathlib.of_string "out") md
    /\ Pathlib.relative_to (Pathlib.of_string "out/sub/report.md")
         (Pathlib.of_string "out") = Ret md
    /\ ConvertDocs.is_dir (Pathlib.parent (Pathlib.of_string "out/sub/report.md"))
         (snd (ConvertDocs.output_for (ConvertDocs.office_env [])
                 (Pathlib.of_string "docs") (Pathlib.of_string "out") true
                 (Pathlib.of_string "docs/sub/report.docx")
                 (ConvertDocs.holding [Pathlib.of_string "docs/sub/report.docx"])))
       = true
    /\ ConvertDocs.files
         (snd (ConvertDocs.output_for (ConvertDocs.office_env [])
                 (Pathlib.of_string "docs") (Pathlib.of_string "out") true
                 (Pathlib.of_string "docs/sub/report.docx")
                 (ConvertDocs.holding [Pathlib.of_string "docs/sub/report.docx"])))
       = ConvertDocs.files
           (ConvertDocs.holding [Pathlib.of_string "docs/sub/report.docx"]).
Proof.
  exact (recursive_output_mirrors_input (ConvertDocs.office_env [])
           (Pathlib.of_string "docs") (Pathlib.of_string "out")
           (Pathlib.of_string "docs/sub/report.docx")
           (Pathlib.of_string "out/sub/report.md")
           (ConvertDocs.holding [Pathlib.of_string "docs/sub/report.docx"]) _
           eq_refl).
Defined.

(* ================================================================== *)
(** * setup.py: what a failing run leaves behind *)
(* ================================================================== *)

Section PartialRunFacts.

Import Json Setup SetupProps.

Variable env : Env.
Variable args : Args.

Lemma update_claude_json_frame (board_type : string) (mcp_config : json)
      (w : World) :
  fst (update_claude_json env board_type mcp_config w) = Ret tt
  /\ config_file (snd (update_claude_json env board_type mcp_config w))
     = config_file w
  /\ settings_file (snd (update_claude_json env board_type mcp_config w))
     = settings_file w
  /\ gitignore (snd (update_claude_json env board_type mcp_config w))
     = gitignore w.
Proof.
  unfold update_claude_json.
  destruct (claude_json w) as [c|]; [|auto].
  destruct (read_json env c) as [data|]; [|auto].
  destruct (merge_mcp_server env board_type mcp_config data); auto.
Qed.

(** X30.  The wizard saves the project configuration before it touches
    the permissions: when every ZenHub value comes from the command
    line and [~/.claude/settings.json] holds JSON other than an object,
    the run ends with status 1 on the [TypeError] of
    [update_claude_settings], and by then the configuration file has
    been written with the board type; the settings keep their content
    and the ignore file, whose turn comes last, is not reached. *)
Theorem settings_failure_follows_saving (w : World) (c : content) (j : json) :
  board_type args = Some zenhub ->
  config_file w = None \/ force args = true ->
  given (api_token args) = true ->
  given (repository_id args) = true ->
  given (workspace_id args) = true ->
  given (default_pipeline_id args) = true ->
  given (organization_id args) = true ->
  given (default_labels args) = true \/ force args = true ->
  settings_file w = Some c ->
  read_json env c = Some j ->
  (forall m, j <> JObj m) ->
  fst (script env args w) = 1%Z
  /\ (exists config,
        config_file (snd (script env args w)) = Some (Dumped (JObj config))
        /\ Json.lookup "board_type" config = Some (JStr "zenhub"))
  /\ settings_file (snd (script env args w)) = Some c
  /\ gitignore (snd (script env args w)) = gitignore w.
Proof.
  intros Hb Hc Ht Hr Hw Hp Ho Hl Hs Hj Hno.
  assert (E0 : confirm_overwrite args w = (Ret tt, w)).
  { unfold confirm_overwrite. destruct Hc as [-> | ->]; [reflexivity|].
    now destruct (config_file w). }
  remember (script env args w) as run eqn:R.
  unfold script, main in R. unfold iobind at 1 in R. rewrite E0 in R.
  unfold choose_board in R. rewrite Hb in R.
  unfold iobind at 1, ret at 1 in R.
  unfold configure in R. unfold iobind at 1 in R.
  rewrite (setup_zenhub_from_arguments env args w Ht Hr Hw Hp Ho Hl) in R.
  cbn [board_name] in R.
  unfold iobind at 1, save_config in R.
  unfold iobind at 1 in R. unfold iobind at 1 in R.
  match type of R with
  | context [update_claude_json env ?bt ?mcp ?w1] =>
      destruct (update_claude_json_frame bt mcp w1) as (F1 & F2 & F3 & F4);
      destruct (update_claude_json env bt mcp w1) as [r w2]
  end.
  cbn [fst snd config_file settings_file gitignore] in F1, F2, F3, F4. subst r.
  rewrite (settings_type_error env "zenhub" c j w2 Hj Hno
             (eq_trans F3 Hs)) in R.
  subst run. cbn [fst snd exit_status set_settings config_file settings_file
                  gitignore].
  split; [reflexivity|]. split; [|split; [reflexivity | exact F4]].
  eexists. split; [exact F2 | reflexivity].
Qed.

End PartialRunFacts.

Lemma settings_failure_follows_saving_witness :
  fst (Setup.script SetupProps.offline SetupProps.full_zenhub_args
         (SetupProps.home_with_registry (Json.Dumped SetupProps.registry)
            (Json.Dumped (Json.JArr []))))
  = 1%Z
  /\ Setup.settings_file
       (snd (Setup.script SetupProps.offline SetupProps.full_zenhub_args
               (SetupProps.home_with_registry (Json.Dumped SetupProps.registry)
                  (Json.Dumped (Json.JArr [])))))
     = Some (Json.Dumped (Json.JArr [])).
Proof.
  destruct (settings_failure_follows_saving SetupProps.offline
              SetupProps.full_zenhub_args
              (SetupProps.home_with_registry (Json.Dumped SetupProps.registry)
                 (Json.Dumped (Json.JArr [])))
              (Json.Dumped (Json.JArr [])) (Json.JArr [])
              eq_refl (or_introl eq_refl) eq_refl eq_refl eq_refl eq_refl eq_refl
              (or_introl eq_refl) eq_refl eq_refl
              ltac:(intros m; discriminate)) as (H1 & _ & H3 & _).
  split; [exact H1 | exact H3].
Defined.
